(** * MLB schedule scraper: a shallow embedding and its properties

    The development follows the four scripts of [mlb_reg_2025]:
    - [mlb_schedule_scraper.py]: the schedule extractor, the two sink
      writers, the timestamp-based update and [main],
    - [day_sample.py]: the per-date lookup, its display and the update of
      today's games,
    - [odds_scrape.py]: the team-name table, the extraction of the odds
      and the script itself,
    - [espn_scrape.py]: the win probability.

    Text is a [string] over the 256 code points of Latin-1, with Python's
    classification of those code points (white space, digits, word
    characters, lower case).  The parsed document is a tree of tags and
    strings, as BeautifulSoup builds it; the parser and the serialisers of
    the Python libraries are operations of the class [Library]. *)

From Stdlib Require Import ZArith NArith Ascii String List Bool Lia.
From stdpp Require Import base option list gmap strings pretty.

Set Warnings "-register-all".
Local Open Scope string_scope.
Local Open Scope list_scope.

(* ================================================================== *)
(** ** Python [str] operations used by the scripts *)
(* ================================================================== *)

Module Py.

Definition ord (c : ascii) : N := N_of_ascii c.

Definition between (lo hi : N) (c : ascii) : bool :=
  ((lo <=? ord c) && (ord c <=? hi))%N.

(** [str.isspace] on one character: TAB..CR, FS..US, SPACE, NEL, NBSP. *)
Definition isspace (c : ascii) : bool :=
  between 9 13 c || between 28 32 c || (ord c =? 133)%N || (ord c =? 160)%N.

(** [\d] of [re] on [str]: the decimal digits (category Nd). *)
Definition isdigit (c : ascii) : bool := between 48 57 c.

(** [[A-Z]] *)
Definition isupper_az (c : ascii) : bool := between 65 90 c.

(** [\w] of [re] on [str]: alphanumeric characters and the underscore. *)
Definition isword (c : ascii) : bool :=
  isdigit c || isupper_az c || between 97 122 c || (ord c =? 95)%N
  || (ord c =? 170)%N || between 178 179 c || (ord c =? 181)%N
  || between 185 186 c || between 188 190 c
  || between 192 214 c || between 216 246 c || between 248 255 c.

Definition lower_char (c : ascii) : ascii :=
  if isupper_az c || between 192 214 c || between 216 222 c
  then ascii_of_N (ord c + 32) else c.

(** [s.lower()] *)
Fixpoint lower (s : string) : string :=
  match s with
  | EmptyString => EmptyString
  | String c s' => String (lower_char c) (lower s')
  end.

Fixpoint lstrip (s : string) : string :=
  match s with
  | EmptyString => EmptyString
  | String c s' => if isspace c then lstrip s' else s
  end.

Definition rstrip (s : string) : string := String.rev (lstrip (String.rev s)).

(** [s.strip()] *)
Definition strip (s : string) : string := rstrip (lstrip s).

(** [s.startswith(p)] *)
Definition startswith (p s : string) : bool := String.prefix p s.

(** [sub in s] *)
Fixpoint contains (sub s : string) : bool :=
  String.prefix sub s ||
  match s with
  | EmptyString => false
  | String _ s' => contains sub s'
  end.

(** [s[1:]] *)
Definition tail (s : string) : string :=
  match s with EmptyString => EmptyString | String _ s' => s' end.

(** The longest prefix of [s] whose characters satisfy [p], and the rest. *)
Fixpoint span (p : ascii -> bool) (s : string) : string * string :=
  match s with
  | EmptyString => (EmptyString, EmptyString)
  | String c s' =>
      if p c then let '(a, r) := span p s' in (String c a, r)
      else (EmptyString, s)
  end.

(** Every character of [s] satisfies [p]. *)
Fixpoint all_chars (p : ascii -> bool) (s : string) : bool :=
  match s with
  | EmptyString => true
  | String c s' => p c && all_chars p s'
  end.

(** [s] without its prefix [p], when it has it. *)
Fixpoint remove_prefix (p s : string) : option string :=
  match p, s with
  | EmptyString, _ => Some s
  | String a p', String b s' => if Ascii.eqb a b then remove_prefix p' s' else None
  | String _ _, EmptyString => None
  end.

(** [s.replace(old, new)] for a non-empty [old] (the scripts only pass
    literals): occurrences are replaced from the left and do not overlap.
    [skip] counts the characters of the occurrence still to be passed. *)
Fixpoint replace_from (skip : nat) (old new s : string) : string :=
  match s with
  | EmptyString => EmptyString
  | String c s' =>
      match skip with
      | S k => replace_from k old new s'
      | O =>
          if String.prefix old s
          then new +:+ replace_from (String.length old - 1) old new s'
          else String c (replace_from 0 old new s')
      end
  end.

Definition replace (old new s : string) : string :=
  match old with
  | EmptyString => s
  | String _ _ => replace_from 0 old new s
  end.

(** [s.split()]: the maximal runs of characters that are not white space.
    [cur] is the run being read. *)
Fixpoint split_from (cur s : string) : list string :=
  match s with
  | EmptyString => match cur with EmptyString => [] | _ => [cur] end
  | String c s' =>
      if isspace c
      then match cur with
           | EmptyString => split_from EmptyString s'
           | _ => cur :: split_from EmptyString s'
           end
      else split_from (cur +:+ String c EmptyString) s'
  end.

Definition split (s : string) : list string := split_from EmptyString s.

(** [int(s)] on a string of decimal digits, as the integer it denotes; the
    interpreter's cap on the length of such a string
    ([sys.set_int_max_str_digits]) is taken to be off. *)
Fixpoint int_from (acc : Z) (s : string) : Z :=
  match s with
  | EmptyString => acc
  | String c s' => int_from (10 * acc + (Z.of_N (ord c) - 48)) s'
  end.

Definition int (s : string) : Z := int_from 0 s.

End Py.

(* ================================================================== *)
(** ** The regular expressions of the scripts *)
(* ================================================================== *)

Module Re.

Definition lparen : ascii := "("%char.
Definition rparen : ascii := ")"%char.

(** A match of [\((\d+)\)] at the start of [s]: its group.  [\d+] takes
    the whole run of digits; a shorter run is followed by a digit, never
    by the closing parenthesis, so backtracking finds nothing more. *)
Definition score_here (s : string) : option string :=
  match s with
  | String c s' =>
      if Ascii.eqb c lparen then
        match Py.span Py.isdigit s' with
        | (String d ds, String e _) =>
            if Ascii.eqb e rparen then Some (String d ds) else None
        | _ => None
        end
      else None
  | EmptyString => None
  end.

(** [re.findall(r'\((\d+)\)', s)]: the groups of the matches found from
    the left, each search resuming after the previous match.  [skip]
    counts the characters of the current match still to be passed. *)
Fixpoint findall_scores_from (skip : nat) (s : string) : list string :=
  match s with
  | EmptyString => []
  | String _ s' =>
      match skip with
      | S k => findall_scores_from k s'
      | O =>
          match score_here s with
          | Some d => d :: findall_scores_from (S (String.length d)) s'
          | None => findall_scores_from 0 s'
          end
      end
  end.

Definition findall_scores (s : string) : list string := findall_scores_from 0 s.

(** A match of [/teams/[A-Z]+/] at the start of [s]. *)
Definition team_here (s : string) : bool :=
  match Py.remove_prefix "/teams/" s with
  | Some r =>
      match Py.span Py.isupper_az r with
      | (String _ _, String e _) => Ascii.eqb e "/"%char
      | _ => false
      end
  | None => false
  end.

(** [re.compile(r'/teams/[A-Z]+/').search(s)] as a truth value. *)
Fixpoint search_team (s : string) : bool :=
  team_here s ||
  match s with
  | EmptyString => false
  | String _ s' => search_team s'
  end.

(** The length of a match of [<[^>]+>] at the start of [s]. *)
Definition tag_here (s : string) : option nat :=
  match s with
  | String c s' =>
      if Ascii.eqb c "<"%char then
        match Py.span (fun x => negb (Ascii.eqb x ">"%char)) s' with
        | (String b bs, String _ _) => Some (String.length (String b bs) + 2)
        | _ => None
        end
      else None
  | EmptyString => None
  end.

(** [re.sub(r'<[^>]+>', '', s)] *)
Fixpoint sub_tags_from (skip : nat) (s : string) : string :=
  match s with
  | EmptyString => EmptyString
  | String c s' =>
      match skip with
      | S k => sub_tags_from k s'
      | O =>
          match tag_here s with
          | Some n => sub_tags_from (n - 1) s'
          | None => String c (sub_tags_from 0 s')
          end
      end
  end.

Definition sub_tags (s : string) : string := sub_tags_from 0 s.

(** [re.sub(r'\s+', ' ', s)]; [in_run] tells that the previous character
    was white space, already replaced. *)
Fixpoint sub_spaces_from (in_run : bool) (s : string) : string :=
  match s with
  | EmptyString => EmptyString
  | String c s' =>
      if Py.isspace c
      then if in_run then sub_spaces_from true s'
           else String " "%char (sub_spaces_from true s')
      else String c (sub_spaces_from false s')
  end.

Definition sub_spaces (s : string) : string := sub_spaces_from false s.

(** *** The date pattern of [day_sample.py]

    [rf'\b{month}\b.*\b{day}\b.*\b{year}\b'] pastes the three tokens into
    the pattern text.  A token free of the operators of the pattern
    language stands for itself; then the pattern is the sequence of items
    below.  A token with an operator is read by [re] as pattern syntax,
    which is not modelled: [date_pattern] gives [None] for it. *)

Inductive item :=
| Boundary                (* \b *)
| Literal (s : string)    (* the characters of s *)
| AnyStar.                (* .*  (no newline) *)

Definition is_operator (c : ascii) : bool :=
  existsb (Ascii.eqb c)
    ["."; "^"; "$"; "*"; "+"; "?"; "{"; "}"; "["; "]"; "\"; "|"; "("; ")"]%char.

Fixpoint plain (s : string) : bool :=
  match s with
  | EmptyString => true
  | String c s' => negb (is_operator c) && plain s'
  end.

Definition date_pattern (month day year : string) : option (list item) :=
  if plain month && plain day && plain year
  then Some [Boundary; Literal month; Boundary; AnyStar;
             Boundary; Literal day; Boundary; AnyStar;
             Boundary; Literal year; Boundary]
  else None.

Definition word_opt (c : option ascii) : bool :=
  match c with Some x => Py.isword x | None => false end.

Definition head_char (s : string) : option ascii :=
  match s with String c _ => Some c | EmptyString => None end.

(** The last character read once [lit] has been passed after [prev]. *)
Fixpoint last_char (prev : option ascii) (lit : string) : option ascii :=
  match lit with
  | EmptyString => prev
  | String c l' => last_char (Some c) l'
  end.

(** [items] match a prefix of [s], the character before [s] being [prev].
    For [.*] every number of characters other than newline is tried. *)
Fixpoint match_items (items : list item) (prev : option ascii) (s : string) : bool :=
  match items with
  | [] => true
  | Boundary :: r =>
      xorb (word_opt prev) (word_opt (head_char s)) && match_items r prev s
  | Literal l :: r =>
      match Py.remove_prefix l s with
      | Some s' => match_items r (last_char prev l) s'
      | None => false
      end
  | AnyStar :: r =>
      (fix any (prev : option ascii) (s : string) : bool :=
         match_items r prev s ||
         match s with
         | EmptyString => false
         | String c s' =>
             negb (Ascii.eqb c (ascii_of_nat 10)) && any (Some c) s'
         end) prev s
  end.

(** [re.search(pattern, s)] as a truth value: a match at some position. *)
Fixpoint search_items (items : list item) (prev : option ascii) (s : string) : bool :=
  match_items items prev s ||
  match s with
  | EmptyString => false
  | String c s' => search_items items (Some c) s'
  end.

End Re.

(* ================================================================== *)
(** ** The document tree of BeautifulSoup *)
(* ================================================================== *)

Module Bs4.

(** A node is a string of text or a tag with its attributes (each name
    once, as in the [attrs] dictionary) and its contents.  Comments and
    the other special strings, which [get_text] leaves out, are not part
    of the tree. *)
Inductive node :=
| NavigableString (s : string)
| Tag (name : string) (attrs : list (string * string)) (contents : list node).

(** [n.descendants]: the nodes below [n], in document order. *)
Fixpoint descendants (n : node) : list node :=
  match n with
  | NavigableString _ => []
  | Tag _ _ cs => flat_map (fun c => c :: descendants c) cs
  end.

Definition name_in (names : list string) (n : node) : bool :=
  match n with
  | Tag nm _ _ => bool_decide (nm ∈ names)
  | NavigableString _ => false
  end.

(** [n.find_all(names)] *)
Definition find_all (names : list string) (n : node) : list node :=
  List.filter (name_in names) (descendants n).

Definition name (n : node) : string :=
  match n with Tag nm _ _ => nm | NavigableString _ => EmptyString end.

Fixpoint assoc (k : string) (l : list (string * string)) : option string :=
  match l with
  | [] => None
  | (k', v) :: l' => if String.eqb k k' then Some v else assoc k l'
  end.

(** [n.get(k)] *)
Definition get (k : string) (n : node) : option string :=
  match n with
  | Tag _ a _ => assoc k a
  | NavigableString _ => None
  end.

(** [n.get('class', [])]: the parser splits the attribute at white space. *)
Definition get_class (n : node) : list string :=
  match get "class" n with
  | Some v => Py.split v
  | None => []
  end.

Definition has_class (c : string) (n : node) : bool :=
  bool_decide (c ∈ get_class n).

(** The strings below [n], in document order. *)
Definition strings (n : node) : list string :=
  flat_map (fun d => match d with NavigableString s => [s] | Tag _ _ _ => [] end)
           (descendants n).

(** [n.get_text()] *)
Definition get_text (n : node) : string := String.concat "" (strings n).

Definition nonempty (s : string) : bool :=
  match s with EmptyString => false | String _ _ => true end.

(** [n.get_text(strip=True)]: every string is stripped, the empty ones
    are dropped. *)
Definition get_text_strip (n : node) : string :=
  String.concat "" (List.filter nonempty (List.map Py.strip (strings n))).

(** [n.find('span', attrs={'tz': 'E'})] *)
Definition find_span_tz (n : node) : option node :=
  List.find (fun d => name_in ["span"] d && bool_decide (get "tz" d = Some "E"))
            (descendants n).

(** [n.find(nm)] *)
Definition find (nm : string) (n : node) : option node :=
  List.find (name_in [nm]) (descendants n).

Definition team_href (n : node) : bool :=
  match get "href" n with
  | Some h => Re.search_team h
  | None => false
  end.

(** [n.find_all('a', href=re.compile(r'/teams/[A-Z]+/'))] *)
Definition find_team_links (n : node) : list node :=
  List.filter (fun d => name_in ["a"] d && team_href d) (descendants n).

(** [n.find_all('p', class_='game')] *)
Definition find_game_paragraphs (n : node) : list node :=
  List.filter (fun d => name_in ["p"] d && has_class "game" d) (descendants n).

End Bs4.

Import Bs4.

(* ================================================================== *)
(** ** Records, libraries and the world *)
(* ================================================================== *)

(** The dictionary [game_data] of [get_all_games_from_schedule]. *)
Record game := {
  date : string;
  team1 : option string;
  team2 : option string;
  score1 : option Z;
  score2 : option Z;
  time : option string;
  game_type : option string;
  raw_html : string;
  text_content : string
}.

Definition set_time (v : string) (g : game) : game :=
  {| date := date g; team1 := team1 g; team2 := team2 g; score1 := score1 g;
     score2 := score2 g; time := Some v; game_type := game_type g;
     raw_html := raw_html g; text_content := text_content g |}.

Definition set_teams (a b : string) (g : game) : game :=
  {| date := date g; team1 := Some a; team2 := Some b; score1 := score1 g;
     score2 := score2 g; time := time g; game_type := game_type g;
     raw_html := raw_html g; text_content := text_content g |}.

Definition set_score1 (v : Z) (g : game) : game :=
  {| date := date g; team1 := team1 g; team2 := team2 g; score1 := Some v;
     score2 := score2 g; time := time g; game_type := game_type g;
     raw_html := raw_html g; text_content := text_content g |}.

Definition set_score2 (v : Z) (g : game) : game :=
  {| date := date g; team1 := team1 g; team2 := team2 g; score1 := score1 g;
     score2 := Some v; time := time g; game_type := game_type g;
     raw_html := raw_html g; text_content := text_content g |}.

(** The row [clean_game] of [save_to_csv]: the keys of [fieldnames]. *)
Record csv_row := {
  row_date : string;
  row_team1 : option string;
  row_team2 : option string;
  row_score1 : option Z;
  row_score2 : option Z;
  row_time : option string;
  row_game_type : option string;
  row_text_content : string
}.

(** What the scripts take from the Python libraries without looking inside:
    the HTML parser, the rendering of a tag, and the two serialisers. *)
Class Library := {
  BeautifulSoup : string -> node;                       (* BeautifulSoup(file, 'html.parser') *)
  str_tag : node -> string;                             (* str(element) *)
  csv_dump : list string -> list csv_row -> string;     (* csv.DictWriter: header and rows *)
  json_dump : list game -> string                       (* json.dump(games, indent=2, ensure_ascii=False) *)
}.

Inductive weekday := Monday | Tuesday | Wednesday | Thursday | Friday | Saturday | Sunday.

Inductive month :=
| January | February | March | April | May | June
| July | August | September | October | November | December.

(** [datetime.now()], as far as the scripts look at it. *)
Record datetime := { dt_weekday : weekday; dt_month : month; dt_day : nat; dt_year : nat }.

Definition weekday_name (d : weekday) : string :=
  match d with
  | Monday => "Monday" | Tuesday => "Tuesday" | Wednesday => "Wednesday"
  | Thursday => "Thursday" | Friday => "Friday" | Saturday => "Saturday"
  | Sunday => "Sunday"
  end.

Definition month_name (m : month) : string :=
  match m with
  | January => "January" | February => "February" | March => "March"
  | April => "April" | May => "May" | June => "June" | July => "July"
  | August => "August" | September => "September" | October => "October"
  | November => "November" | December => "December"
  end.

(** [now.strftime("%A, %B %-d, %Y")] *)
Definition strftime_long (now : datetime) : string :=
  weekday_name (dt_weekday now) +:+ ", " +:+ month_name (dt_month now) +:+ " "
  +:+ pretty (dt_day now) +:+ ", " +:+ pretty (dt_year now).

Inductive exn := FileNotFoundError | PermissionError.

(** One constructor per [print] of the modelled functions. *)
Inductive message :=
| NoGamesToSave                           (* "No games found to save" *)
| SavedGames (n : nat) (path : string)    (* "Saved {n} games to {path}" *)
| CheckingForUpdates                      (* "Checking for updates to MLB schedule..." and the rule *)
| HtmlNotFound (path : string)            (* "Error: HTML file not found at {path}" *)
| HtmlFileInfo (path : string) (t : Z)    (* "HTML file: {path}", "Last modified: {t}" *)
| CsvFileInfo (path : string) (t : Z)     (* "CSV file: {path}", "Last modified: {t}" *)
| CsvUpToDate                             (* "CSV is up to date (HTML hasn't changed since last update)" *)
| ExtractingGames                         (* "Extracting games from updated HTML..." *)
| NoGamesInHtml                           (* "No games found in the HTML file" *)
| ExtractedGames (n : nat)                (* "Successfully extracted {n} games" *)
| UpdatedFiles (csv json : string)        (* "Successfully updated:" and the three lines after it *)
| ErrorUpdating (e : exn)                 (* "Error updating CSV: {e}" *)
| DateNotFound (target : string)          (* day_sample: "Date '{target}' not found in schedule." *)
| AvailableDates                          (* day_sample: "Available dates include:" *)
| AvailableDate (d : string).             (* day_sample: "  - {d}" *)

Record file := { mtime : Z; text : string }.

(** The part of the machine the scripts read and write: the files with
    their modification times, the paths that cannot be opened for writing,
    the clock that stamps a write, the calendar date and the terminal. *)
Record world := {
  files : gmap string file;
  locked : gset string;
  clock : Z;
  today : datetime;
  stdout : list message
}.

Definition with_files (fs : gmap string file) (w : world) : world :=
  {| files := fs; locked := locked w; clock := clock w; today := today w;
     stdout := stdout w |}.

Definition with_clock (t : Z) (w : world) : world :=
  {| files := files w; locked := locked w; clock := t; today := today w;
     stdout := stdout w |}.

Definition with_stdout (out : list message) (w : world) : world :=
  {| files := files w; locked := locked w; clock := clock w; today := today w;
     stdout := out |}.

(** *** Computations that change the world and may raise *)

Inductive res (A : Type) := Ok (a : A) | Raise (e : exn).
Arguments Ok {A} a.
Arguments Raise {A} e.

Definition M (A : Type) : Type := world -> res A * world.

Definition ret {A} (a : A) : M A := fun w => (Ok a, w).

Definition bind {A B} (m : M A) (k : A -> M B) : M B :=
  fun w =>
    match m w with
    | (Ok a, w') => k a w'
    | (Raise e, w') => (Raise e, w')
    end.

Definition try_except {A} (m : M A) (handler : exn -> M A) : M A :=
  fun w =>
    match m w with
    | (Ok a, w') => (Ok a, w')
    | (Raise e, w') => handler e w'
    end.

#[global] Instance M_ret : MRet M := @ret.
#[global] Instance M_bind : MBind M := fun A B k m => bind m k.

(** [print(...)] *)
Definition print (m : message) : M unit :=
  fun w => (Ok tt, with_stdout (stdout w ++ [m]) w).

(** [os.path.exists(path)] *)
Definition path_exists (path : string) : M bool :=
  fun w => (Ok (bool_decide (is_Some (files w !! path))), w).

(** [os.path.getmtime(path)] *)
Definition getmtime (path : string) : M Z :=
  fun w =>
    match files w !! path with
    | Some f => (Ok (mtime f), w)
    | None => (Raise FileNotFoundError, w)
    end.

(** [with open(path, 'r') as f: f.read()] *)
Definition read_file (path : string) : M string :=
  fun w =>
    match files w !! path with
    | Some f => (Ok (text f), w)
    | None => (Raise FileNotFoundError, w)
    end.

(** [with open(path, 'w') as f: f.write(t)]: the file is stamped with the
    clock, which moves on. *)
Definition write_file (path t : string) : M unit :=
  fun w =>
    if bool_decide (path ∈ locked w) then (Raise PermissionError, w)
    else (Ok tt,
          with_clock (clock w + 1)
            (with_files (<[path := {| mtime := clock w; text := t |}]> (files w)) w)).

(** [os.utime(path, (t, t))] *)
Definition utime (path : string) (t : Z) : M unit :=
  fun w =>
    match files w !! path with
    | Some f => (Ok tt, with_files (<[path := {| mtime := t; text := text f |}]> (files w)) w)
    | None => (Raise FileNotFoundError, w)
    end.

(** [datetime.now()] *)
Definition now : M datetime := fun w => (Ok (today w), w).

(* ================================================================== *)
(** ** mlb_schedule_scraper.py *)
(* ================================================================== *)

Section Schedule.
Context `{Library}.

(** Lines 41-69: the dictionary built for one game paragraph, after the
    assignments of time, teams and scores. *)
Definition game_data (current_date : string) (element : node) : game :=
  let g0 :=
    {| date := current_date; team1 := None; team2 := None;
       score1 := None; score2 := None; time := None; game_type := None;
       raw_html := str_tag element; text_content := get_text element |} in
  let g1 :=
    match find_span_tz element with
    | Some time_span => set_time (get_text_strip time_span) g0
    | None => g0
    end in
  match find_team_links element with
  | link0 :: link1 :: _ =>
      let g2 := set_teams (get_text_strip link0) (get_text_strip link1) g1 in
      match Re.findall_scores (get_text element) with
      | s0 :: s1 :: _ => set_score2 (Py.int s1) (set_score1 (Py.int s0) g2)
      | [s0] => set_score1 (Py.int s0) g2
      | [] => g2
      end
  | _ => g1
  end.

(** The state of the loop: [current_date] and [games]. *)
Definition scan_state : Type := option string * list game.

(** Lines 28-71: one turn of the loop over the headings and paragraphs. *)
Definition schedule_step (today_str : string) (st : scan_state) (element : node)
  : scan_state :=
  let '(current_date, games) := st in
  if String.eqb (name element) "h3" then
    let date_text := get_text_strip element in
    if String.eqb date_text "Today's Games" then (Some today_str, games)
    else if nonempty date_text && Py.contains "," date_text
            && Py.contains "2025" date_text
    then (Some date_text, games)
    else st
  else if String.eqb (name element) "p" && has_class "game" element then
    match current_date with
    | None => st
    | Some EmptyString => st
    | Some d =>
        if Py.contains "(Spring)" (get_text element) then st
        else if (2 <=? length (find_team_links element))%nat
        then (current_date, (games ++ [game_data d element])%list)
        else st
    end
  else st.

(** Lines 20-73 on the parsed document. *)
Definition scan_schedule (today_str : string) (soup : node) : list game :=
  snd (fold_left (schedule_step today_str) (find_all ["h3"; "p"] soup) (None, [])).

(** [datetime.now().strftime("%A, %B %-d, %Y").replace(" 0", " ")] *)
Definition today_string (dt : datetime) : string :=
  Py.replace " 0" " " (strftime_long dt).

Definition get_all_games_from_schedule (html_file_path : string) : M (list game) :=
  content ← read_file html_file_path;
  dt ← now;
  mret (scan_schedule (today_string dt) (BeautifulSoup content)).

Definition fieldnames : list string :=
  ["date"; "team1"; "team2"; "score1"; "score2"; "time"; "game_type"; "text_content"].

(** Lines 85-90 *)
Definition clean_game (g : game) : csv_row :=
  {| row_date := date g; row_team1 := team1 g; row_team2 := team2 g;
     row_score1 := score1 g; row_score2 := score2 g; row_time := time g;
     row_game_type := game_type g;
     row_text_content :=
       Py.strip (Re.sub_spaces (Re.sub_tags (text_content g))) |}.

Definition save_to_csv (games : list game) (output_file : string) : M unit :=
  match games with
  | [] => print NoGamesToSave
  | _ :: _ =>
      write_file output_file (csv_dump fieldnames (List.map clean_game games));;
      print (SavedGames (length games) output_file)
  end.

Definition save_to_json (games : list game) (output_file : string) : M unit :=
  match games with
  | [] => print NoGamesToSave
  | _ :: _ =>
      write_file output_file (json_dump games);;
      print (SavedGames (length games) output_file)
  end.

(** Lines 141-171: the body of the [try].  Lines 149-159 read the
    previous CSV into variables that nothing uses and swallow every
    exception of that reading: they change neither the world nor the
    result and are left out. *)
Definition extract_and_write
    (html_file_path csv_file_path json_file_path : string) (html_mtime : Z)
  : M bool :=
  games ← get_all_games_from_schedule html_file_path;
  match games with
  | [] => print NoGamesInHtml;; mret false
  | _ :: _ =>
      print (ExtractedGames (length games));;
      save_to_csv games csv_file_path;;
      save_to_json games json_file_path;;
      utime csv_file_path html_mtime;;
      print (UpdatedFiles csv_file_path json_file_path);;
      mret true
  end.

(** Lines 173-175: the [except] clause. *)
Definition on_error (e : exn) : M bool := print (ErrorUpdating e);; mret false.

(** Lines 112-175 *)
Definition update_csv_from_html
    (html_file_path csv_file_path json_file_path : string) (force_update : bool)
  : M bool :=
  print CheckingForUpdates;;
  html_exists ← path_exists html_file_path;
  if negb html_exists then
    print (HtmlNotFound html_file_path);; mret false
  else
    html_mtime ← getmtime html_file_path;
    csv_exists ← path_exists csv_file_path;
    csv_mtime ← (if csv_exists then getmtime csv_file_path else mret 0%Z);
    print (HtmlFileInfo html_file_path html_mtime);;
    print (CsvFileInfo csv_file_path csv_mtime);;
    if negb force_update && csv_exists && (html_mtime <=? csv_mtime)%Z then
      print CsvUpToDate;; mret true
    else
      print ExtractingGames;;
      try_except
        (extract_and_write html_file_path csv_file_path json_file_path html_mtime)
        on_error.

End Schedule.

(* ================================================================== *)
(** ** day_sample.py *)
(* ================================================================== *)

Module DaySample.

(** The dictionary [game_data] of [get_games_for_date] (no date key). *)
Record game_data := {
  team1 : option string;
  team2 : option string;
  score1 : option Z;
  score2 : option Z;
  time : option string;
  game_type : option string;
  raw_html : string;
  text_content : string
}.

(** An entry of [game_sections]: the heading text and the game paragraphs
    of one [div]. *)
Record section := { sec_date : string; sec_games : list node }.

(** An entry of the result. *)
Record day := { day_date : string; day_games : list game_data }.

(** Lines 108-118 *)
Definition game_sections (soup : node) : list section :=
  omap (fun div =>
          match find_game_paragraphs div with
          | [] => None
          | ps =>
              Some {| sec_date :=
                        match find "h3" div with
                        | Some h => get_text_strip h
                        | None => "Unknown Date"
                        end;
                      sec_games := ps |}
          end)
       (find_all ["div"] soup).

(** Lines 142, with the pattern built at line 141: the token-bounded
    month, day, year search.  [None]: a token carries pattern syntax. *)
Definition regex_match (month day year section_date_lower : string) : option bool :=
  match Re.date_pattern month day year with
  | Some items => Some (Re.search_items items None section_date_lower)
  | None => None
  end.

(** Line 146: the plain substring test. *)
Definition substring_match (target_date_lower section_date_lower : string) : bool :=
  Py.contains target_date_lower section_date_lower.

(** Lines 125-147: the body of the loop, as the answer to "is this
    section appended to [matching_sections]?". *)
Definition section_matches (target_date : string) (s : section) : option bool :=
  let target_date_lower := Py.lower target_date in
  let section_date_lower := Py.lower (sec_date s) in
  match Py.split target_date_lower with
  | target_month :: part1 :: target_year :: _ =>
      let target_day := Py.replace "," "" part1 in
      let target_day :=
        if Py.startswith "0" target_day then Py.tail target_day else target_day in
      regex_match target_month target_day target_year section_date_lower
  | _ => Some (substring_match target_date_lower section_date_lower)
  end.

(** Lines 121-147 *)
Fixpoint matching_sections (target_date : string) (sections : list section)
  : option (list section) :=
  match sections with
  | [] => Some []
  | s :: rest =>
      b ← section_matches target_date s;
      r ← matching_sections target_date rest;
      Some (if b : bool then s :: r else r)
  end.

Section Script.
Context `{Library}.

(** Lines 163-201: the record of one paragraph, when it is appended. *)
Definition game_of_paragraph (game_p : node) : option game_data :=
  match find_team_links game_p with
  | link0 :: link1 :: _ =>
      let scores := Re.findall_scores (get_text game_p) in
      Some {| team1 := Some (get_text_strip link0);
              team2 := Some (get_text_strip link1);
              score1 := match scores with
                        | s0 :: _ => Some (Py.int s0)
                        | [] => None
                        end;
              score2 := match scores with
                        | _ :: s1 :: _ => Some (Py.int s1)
                        | _ => None
                        end;
              time := get_text_strip <$> find_span_tz game_p;
              game_type :=
                match find "span" game_p with
                | Some sp =>
                    if Py.contains "Spring" (get_text sp) then Some "Spring" else None
                | None => None
                end;
              raw_html := str_tag game_p;
              text_content := get_text_strip game_p |}
  | _ => None
  end.

(** Lines 159-206 *)
Definition day_of_section (s : section) : day :=
  {| day_date := sec_date s; day_games := omap game_of_paragraph (sec_games s) |}.

Fixpoint print_all (ms : list message) : M unit :=
  match ms with
  | [] => mret tt
  | m :: ms' => print m;; print_all ms'
  end.

(** [None] when the target date carries pattern syntax (see [Re.date_pattern]). *)
Definition get_games_for_date (html_file_path target_date : string)
  : M (option (list day)) :=
  content ← read_file html_file_path;
  let sections := game_sections (BeautifulSoup content) in
  match matching_sections target_date sections with
  | None => mret None
  | Some [] =>
      print (DateNotFound target_date);;
      print AvailableDates;;
      print_all (List.map (fun s => AvailableDate (sec_date s)) (take 5 sections));;
      mret (Some [])
  | Some selected_days => mret (Some (List.map day_of_section selected_days))
  end.

End Script.

(** *** The policy as the specification words it

    Tier 1 is the token-bounded search; a target that does not split into
    month, day and year gives it nothing to search for. *)
Definition tier1 (target_date : string) (s : section) : option bool :=
  match Py.split (Py.lower target_date) with
  | target_month :: part1 :: target_year :: _ =>
      let target_day := Py.replace "," "" part1 in
      let target_day :=
        if Py.startswith "0" target_day then Py.tail target_day else target_day in
      regex_match target_month target_day target_year (Py.lower (sec_date s))
  | _ => Some false
  end.

(** Tier 2 is the plain substring test. *)
Definition tier2 (target_date : string) (s : section) : bool :=
  substring_match (Py.lower target_date) (Py.lower (sec_date s)).

Fixpoint keep_tier1 (target_date : string) (sections : list section)
  : option (list section) :=
  match sections with
  | [] => Some []
  | s :: rest =>
      b ← tier1 target_date s;
      r ← keep_tier1 target_date rest;
      Some (if b : bool then s :: r else r)
  end.

(** "Tier 1 first, tier 2 only if tier 1 yields zero matches." *)
Definition two_tier_policy (target_date : string) (sections : list section)
  : option (list section) :=
  match keep_tier1 target_date sections with
  | Some [] => Some (List.filter (tier2 target_date) sections)
  | r => r
  end.

End DaySample.

(* ================================================================== *)
(** ** odds_scrape.py *)
(* ================================================================== *)

Module Odds.

(** The literal of [TEAM_CODE_MAP], entry by entry. *)
Definition TEAM_CODE_ITEMS : list (string * string) :=
  [ ("Arizona Diamondbacks", "ARI"); ("Arizona", "ARI");
    ("Atlanta Braves", "ATL"); ("Atlanta", "ATL");
    ("Baltimore Orioles", "BAL"); ("Baltimore", "BAL");
    ("Boston Red Sox", "BOS"); ("Boston", "BOS");
    ("Chicago White Sox", "CWS"); ("Chi. White Sox", "CWS"); ("White Sox", "CWS");
    ("Chicago Cubs", "CHC"); ("Chi. Cubs", "CHC"); ("Cubs", "CHC");
    ("Cincinnati Reds", "CIN"); ("Cincinnati", "CIN");
    ("Cleveland Guardians", "CLE"); ("Cleveland", "CLE");
    ("Colorado Rockies", "COL"); ("Colorado", "COL");
    ("Detroit Tigers", "DET"); ("Detroit", "DET");
    ("Houston Astros", "HOU"); ("Houston", "HOU");
    ("Kansas City Royals", "KC"); ("Kansas City", "KC");
    ("Los Angeles Angels", "LAA"); ("LA Angels", "LAA"); ("Angels", "LAA");
    ("Los Angeles Dodgers", "LAD"); ("LA Dodgers", "LAD"); ("Dodgers", "LAD");
    ("Miami Marlins", "MIA"); ("Miami", "MIA");
    ("Milwaukee Brewers", "MIL"); ("Milwaukee", "MIL");
    ("Minnesota Twins", "MIN"); ("Minnesota", "MIN");
    ("New York Yankees", "NYY"); ("NY Yankees", "NYY"); ("Yankees", "NYY");
    ("New York Mets", "NYM"); ("NY Mets", "NYM"); ("Mets", "NYM");
    ("Oakland Athletics", "OAK"); ("Oakland", "OAK");
    ("Philadelphia Phillies", "PHI"); ("Philadelphia", "PHI");
    ("Pittsburgh Pirates", "PIT"); ("Pittsburgh", "PIT");
    ("San Diego Padres", "SD"); ("San Diego", "SD");
    ("San Francisco Giants", "SF"); ("San Francisco", "SF");
    ("Seattle Mariners", "SEA"); ("Seattle", "SEA");
    ("St. Louis Cardinals", "STL"); ("St. Louis", "STL");
    ("Tampa Bay Rays", "TB"); ("Tampa Bay", "TB");
    ("Texas Rangers", "TEX"); ("Texas", "TEX");
    ("Toronto Blue Jays", "TOR"); ("Toronto", "TOR");
    ("Washington Nationals", "WSH"); ("Washington", "WSH") ].

(** The dictionary.  A Python literal keeps the last entry of a repeated
    key and [list_to_map] the first; no key is repeated here
    ([TEAM_CODE_ITEMS_nodup] below). *)
Definition TEAM_CODE_MAP : gmap string string := list_to_map TEAM_CODE_ITEMS.

(** [TEAM_CODE_MAP.get(full, full)], lines 95 and 96. *)
Definition team_code (full : string) : string :=
  default full (TEAM_CODE_MAP !! full).

End Odds.

(* ================================================================== *)
(** ** Notions used in the statements *)
(* ================================================================== *)

(** A heading that sets the active date: the two assigning branches of
    lines 30-33. *)
Definition sets_date_context (element : node) : bool :=
  String.eqb (name element) "h3" &&
  (String.eqb (get_text_strip element) "Today's Games"
   || (Py.contains "," (get_text_strip element)
       && Py.contains "2025" (get_text_strip element))).

(** The lengths of the maximal runs of digits of [s]; [cur] is the length
    of the run being read. *)
Fixpoint digit_runs (cur : nat) (s : string) : list nat :=
  match s with
  | EmptyString => match cur with O => [] | _ => [cur] end
  | String c s' =>
      if Py.isdigit c then digit_runs (S cur) s'
      else match cur with
           | O => digit_runs 0 s'
           | _ => cur :: digit_runs 0 s'
           end
  end.

(** "A four-digit year token": a maximal run of exactly four digits. *)
Definition has_year_token (s : string) : bool := bool_decide (4 ∈ digit_runs 0 s).

(** The heading rule as the specification words it: a comma and a
    four-digit year token. *)
Definition heading_rule_as_worded (date_text : string) (current_date : option string)
  : option string :=
  if Py.contains "," date_text && has_year_token date_text
  then Some date_text else current_date.

#[global] Instance exn_eq_dec : EqDecision exn.
Proof. solve_decision. Defined.

#[global] Instance message_eq_dec : EqDecision message.
Proof. solve_decision. Defined.

(** What a computation prints when run in [w]. *)
Definition printed {A} (m : M A) (w : world) : list message :=
  drop (length (stdout w)) (stdout (snd (m w))).

(** The update passes the gate: it announces the extraction (line 139). *)
Definition proceeds `{Library} (html csv json : string) (force : bool) (w : world) : Prop :=
  ExtractingGames ∈ printed (update_csv_from_html html csv json force) w.

(** The gate as the specification words it, for any two paths. *)
Definition proceed_as_worded (html csv : string) (force : bool) (w : world) : Prop :=
  files w !! csv = None ∨ force = true ∨
  ∃ fh fc, files w !! html = Some fh ∧ files w !! csv = Some fc ∧ (mtime fc < mtime fh)%Z.

(** The lines the update prints before the gate, for a source [fh] that
    exists. *)
Definition before_gate (html csv : string) (fh : file) (w : world) : list message :=
  [CheckingForUpdates; HtmlFileInfo html (mtime fh);
   CsvFileInfo csv (from_option mtime 0%Z (files w !! csv))].

(** The condition of line 135, on the source [fh] and the files of [w]. *)
Definition up_to_date (csv : string) (force : bool) (fh : file) (w : world) : bool :=
  negb force && bool_decide (is_Some (files w !! csv))
  && (mtime fh <=? from_option mtime 0%Z (files w !! csv))%Z.

(* ================================================================== *)
(** ** Sample documents and worlds *)
(* ================================================================== *)

Definition document (contents : list node) : node := Tag "[document]" [] contents.

Definition team_link (code team : string) : node :=
  Tag "a" [("href", "/teams/" +:+ code +:+ "/2025.shtml")] [NavigableString team].

(** "Guardians (3) @ Mets (5)" *)
Definition played_game : node :=
  Tag "p" [("class", "game")]
    [team_link "CLE" "Guardians"; NavigableString " (3) @ ";
     team_link "NYM" "Mets"; NavigableString " (5)"].

Definition heading (t : string) : node := Tag "h3" [] [NavigableString t].

Definition august4_html : string :=
  "<h3>August 4, 2025</h3><p class='game'><a href='/teams/CLE/2025.shtml'>Guardians</a> (3) @ <a href='/teams/NYM/2025.shtml'>Mets</a> (5)</p>".

Definition august4_soup : node := document [heading "August 4, 2025"; played_game].

Definition todays_html : string :=
  "<h3>Today's Games</h3><p class='game'><a href='/teams/CLE/2025.shtml'>Guardians</a> (3) @ <a href='/teams/NYM/2025.shtml'>Mets</a> (5)</p>".

Definition todays_soup : node := document [heading "Today's Games"; played_game].

Definition undated_html : string :=
  "<h3>Schedule</h3><p class='game'><a href='/teams/CLE/2025.shtml'>Guardians</a> (3) @ <a href='/teams/NYM/2025.shtml'>Mets</a> (5)</p>".

Definition undated_soup : node := document [heading "Schedule"; played_game].

(** A library whose parser is known on the three sample texts. *)
Definition sample_parser (t : string) : node :=
  if String.eqb t august4_html then august4_soup
  else if String.eqb t todays_html then todays_soup
  else if String.eqb t undated_html then undated_soup
  else document [].

Definition sample_library : Library :=
  {| BeautifulSoup := sample_parser;
     str_tag := fun _ => "<p>";
     csv_dump := fun _ rows => "date,team1,team2,score1,score2,time,game_type,text_content";
     json_dump := fun _ => "[]" |}.

Definition monday_august4 : datetime :=
  {| dt_weekday := Monday; dt_month := August; dt_day := 4; dt_year := 2025 |}.

Definition tuesday_august5 : datetime :=
  {| dt_weekday := Tuesday; dt_month := August; dt_day := 5; dt_year := 2025 |}.

Definition world_of (fs : list (string * file)) (dt : datetime) : world :=
  {| files := list_to_map fs; locked := ∅; clock := 2000; today := dt; stdout := [] |}.

Definition schedule_path : string := "html/MLB-schedule.shtml".
Definition csv_path : string := "mlb_schedule_all_games.csv".
Definition json_path : string := "mlb_schedule_all_games.json".

Definition schedule_file (t : string) : string * file :=
  (schedule_path, {| mtime := 1000; text := t |}).

(** The schedule of August 4 alone on the disk. *)
Definition august4_world : world := world_of [schedule_file august4_html] monday_august4.

(** The schedule with the placeholder heading, read on a Monday and, the
    file untouched, on the Tuesday after. *)
Definition todays_world_monday : world := world_of [schedule_file todays_html] monday_august4.
Definition todays_world_tuesday : world := world_of [schedule_file todays_html] tuesday_august5.

(** A schedule whose only heading sets no date. *)
Definition undated_world : world := world_of [schedule_file undated_html] monday_august4.

(** No schedule on the disk. *)
Definition empty_world : world := world_of [] monday_august4.

(** The schedule and a CSV produced from it earlier (same time stamp). *)
Definition updated_world : world :=
  world_of [schedule_file august4_html; (csv_path, {| mtime := 1000; text := "old" |})]
           monday_august4.

(* ================================================================== *)
(** ** Further notions used in the statements *)
(* ================================================================== *)

(** The token [d] as it stands in the text: between parentheses. *)
Definition parenthesised (d : string) : string :=
  String Re.lparen (d +:+ String Re.rparen EmptyString).

(** A game paragraph that gives a record once a date is active: the tests
    of lines 34, 38 and 59. *)
Definition yields_record (element : node) : bool :=
  name_in ["p"] element && has_class "game" element
  && negb (Py.contains "(Spring)" (get_text element))
  && (2 <=? length (find_team_links element))%nat.

(** The elements from the first heading that sets the active date on. *)
Fixpoint after_first_date (elements : list node) : list node :=
  match elements with
  | [] => []
  | element :: rest =>
      if sets_date_context element then elements else after_first_date rest
  end.

(** White space in [s] is tidy: every white-space character is a space
    and no two stand side by side; [after_space] tells that the character
    before [s] is one. *)
Fixpoint tidy (after_space : bool) (s : string) : bool :=
  match s with
  | EmptyString => true
  | String c s' =>
      if Py.isspace c
      then Ascii.eqb c " " && negb after_space && tidy true s'
      else tidy false s'
  end.

(** [s] with [c] added at its end. *)
Definition snoc (s : string) (c : ascii) : string := s +:+ String c EmptyString.

(** The schedule of August 4 on a disk where the JSON path cannot be
    written. *)
Definition locked_json_world : world :=
  {| files := list_to_map [schedule_file august4_html]; locked := {[json_path]};
     clock := 2000; today := monday_august4; stdout := [] |}.

(** Lines 131-136 of day_sample.py: the day of the target date, its comma
    and one leading zero taken away. *)
Definition day_token (part : string) : string :=
  let target_day := Py.replace "," "" part in
  if Py.startswith "0" target_day then Py.tail target_day else target_day.

Definition newline : ascii := ascii_of_nat 10.

(** A schedule in sections, one [div] per day, for day_sample.py. *)
Definition days_html : string :=
  "<div><h3>Monday, August 4, 2025</h3><p class='game'><a href='/teams/CLE/2025.shtml'>Guardians</a> (3) @ <a href='/teams/NYM/2025.shtml'>Mets</a> (5)</p></div><div><h3>Tuesday, August 5, 2025</h3><p class='game'><a href='/teams/CLE/2025.shtml'>Guardians</a> (3) @ <a href='/teams/NYM/2025.shtml'>Mets</a> (5)</p></div>".

Definition days_soup : node :=
  document [Tag "div" [] [heading "Monday, August 4, 2025"; played_game];
            Tag "div" [] [heading "Tuesday, August 5, 2025"; played_game]].

Definition days_library : Library :=
  {| BeautifulSoup := fun t => if String.eqb t days_html then days_soup else document [];
     str_tag := fun _ => "<p>";
     csv_dump := fun _ _ => "";
     json_dump := fun _ => "" |}.

Definition days_world : world := world_of [schedule_file days_html] monday_august4.


(* ================================================================== *)
(** ** The terminal of the other scripts *)
(* ================================================================== *)

(** The exceptions of the other scripts: those of the file system, the
    [ValueError]s (with the place that raises them) and the errors of
    shape: a [KeyError], [IndexError], [TypeError] or [AttributeError]
    raised by a subscript, an iteration or a method call on a decoded JSON
    value. *)
Inductive value_error := NoEmbeddedJson | BadJson | BadDate | BadFloat.

Inductive error :=
| OSError (e : exn)
| ValueError (what : value_error)
| ShapeError.

(** The scripts below print lines of their own and call the functions
    above, which print theirs.  [screen] keeps all lines in the order of
    printing; a line of a function above is kept as [Earlier]. *)
Inductive line :=
| Earlier (m : message)
| MainUpdateCompleted                      (* mlb_schedule_scraper main: "Update completed successfully!" *)
| MainUpdateFailed                         (* "Update failed!" *)
| MainExtractingAll                        (* "Extracting all MLB schedule data..." and the rule *)
| MainNoGames                              (* "No games found in the HTML file" *)
| MainExtracted (n : nat)                  (* "Successfully extracted {n} games" *)
| MainDataSaved (csv json : string)        (* "Data saved to:" and the two paths *)
| MainCouldNotFind (path : string)         (* "Error: Could not find {path}" and the hint after it *)
| MainErrorAnalyzing (e : error)           (* "Error analyzing HTML: {e}" *)
| TodayCurrentDate (d : string)            (* day_sample update_todays_games: "Current date: {d}" *)
| TodayReplaced (d : string)               (* "Successfully replaced 'Today's Games' with '{d}'" and the line after it *)
| DisplayHeader (target : string)          (* display_games: the rule, "MLB SCHEDULE FOR: {target.upper()}", the rule *)
| DisplayDay (i : nat) (d : string) (n : nat) (* "DAY {i}: {d}", "Games found: {n}" and the rule *)
| DisplayGame (j : nat) (team1 team2 : option string) (* "Game {j}:" and "Teams: {team1} @ {team2}" *)
| DisplayScore (score1 score2 : Z)         (* "Score: {score1} - {score2}" *)
| DisplayScoreTBD                          (* "Score: TBD" *)
| DisplayTime (time : string)              (* "Time: {time}" *)
| DisplayType (game_type : string)         (* "Type: {game_type}" *)
| DisplayRawText (text : string)           (* "Raw text: {text}" *)
| DisplaySummary (days total completed : nat) (future : Z) (* "SUMMARY" between rules and the four totals *)
| DisplayCouldNotFind (path : string)      (* "Error: Could not find {path}" and the hint after it *)
| DisplayError (e : error)                 (* "Error analyzing HTML: {e}" *)
| OddsNoData                               (* odds_scrape: "No data to save." *)
| OddsSaved (n : nat)                      (* "Saved {n} games to odds/march18odds.csv" *)
| WinProbability (number : string)         (* espn_scrape: "Win Probability: {float(number)}" *)
| PredictedWinProbability (number : string) (* "Predicted Win Probability: {float(number)}" *)
| WinProbabilityNotFound.                  (* "Win Probability not found." *)

Record terminal := { disk : world; screen : list line }.

Inductive outcome (A : Type) := Done (a : A) | Failed (e : error).
Arguments Done {A} a.
Arguments Failed {A} e.

Definition T (A : Type) : Type := terminal -> outcome A * terminal.

Definition t_ret {A} (a : A) : T A := fun t => (Done a, t).

Definition t_bind {A B} (m : T A) (k : A -> T B) : T B :=
  fun t =>
    match m t with
    | (Done a, t') => k a t'
    | (Failed e, t') => (Failed e, t')
    end.

#[global] Instance T_ret : MRet T := @t_ret.
#[global] Instance T_bind : MBind T := fun A B k m => t_bind m k.

Definition fail {A} (e : error) : T A := fun t => (Failed e, t).

(** [print(...)] of a line of these scripts. *)
Definition say (l : line) : T unit :=
  fun t => (Done tt, {| disk := disk t; screen := screen t ++ [l] |}).

(** A call of one of the functions above: its effect on the disk, its
    lines on the screen, its exception if it raises. *)
Definition call {A} (m : M A) : T A :=
  fun t =>
    let '(r, w') := m (disk t) in
    (match r with Ok a => Done a | Raise e => Failed (OSError e) end,
     {| disk := w'; screen := screen t ++ List.map Earlier (printed m (disk t)) |}).

(** The value of a pure step that may raise. *)
Definition lift {A} (r : outcome A) : T A := fun t => (r, t).

(** A terminal with nothing on the screen yet. *)
Definition boot (w : world) : terminal := {| disk := w; screen := [] |}.

(** [try: body except Exception as e: handler(e)] *)
Definition t_try {A} (body : T A) (handler : error -> T A) : T A :=
  fun t =>
    match body t with
    | (Done a, t') => (Done a, t')
    | (Failed e, t') => handler e t'
    end.

Definition dq : ascii := ascii_of_nat 34.

(** [s] between double quotes. *)
Definition quoted (s : string) : string := String dq (s +:+ String dq EmptyString).

(* ================================================================== *)
(** ** odds_scrape.py: the extraction *)
(* ================================================================== *)

Module OddsScript.

Definition script_open : string :=
  "<script id=" +:+ quoted "__NEXT_DATA__" +:+ " type=" +:+ quoted "application/json"
  +:+ ">".

Definition script_close : string := "</script>".

(** The text of [s] before the first occurrence of [stop]. *)
Fixpoint until (stop s : string) : option string :=
  if String.prefix stop s then Some EmptyString
  else match s with
       | EmptyString => None
       | String c s' => String c <$> until stop s'
       end.

(** Line 80: the group of the first match of the opening tag, the shortest
    text after it ([.*?] with [re.DOTALL]) and the closing tag. *)
Fixpoint embedded_json (html : string) : option string :=
  match Py.remove_prefix script_open html ≫= until script_close with
  | Some payload => Some payload
  | None =>
      match html with
      | EmptyString => None
      | String _ html' => embedded_json html'
      end
  end.

(** A decoded JSON value.  Of a number the script only uses its truth
    value and its rendering by [str]. *)
Inductive json :=
| JNull
| JBool (b : bool)
| JNumber (nonzero : bool) (shown : string)
| JStr (s : string)
| JList (items : list json)
| JDict (items : list (string * json)).

Fixpoint lookup (key : string) (items : list (string * json)) : option json :=
  match items with
  | [] => None
  | (k, v) :: rest => if String.eqb key k then Some v else lookup key rest
  end.

(** The dictionary appended to [results] at lines 108-116. *)
Record row := {
  date : string;
  team1 : json;
  team2 : json;
  pitcher1 : string;
  pitcher2 : string;
  away_odds : json;
  home_odds : json
}.

(** What the script takes from Python without looking inside: the JSON
    decoder ([None] when it raises), the rendering of a list or dictionary
    in an f-string, the rendering by [strftime] of a year below 1000 (which
    differs between C libraries) and the CSV writer. *)
Class Library := {
  loads : string -> option json;
  repr : json -> string;
  small_year : nat -> string;
  dump_rows : list row -> string
}.

#[global] Instance outcome_ret : MRet outcome := @Done.
#[global] Instance outcome_bind : MBind outcome :=
  fun A B k r => match r with Done a => k a | Failed e => Failed e end.

(** [v[key]] for a string [key] *)
Definition subscript (key : string) (v : json) : outcome json :=
  match v with
  | JDict items =>
      match lookup key items with
      | Some x => Done x
      | None => Failed ShapeError
      end
  | _ => Failed ShapeError
  end.

(** [v[0]] *)
Definition first_item (v : json) : outcome json :=
  match v with
  | JList (x :: _) => Done x
  | JStr (String c _) => Done (JStr (String c EmptyString))
  | _ => Failed ShapeError
  end.

(** The values a [for] loop over [v] goes through: the items of a list,
    the keys of a dictionary, the characters of a string. *)
Definition iterate (v : json) : outcome (list json) :=
  match v with
  | JList items => Done items
  | JDict items => Done (List.map (fun kv => JStr (fst kv)) items)
  | JStr s =>
      Done (List.map (fun c => JStr (String c EmptyString)) (list_ascii_of_string s))
  | _ => Failed ShapeError
  end.

(** [bool(v)] *)
Definition truthy (v : json) : bool :=
  match v with
  | JNull => false
  | JBool b => b
  | JNumber nonzero _ => nonzero
  | JStr s => nonempty s
  | JList items => match items with [] => false | _ => true end
  | JDict items => match items with [] => false | _ => true end
  end.

Fixpoint take_chars (n : nat) (s : string) : string :=
  match n, s with
  | S k, String c s' => String c (take_chars k s')
  | _, _ => EmptyString
  end.

(** *** Line 92: [datetime.strptime(date_iso, "%Y-%m-%d").strftime("%d-%m-%Y")] *)

Definition digit_value (c : ascii) : nat := N.to_nat (Py.ord c) - 48.

Definition digit_char (n : nat) : ascii := ascii_of_nat (48 + n).

Definition two_digits (n : nat) : string :=
  String (digit_char (n / 10)) (String (digit_char (n mod 10)) EmptyString).

Definition four_digits (n : nat) : string :=
  two_digits (n / 100) +:+ two_digits (n mod 100).

Definition digit_between (lo hi : nat) (c : ascii) : bool :=
  Py.isdigit c && (lo <=? digit_value c)%nat && (digit_value c <=? hi)%nat.

(** [%Y]: four digits. *)
Definition parse_year (s : string) : option (nat * string) :=
  match s with
  | String a (String b (String c (String d rest))) =>
      if Py.isdigit a && Py.isdigit b && Py.isdigit c && Py.isdigit d
      then Some (1000 * digit_value a + 100 * digit_value b
                 + 10 * digit_value c + digit_value d, rest)
      else None
  | _ => None
  end.

(** A number of two characters [a b] with [a] and [b] as told. *)
Definition two_chars (first : ascii -> bool) (second : ascii -> bool) (s : string)
  : option (nat * string) :=
  match s with
  | String a (String b rest) =>
      if first a && second b
      then Some (10 * (if Py.isdigit a then digit_value a else 0) + digit_value b, rest)
      else None
  | _ => None
  end.

Definition one_char (only : ascii -> bool) (s : string) : option (nat * string) :=
  match s with
  | String a rest => if only a then Some (digit_value a, rest) else None
  | EmptyString => None
  end.

(** The first alternative that matches. *)
Fixpoint first_of (alternatives : list (string -> option (nat * string))) (s : string)
  : option (nat * string) :=
  match alternatives with
  | [] => None
  | alt :: more =>
      match alt s with
      | Some r => Some r
      | None => first_of more s
      end
  end.

(** [%m]: [1[0-2]|0[1-9]|[1-9]] *)
Definition parse_month : string -> option (nat * string) :=
  first_of [two_chars (digit_between 1 1) (digit_between 0 2);
            two_chars (digit_between 0 0) (digit_between 1 9);
            one_char (digit_between 1 9)].

(** [%d]: [3[0-1]|[1-2]\d|0[1-9]|[1-9]| [1-9]] *)
Definition parse_day : string -> option (nat * string) :=
  first_of [two_chars (digit_between 3 3) (digit_between 0 1);
            two_chars (digit_between 1 2) Py.isdigit;
            two_chars (digit_between 0 0) (digit_between 1 9);
            one_char (digit_between 1 9);
            two_chars (fun c => Ascii.eqb c " ") (digit_between 1 9)].

Definition dash (s : string) : option string :=
  match s with
  | String c rest => if Ascii.eqb c "-" then Some rest else None
  | EmptyString => None
  end.

Definition is_leap (y : nat) : bool :=
  ((y mod 4 =? 0) && negb (y mod 100 =? 0) || (y mod 400 =? 0))%nat.

Definition days_in_month (y m : nat) : nat :=
  match m with
  | 2 => if is_leap y then 29 else 28
  | 4 | 6 | 9 | 11 => 30
  | _ => 31
  end.

(** [datetime.strptime(s, "%Y-%m-%d")]: year, month and day, or [None] for
    a [ValueError]: the text does not match, text remains after the match,
    or there is no such day. *)
Definition strptime (s : string) : option (nat * nat * nat) :=
  '(y, s1) ← parse_year s;
  s2 ← dash s1;
  '(m, s3) ← parse_month s2;
  s4 ← dash s3;
  '(d, s5) ← parse_day s4;
  match s5 with
  | EmptyString =>
      if ((1 <=? y) && (1 <=? d) && (d <=? days_in_month y m))%nat
      then Some (y, m, d) else None
  | String _ _ => None
  end.

Section Script.
Context `{Library}.

(** [%Y] of [strftime] *)
Definition year_text (y : nat) : string :=
  if (1000 <=? y)%nat then four_digits y else small_year y.

(** [.strftime("%d-%m-%Y")] *)
Definition strftime (ymd : nat * nat * nat) : string :=
  let '(y, m, d) := ymd in
  two_digits d +:+ "-" +:+ two_digits m +:+ "-" +:+ year_text y.

(** Lines 91 and 92 on the value of [gv["startDate"]]: only a string can
    be sliced and parsed. *)
Definition convert_date (start : json) : outcome string :=
  match start with
  | JStr s =>
      match strptime (take_chars 10 s) with
      | Some ymd => Done (strftime ymd)
      | None => Failed (ValueError BadDate)
      end
  | _ => Failed ShapeError
  end.

(** [TEAM_CODE_MAP.get(v, v)]: a list or a dictionary cannot be a key. *)
Definition code_of (v : json) : outcome json :=
  match v with
  | JStr s => Done (JStr (Odds.team_code s))
  | JList _ | JDict _ => Failed ShapeError
  | _ => Done v
  end.

(** [f"{v}"] *)
Definition show (v : json) : string :=
  match v with
  | JNull => "None"
  | JBool true => "True"
  | JBool false => "False"
  | JNumber _ shown => shown
  | JStr s => s
  | JList _ | JDict _ => repr v
  end.

(** [f"{gv[who]['firstName']} {gv[who]['lastName']}"] *)
Definition pitcher (who : string) (gv : json) : outcome string :=
  starter ← subscript who gv;
  first ← subscript "firstName" starter;
  starter' ← subscript who gv;
  last ← subscript "lastName" starter';
  mret (show first +:+ " " +:+ show last).

Definition is_bet365 (v : option json) : bool :=
  match v with
  | Some (JStr s) => String.eqb s "bet365"
  | _ => false
  end.

(** Line 100: the first view that is true and whose ["sportsbook"] is
    ["bet365"]; a true value without [get] raises. *)
Fixpoint find_bet365 (views : list json) : outcome (option json) :=
  match views with
  | [] => Done None
  | o :: rest =>
      if truthy o then
        match o with
        | JDict items =>
            if is_bet365 (lookup "sportsbook" items) then Done (Some o)
            else find_bet365 rest
        | _ => Failed ShapeError
        end
      else find_bet365 rest
  end.

(** Lines 89-116: the row of one game. *)
Definition row_of_game (game : json) : outcome row :=
  gv ← subscript "gameView" game;
  start ← subscript "startDate" gv;
  date ← convert_date start;
  away ← subscript "awayTeam" gv;
  team1_full ← subscript "displayName" away;
  home ← subscript "homeTeam" gv;
  team2_full ← subscript "displayName" home;
  team1 ← code_of team1_full;
  team2 ← code_of team2_full;
  pitcher1 ← pitcher "awayStarter" gv;
  pitcher2 ← pitcher "homeStarter" gv;
  views ← subscript "oddsViews" game;
  views ← iterate views;
  bet365 ← find_bet365 views;
  '(away_odds, home_odds) ←
    match bet365 with
    | Some b =>
        odds ← subscript "currentLine" b;
        a ← subscript "awayOdds" odds;
        h ← subscript "homeOdds" odds;
        mret (a, h)
    | None => mret (JStr "N/A", JStr "N/A")
    end;
  mret {| date := date; team1 := team1; team2 := team2;
          pitcher1 := pitcher1; pitcher2 := pitcher2;
          away_odds := away_odds; home_odds := home_odds |}.

Fixpoint rows_of_games (games : list json) : outcome (list row) :=
  match games with
  | [] => Done []
  | game :: rest =>
      r ← row_of_game game;
      rs ← rows_of_games rest;
      mret (r :: rs)
  end.

(** Lines 84-117 on the decoded payload. *)
Definition rows_of_data (data : json) : outcome (list row) :=
  props ← subscript "props" data;
  page ← subscript "pageProps" props;
  tables ← subscript "oddsTables" page;
  table ← first_item tables;
  model ← subscript "oddsTableModel" table;
  games ← subscript "gameRows" model;
  games ← iterate games;
  rows_of_games games.

Definition extract_odds_from_html (filepath : string) : T (list row) :=
  html ← call (read_file filepath);
  match embedded_json html with
  | None => fail (ValueError NoEmbeddedJson)
  | Some payload =>
      match loads payload with
      | None => fail (ValueError BadJson)
      | Some data => lift (rows_of_data data)
      end
  end.

(** Lines 119-127 *)
Definition save_to_csv (data : list row) (csv_path : string) : T unit :=
  match data with
  | [] => say OddsNoData
  | _ :: _ => call (write_file csv_path (dump_rows data))
  end.

(** Lines 129-132: the script itself. *)
Definition main : T unit :=
  games ← extract_odds_from_html "odds/march18odds";
  save_to_csv games "odds/march18odds.csv";;
  say (OddsSaved (length games)).

End Script.

End OddsScript.

(* ================================================================== *)
(** ** espn_scrape.py *)
(* ================================================================== *)

Module Espn.

(** ["name":] *)
Definition key (name : string) : string := quoted name +:+ ":".

(** The first position of [s], from the left, where [at_position] matches:
    [re.search]. *)
Fixpoint search {A} (at_position : string -> option A) (s : string) : option A :=
  match at_position s with
  | Some a => Some a
  | None =>
      match s with
      | EmptyString => None
      | String _ s' => search at_position s'
      end
  end.

(** [\s*] and then the literal [lit], which starts with no white space. *)
Definition then_literal (lit s : string) : option string :=
  Py.remove_prefix lit (Py.lstrip s).

Definition not_closing (c : ascii) : bool := negb (Ascii.eqb c "}").

(** [[\d.]] *)
Definition numeric (c : ascii) : bool := Py.isdigit c || Ascii.eqb c ".".

(** White space, if any, and the group: one or more of [numeric]. *)
Definition number_after_spaces (s : string) : option string :=
  let num := fst (Py.span numeric (Py.lstrip s)) in
  if nonempty num then Some num else None.

(** Line 7, a match at the start of [s]: the key [wnPrb], an opening
    brace, the key [pts], an opening brace (white space may stand before
    each of the three), then the group, which is every character up to the
    next closing brace, and that brace. *)
Definition wnprb_at (s : string) : option string :=
  s1 ← Py.remove_prefix (key "wnPrb") s;
  s2 ← then_literal "{" s1;
  s3 ← then_literal (key "pts") s2;
  s4 ← then_literal "{" s3;
  let '(group, rest) := Py.span not_closing s4 in
  _ ← Py.remove_prefix "}" rest;
  Some group.

(** Line 9, a match at the start of [s]: a colon and a number. *)
Definition number_at (s : string) : option string :=
  Py.remove_prefix ":" s ≫= number_after_spaces.

(** The key [value] and its number at the start of [s]. *)
Definition value_at (s : string) : option string :=
  Py.remove_prefix (key "value") s ≫= number_after_spaces.

(** Any characters but a closing brace and then the key [value] with its
    number: the star is greedy, so of the positions before the first
    closing brace the last one where the key and a number stand is
    taken. *)
Fixpoint last_value (s : string) : option string :=
  match s with
  | EmptyString => None
  | String c s' =>
      if not_closing c then
        match last_value s' with
        | Some v => Some v
        | None => value_at s
        end
      else None
  end.

(** Line 16, a match at the start of [s]: the key [mtchpPrdctr], an
    opening brace, the key [teams], an opening bracket, an opening brace
    (white space may stand before each of the four), then [last_value]. *)
Definition predictor_at (s : string) : option string :=
  s1 ← Py.remove_prefix (key "mtchpPrdctr") s;
  s2 ← then_literal "{" s1;
  s3 ← then_literal (key "teams") s2;
  s4 ← then_literal "[" s3;
  s5 ← then_literal "{" s4;
  last_value s5.

Fixpoint count_char (c : ascii) (s : string) : nat :=
  match s with
  | EmptyString => 0
  | String d s' => (if Ascii.eqb c d then 1 else 0) + count_char c s'
  end.

(** [float(number)] does not raise, for a text of digits and dots: there
    is a digit and at most one dot. *)
Definition float_ok (number : string) : bool :=
  (count_char "." number <=? 1)%nat && negb (Py.all_chars (Ascii.eqb ".") number).

(** Lines 11-13 and 18-20: the conversion, the line and the result.  The
    result stands for [float(number)]. *)
Definition report (announce : string -> line) (number : string) : T (option string) :=
  if float_ok number then say (announce number);; mret (Some number)
  else fail (ValueError BadFloat).

Definition extract_initial_win_prob (filepath : string) : T (option string) :=
  content ← call (read_file filepath);
  match search wnprb_at content ≫= search number_at with
  | Some number => report WinProbability number
  | None =>
      match search predictor_at content with
      | Some number => report PredictedWinProbability number
      | None => say WinProbabilityNotFound;; mret None
      end
  end.

End Espn.

(* ================================================================== *)
(** ** mlb_schedule_scraper.py: [main] *)
(* ================================================================== *)

Module Scraper.

(** The parsed command line. *)
Record arguments := {
  update : bool;
  force : bool;
  html_file : string;
  csv_file : string;
  json_file : string
}.

Section Script.
Context `{Library}.

(** Lines 211-225: the body of the [try]. *)
Definition extract_all (args : arguments) : T unit :=
  games ← call (get_all_games_from_schedule (html_file args));
  match games with
  | [] => say MainNoGames
  | _ :: _ =>
      say (MainExtracted (length games));;
      call (save_to_csv games (csv_file args));;
      call (save_to_json games (json_file args));;
      say (MainDataSaved (csv_file args) (json_file args))
  end.

(** Lines 227-231: the two [except] clauses. *)
Definition on_error (args : arguments) (e : error) : T unit :=
  match e with
  | OSError FileNotFoundError => say (MainCouldNotFind (html_file args))
  | _ => say (MainErrorAnalyzing e)
  end.

(** Lines 177-231, after the parsing of the command line. *)
Definition main (args : arguments) : T unit :=
  if update args || force args then
    success ← call (update_csv_from_html (html_file args) (csv_file args)
                      (json_file args) (force args));
    if success : bool then say MainUpdateCompleted else say MainUpdateFailed
  else
    say MainExtractingAll;;
    t_try (extract_all args) (on_error args).

End Script.

End Scraper.

(* ================================================================== *)
(** ** day_sample.py: the update of today's games and the display *)
(* ================================================================== *)

Module DayScript.

(** *** [update_todays_games], lines 37-87 *)

(** Line 55: the pattern of the header; it holds no pattern syntax but
    the escaped apostrophes. *)
Definition todays_header : string := "<h3><span id='today'>Today's Games</span></h3>".

(** One or more characters that satisfy [p], as many as there are. *)
Definition some_chars (p : ascii -> bool) (s : string) : option (string * string) :=
  let '(a, r) := Py.span p s in
  if nonempty a then Some (a, r) else None.

(** White space, if any, and then the literal [lit], which starts with no
    white space. *)
Definition then_literal (lit s : string) : option string :=
  Py.remove_prefix lit (Py.lstrip s).

Definition not_lt (c : ascii) : bool := negb (Ascii.eqb c "<").
Definition not_dq (c : ascii) : bool := negb (Ascii.eqb c dq).

(** The six groups of the game pattern. *)
Record preview := {
  time : string;
  team1_url : string;
  team1_name : string;
  team2_url : string;
  team2_name : string;
  preview_url : string
}.

Definition a_href : string := "<a href=" +:+ String dq EmptyString.
Definition tag_end : string := String dq ">".

(** Line 62: a match of the game pattern at the start of [s], and what
    follows the match.  Every repetition of the pattern is followed by a
    character that it cannot take, so the match is found without going
    back. *)
Definition game_at (s : string) : option (preview * string) :=
  s ← Py.remove_prefix ("<p class=" +:+ quoted "game" +:+ ">") s;
  s ← then_literal ("<span tz=" +:+ quoted "E" +:+ "><strong>") s;
  '(time, s) ← some_chars not_lt s;
  s ← Py.remove_prefix "</strong></span>" s;
  s ← then_literal a_href s;
  '(team1_url, s) ← some_chars not_dq s;
  s ← Py.remove_prefix tag_end s;
  '(team1_name, s) ← some_chars not_lt s;
  s ← Py.remove_prefix "</a>" s;
  s ← then_literal "@" s;
  s ← then_literal a_href s;
  '(team2_url, s) ← some_chars not_dq s;
  s ← Py.remove_prefix tag_end s;
  '(team2_name, s) ← some_chars not_lt s;
  s ← Py.remove_prefix "</a>" s;
  s ← then_literal ("&nbsp;&nbsp;&nbsp;&nbsp;<em>" +:+ a_href) s;
  '(preview_url, s) ← some_chars not_dq s;
  s ← Py.remove_prefix (tag_end +:+ "Preview</a></em>") s;
  s ← then_literal "</p>" s;
  Some ({| time := time; team1_url := team1_url; team1_name := team1_name;
           team2_url := team2_url; team2_name := team2_name;
           preview_url := preview_url |}, s).

(** Line 74, a match at the start of [s]: a slash, one or more capital
    letters (the group) and [2025]; with what follows the match. *)
Definition team_year_at (s : string) : option (string * string) :=
  s ← Py.remove_prefix "/" s;
  '(code, s) ← some_chars Py.isupper_az s;
  s ← Py.remove_prefix "2025" s;
  Some (code, s).

(** Line 74: the replacement.  In the template a backslash, [1] and the
    two digits [20] after it are the octal escape of the character 80,
    [P]; so the template stands for a slash, the group, a slash, [P] and
    [25]. *)
Definition team_year_replacement (code : string) : string :=
  "/" +:+ code +:+ "/P25".

(** [re.sub] with the pattern of line 74.  [skip] counts the characters
    of the match still to be passed. *)
Fixpoint sub_team_year_from (skip : nat) (s : string) : string :=
  match s with
  | EmptyString => EmptyString
  | String c s' =>
      match skip with
      | S k => sub_team_year_from k s'
      | O =>
          match team_year_at s with
          | Some (code, rest) =>
              team_year_replacement code
              +:+ sub_team_year_from (String.length s - String.length rest - 1) s'
          | None => String c (sub_team_year_from 0 s')
          end
      end
  end.

(** Lines 73 and 74 *)
Definition boxscore_url (preview_url : string) : string :=
  sub_team_year_from 0 (Py.replace "/previews/" "/boxes/" preview_url).

Definition nl : string := String (ascii_of_nat 10) EmptyString.

(** Lines 64-77: [replace_game_with_scores] on the groups of a match. *)
Definition replace_game_with_scores (m : preview) : string :=
  "<p class=" +:+ quoted "game" +:+ ">" +:+ nl +:+ nl
  +:+ " " +:+ a_href +:+ team1_url m +:+ tag_end +:+ team1_name m +:+ "</a>" +:+ nl
  +:+ " (TBD)" +:+ nl
  +:+ " @" +:+ nl
  +:+ " <strong> " +:+ a_href +:+ team2_url m +:+ tag_end +:+ team2_name m +:+ "</a>" +:+ nl
  +:+ " (TBD)</strong>" +:+ nl
  +:+ " &nbsp;&nbsp;&nbsp;&nbsp;<em>" +:+ a_href +:+ boxscore_url (preview_url m)
  +:+ tag_end +:+ "Boxscore</a></em>" +:+ nl
  +:+ " </p>".

(** Line 80: [re.sub] with the game pattern and the function. *)
Fixpoint sub_games_from (skip : nat) (s : string) : string :=
  match s with
  | EmptyString => EmptyString
  | String c s' =>
      match skip with
      | S k => sub_games_from k s'
      | O =>
          match game_at s with
          | Some (m, rest) =>
              replace_game_with_scores m
              +:+ sub_games_from (String.length s - String.length rest - 1) s'
          | None => String c (sub_games_from 0 s')
          end
      end
  end.

(** Lines 59 and 80: the new content.  The header pattern and its
    replacement are literal texts, so the first substitution replaces as
    [str.replace] does. *)
Definition new_content (current_date content : string) : string :=
  sub_games_from 0
    (Py.replace todays_header ("<h3>" +:+ current_date +:+ "</h3>") content).

Definition update_todays_games (html_file_path : string) : T unit :=
  content ← call (read_file html_file_path);
  now ← call now;
  let current_date := strftime_long now in
  say (TodayCurrentDate current_date);;
  call (write_file html_file_path (new_content current_date content));;
  say (TodayReplaced current_date).

(** *** [display_games], lines 210-272 *)

Definition completed (g : DaySample.game_data) : bool :=
  match DaySample.score1 g, DaySample.score2 g with
  | Some _, Some _ => true
  | _, _ => false
  end.

Definition when (b : bool) (m : T unit) : T unit := if b then m else mret tt.

(** Lines 230-245: the lines of one game. *)
Definition show_game (j : nat) (g : DaySample.game_data) : T unit :=
  say (DisplayGame j (DaySample.team1 g) (DaySample.team2 g));;
  match DaySample.score1 g, DaySample.score2 g with
  | Some s1, Some s2 => say (DisplayScore s1 s2)
  | _, _ => say DisplayScoreTBD
  end;;
  match DaySample.time g with
  | Some t => when (nonempty t) (say (DisplayTime t))
  | None => mret tt
  end;;
  match DaySample.game_type g with
  | Some ty => when (nonempty ty) (say (DisplayType ty))
  | None => mret tt
  end;;
  say (DisplayRawText (DaySample.text_content g)).

Fixpoint show_games (j : nat) (games : list DaySample.game_data) : T unit :=
  match games with
  | [] => mret tt
  | g :: rest => show_game j g;; show_games (S j) rest
  end.

(** Lines 221-250: the days, numbered from [i]. *)
Fixpoint show_days (i : nat) (days : list DaySample.day) : T unit :=
  match days with
  | [] => mret tt
  | d :: rest =>
      say (DisplayDay i (DaySample.day_date d) (length (DaySample.day_games d)));;
      show_games 1 (DaySample.day_games d);;
      show_days (S i) rest
  end.

Definition total_games (days : list DaySample.day) : nat :=
  list_sum (List.map (fun d => length (DaySample.day_games d)) days).

Definition completed_games (days : list DaySample.day) : nat :=
  list_sum (List.map (fun d => length (List.filter completed (DaySample.day_games d))) days).

(** Lines 252-266 *)
Definition summary (days : list DaySample.day) : line :=
  DisplaySummary (length days) (total_games days) (completed_games days)
    (Z.of_nat (total_games days) - Z.of_nat (completed_games days)).

Section Script.
Context `{Library}.

(** Lines 268-272: the two [except] clauses. *)
Definition on_error (html_file_path : string) (e : error) : T (option unit) :=
  match e with
  | OSError FileNotFoundError => say (DisplayCouldNotFind html_file_path)
  | _ => say (DisplayError e)
  end;;
  mret (Some tt).

(** [None] when the target date carries pattern syntax (see
    [DaySample.get_games_for_date]). *)
Definition display_games (html_file_path target_date : string) : T (option unit) :=
  say (DisplayHeader target_date);;
  t_try
    (days_data ← call (DaySample.get_games_for_date html_file_path target_date);
     match days_data with
     | None => mret None
     | Some days =>
         show_days 1 days;;
         say (summary days);;
         mret (Some tt)
     end)
    (on_error html_file_path).

End Script.

End DayScript.

(* ================================================================== *)
(** ** Notions used in the statements on the other scripts *)
(* ================================================================== *)

(** The ISO text of a date, as a [startDate] begins. *)
Definition iso_date (y m d : nat) : string :=
  OddsScript.four_digits y +:+ "-" +:+ OddsScript.two_digits m +:+ "-"
  +:+ OddsScript.two_digits d.

(** The view is a dictionary whose ["sportsbook"] is ["bet365"]. *)
Definition bet365_view (o : OddsScript.json) : bool :=
  match o with
  | OddsScript.JDict items =>
      OddsScript.is_bet365 (OddsScript.lookup "sportsbook" items)
  | _ => false
  end.

(** A view that line 100 passes over: false, or a dictionary of another
    sportsbook. *)
Definition passed_over (o : OddsScript.json) : bool :=
  negb (OddsScript.truthy o)
  || match o with
     | OddsScript.JDict _ => negb (bet365_view o)
     | _ => false
     end.

(** The value is not a name of the team table. *)
Definition not_a_team_name (v : OddsScript.json) : Prop :=
  forall s, v = OddsScript.JStr s -> Odds.TEAM_CODE_MAP !! s = None.

(** [c] occurs in [s]. *)
Fixpoint occurs (c : ascii) (s : string) : bool :=
  match s with
  | EmptyString => false
  | String d s' => Ascii.eqb c d || occurs c s'
  end.

(** [x] stands somewhere in [s]. *)
Definition within (x s : string) : Prop := exists a b, s = a +:+ x +:+ b.

(** The opening tag of a game paragraph, as the game pattern starts. *)
Definition game_open : string := "<p class=" +:+ quoted "game" +:+ ">".

(** The lines of the display, by kind. *)
Definition is_day_line (l : line) : bool :=
  match l with DisplayDay _ _ _ => true | _ => false end.

Definition is_game_line (l : line) : bool :=
  match l with DisplayGame _ _ _ => true | _ => false end.

Definition is_score_line (l : line) : bool :=
  match l with DisplayScore _ _ => true | _ => false end.

Definition is_tbd_line (l : line) : bool :=
  match l with DisplayScoreTBD => true | _ => false end.

Definition count (p : line -> bool) (ls : list line) : nat := length (List.filter p ls).

(** The lines [DayScript.show_game] prints. *)
Definition game_lines (j : nat) (g : DaySample.game_data) : list line :=
  [DisplayGame j (DaySample.team1 g) (DaySample.team2 g)]
  ++ [match DaySample.score1 g, DaySample.score2 g with
      | Some s1, Some s2 => DisplayScore s1 s2
      | _, _ => DisplayScoreTBD
      end]
  ++ match DaySample.time g with
     | Some t => if nonempty t then [DisplayTime t] else []
     | None => []
     end
  ++ match DaySample.game_type g with
     | Some ty => if nonempty ty then [DisplayType ty] else []
     | None => []
     end
  ++ [DisplayRawText (DaySample.text_content g)].

Fixpoint games_lines (j : nat) (games : list DaySample.game_data) : list line :=
  match games with
  | [] => []
  | g :: rest => game_lines j g ++ games_lines (S j) rest
  end.

Fixpoint days_lines (i : nat) (days : list DaySample.day) : list line :=
  match days with
  | [] => []
  | d :: rest =>
      DisplayDay i (DaySample.day_date d) (length (DaySample.day_games d))
      :: games_lines 1 (DaySample.day_games d) ++ days_lines (S i) rest
  end.

(* ================================================================== *)
(** ** Sample pages and worlds of the other scripts *)
(* ================================================================== *)

(** A payload without games. *)
Definition no_games_payload : string := "{}".

(** A payload with one game, Guardians at Mets. *)
Definition one_game_payload : string := "{1}".

Definition named (first last : string) : OddsScript.json :=
  OddsScript.JDict [("firstName", OddsScript.JStr first);
                    ("lastName", OddsScript.JStr last)].

Definition view_of (book : string) (away home : string) : OddsScript.json :=
  OddsScript.JDict
    [("sportsbook", OddsScript.JStr book);
     ("currentLine", OddsScript.JDict
        [("awayOdds", OddsScript.JNumber true away);
         ("homeOdds", OddsScript.JNumber true home)])].

(** The game: of its views the first is null, the third is the one of
    bet365 and the last is no dictionary. *)
Definition one_game : OddsScript.json :=
  OddsScript.JDict
    [("gameView", OddsScript.JDict
        [("startDate", OddsScript.JStr "2025-03-18T17:05:00+00:00");
         ("awayTeam", OddsScript.JDict
            [("displayName", OddsScript.JStr "Cleveland Guardians")]);
         ("homeTeam", OddsScript.JDict
            [("displayName", OddsScript.JStr "New York Mets")]);
         ("awayStarter", named "Tanner" "Bibee");
         ("homeStarter", named "Kodai" "Senga")]);
     ("oddsViews", OddsScript.JList
        [OddsScript.JNull; view_of "fanduel" "120" "-140";
         view_of "bet365" "115" "-135"; OddsScript.JStr "later"])].

(** The decoded page with these games. *)
Definition data_of_games (games : list OddsScript.json) : OddsScript.json :=
  OddsScript.JDict
    [("props", OddsScript.JDict
       [("pageProps", OddsScript.JDict
          [("oddsTables", OddsScript.JList
             [OddsScript.JDict
                [("oddsTableModel", OddsScript.JDict
                    [("gameRows", OddsScript.JList games)])]])])])].

(** A library for the odds script whose decoder knows the two payloads. *)
Definition games_library : OddsScript.Library :=
  {| OddsScript.loads :=
       fun t => if String.eqb t no_games_payload then Some (data_of_games [])
                else if String.eqb t one_game_payload then Some (data_of_games [one_game])
                else None;
     OddsScript.repr := fun _ => "";
     OddsScript.small_year := fun _ => "";
     OddsScript.dump_rows :=
       fun rows => String.concat (String newline EmptyString) (List.map OddsScript.date rows) |}.

(** The page around a payload, and the disk with this page. *)
Definition odds_page (payload : string) : string :=
  OddsScript.script_open +:+ payload +:+ OddsScript.script_close.

Definition odds_world (page : string) : world :=
  world_of [("odds/march18odds", {| mtime := 1000; text := page |})] monday_august4.

(** An ESPN page with a block of win probabilities. *)
Definition espn_page : string :=
  "{" +:+ Espn.key "wnPrb" +:+ " {" +:+ Espn.key "pts" +:+ " {" +:+ Espn.key "1"
  +:+ " 0.55, " +:+ Espn.key "2" +:+ " 0.61}}}".

Definition espn_world (page : string) : world :=
  world_of [("espn/guardians-mets.html", {| mtime := 1000; text := page |})] monday_august4.

(** A page with the header of today's games and one game to come. *)
Definition preview_page : string :=
  "<div>" +:+ DayScript.todays_header +:+ game_open
  +:+ "<span tz=" +:+ quoted "E" +:+ "><strong>7:10 pm</strong></span> "
  +:+ DayScript.a_href +:+ "/teams/CLE/2025.shtml" +:+ DayScript.tag_end
  +:+ "Cleveland Guardians</a> @ "
  +:+ DayScript.a_href +:+ "/teams/NYM/2025.shtml" +:+ DayScript.tag_end
  +:+ "New York Mets</a> &nbsp;&nbsp;&nbsp;&nbsp;<em>"
  +:+ DayScript.a_href +:+ "/previews/2025/NYN202508040.shtml" +:+ DayScript.tag_end
  +:+ "Preview</a></em> </p></div>".

(** The page of [preview_page] and a CSV written after it, before now. *)
Definition preview_world : world :=
  world_of [schedule_file preview_page; (csv_path, {| mtime := 1500; text := "date" |})]
           monday_august4.

(* ================================================================== *)
(** ** Properties of the schedule extractor *)
(* ================================================================== *)

Section ScheduleFacts.
Context `{Library}.

Lemma get_all_games_from_schedule_unfold (path : string) (w : world) :
  get_all_games_from_schedule path w =
  match files w !! path with
  | Some f => (Ok (scan_schedule (today_string (today w)) (BeautifulSoup (text f))), w)
  | None => (Raise FileNotFoundError, w)
  end.
Proof.
  unfold get_all_games_from_schedule, mbind, M_bind, bind, read_file, now.
  destruct (files w !! path); reflexivity.
Qed.

Lemma game_data_game_type (d : string) (el : node) :
  game_type (game_data d el) = None.
Proof.
  unfold game_data.
  destruct (find_span_tz el); destruct (find_team_links el) as [|? [|? ?]];
    try reflexivity;
    destruct (Re.findall_scores (get_text el)) as [|? [|? ?]]; reflexivity.
Qed.

Lemma game_data_teams (d : string) (el : node) :
  2 <= length (find_team_links el) ->
  exists a b rest,
    find_team_links el = a :: b :: rest /\
    team1 (game_data d el) = Some (get_text_strip a) /\
    team2 (game_data d el) = Some (get_text_strip b).
Proof.
  intros Hlen. unfold game_data.
  destruct (find_team_links el) as [|a [|b rest]]; simpl in Hlen; try lia.
  exists a, b, rest. split; [reflexivity|].
  destruct (find_span_tz el);
    destruct (Re.findall_scores (get_text el)) as [|? [|? ?]]; split; reflexivity.
Qed.

Lemma game_data_date (d : string) (el : node) : date (game_data d el) = d.
Proof.
  unfold game_data.
  destruct (find_span_tz el); destruct (find_team_links el) as [|? [|? ?]];
    try reflexivity;
    destruct (Re.findall_scores (get_text el)) as [|? [|? ?]]; reflexivity.
Qed.

(** A property of every appended record holds of every returned record. *)
Lemma scan_invariant (P : game -> Prop) (today_str : string) :
  (forall d el, 2 <= length (find_team_links el) -> P (game_data d el)) ->
  forall els st,
    Forall P (snd st) ->
    Forall P (snd (fold_left (schedule_step today_str) els st)).
Proof.
  intros Hnew els. induction els as [|el els IH]; intros st Hst; [exact Hst|].
  simpl. apply IH. destruct st as [cur games]. simpl in Hst.
  unfold schedule_step.
  destruct (String.eqb (name el) "h3").
  { destruct (String.eqb (get_text_strip el) "Today's Games"); [exact Hst|].
    destruct (nonempty (get_text_strip el) && Py.contains "," (get_text_strip el)
              && Py.contains "2025" (get_text_strip el)); exact Hst. }
  destruct (String.eqb (name el) "p" && has_class "game" el); [|exact Hst].
  destruct cur as [[|c d]|]; try exact Hst.
  destruct (Py.contains "(Spring)" (get_text el)); [exact Hst|].
  destruct (2 <=? length (find_team_links el))%nat eqn:Hlinks; [|exact Hst].
  simpl. apply Forall_app. split; [exact Hst|].
  constructor; [|constructor].
  apply Hnew. apply Nat.leb_le. exact Hlinks.
Qed.

Lemma scan_schedule_invariant (P : game -> Prop) (today_str : string) (soup : node) :
  (forall d el, 2 <= length (find_team_links el) -> P (game_data d el)) ->
  Forall P (scan_schedule today_str soup).
Proof.
  intros Hnew. unfold scan_schedule. apply scan_invariant; [exact Hnew|constructor].
Qed.

Lemma nonempty_contains_comma (t : string) :
  nonempty t && Py.contains "," t = Py.contains "," t.
Proof. destruct t; reflexivity. Qed.

(** Without a date and without a heading that sets one, a turn of the
    loop changes nothing. *)
Lemma schedule_step_no_context (today_str : string) (games : list game) (el : node) :
  sets_date_context el = false ->
  schedule_step today_str (None, games) el = (None, games).
Proof.
  unfold sets_date_context, schedule_step. intros Hno.
  destruct (String.eqb (name el) "h3"); simpl in Hno.
  - apply orb_false_iff in Hno as [Htoday Hcomma].
    rewrite Htoday, nonempty_contains_comma, Hcomma. reflexivity.
  - destruct (String.eqb (name el) "p" && has_class "game" el); reflexivity.
Qed.

Lemma name_in_h3 (el : node) :
  String.eqb (name el) "h3" = true -> name_in ["h3"] el = true.
Proof.
  destruct el as [s|nm attrs cs]; simpl; [discriminate|].
  intros Heq. apply String.eqb_eq in Heq. subst nm.
  apply bool_decide_eq_true. apply list_elem_of_here.
Qed.

Lemma sets_date_context_not_h3 (el : node) :
  String.eqb (name el) "h3" = false -> sets_date_context el = false.
Proof. unfold sets_date_context. intros ->. reflexivity. Qed.

Lemma scan_no_context (today_str : string) (els : list node) :
  Forall (fun el => sets_date_context el = false) els ->
  fold_left (schedule_step today_str) els (None, []) = (None, []).
Proof.
  induction 1 as [|el els Hel _ IH]; [reflexivity|].
  cbn [fold_left]. rewrite schedule_step_no_context by exact Hel. exact IH.
Qed.

End ScheduleFacts.

(** A game paragraph met under an active date, not marked "(Spring)" and
    with two team links, adds its record to the list. *)
Lemma schedule_step_game `{Library} (today_str : string) (c : ascii) (d : string)
    (games : list game) (el : node) :
  name el = "p" ->
  has_class "game" el = true ->
  Py.contains "(Spring)" (get_text el) = false ->
  2 <= length (find_team_links el) ->
  schedule_step today_str (Some (String c d), games) el
  = (Some (String c d), games ++ [game_data (String c d) el]).
Proof.
  intros Hname Hclass Hspring Hlinks. unfold schedule_step.
  apply Nat.leb_le in Hlinks.
  rewrite Hname, Hclass, Hspring, Hlinks. reflexivity.
Qed.

(** The scenario of the specification: the heading "August 4, 2025" and one
    game paragraph, Guardians (3) at Mets (5). *)
Example august4_games :
  @scan_schedule sample_library "Monday, August 4, 2025" august4_soup
  = [ {| date := "August 4, 2025"; team1 := Some "Guardians"; team2 := Some "Mets";
         score1 := Some 3%Z; score2 := Some 5%Z; time := None; game_type := None;
         raw_html := "<p>"; text_content := "Guardians (3) @ Mets (5)" |} ].
Proof. reflexivity. Qed.

(** A paragraph marked "(Spring)" is left out. *)
Example spring_game_filtered :
  @scan_schedule sample_library "Monday, August 4, 2025"
    (document [heading "August 4, 2025";
               Tag "p" [("class", "game")]
                 [Tag "span" [] [NavigableString "(Spring)"];
                  team_link "CLE" "Guardians"; NavigableString " (3) @ ";
                  team_link "NYM" "Mets"; NavigableString " (5)"]])
  = [].
Proof. reflexivity. Qed.

(** Under "Today's Games" the date of the day is the date of the record. *)
Example todays_games_dated :
  List.map date (@scan_schedule sample_library (today_string monday_august4) todays_soup)
  = ["Monday, August 4, 2025"].
Proof. reflexivity. Qed.

(** C9: every record returned by [get_all_games_from_schedule] has both
    [team1] and [team2] set (not [None]). *)
Theorem returned_games_have_both_teams `{Library} (path : string) (w w' : world)
    (games : list game) :
  get_all_games_from_schedule path w = (Ok games, w') ->
  Forall (fun g => team1 g <> None /\ team2 g <> None) games.
Proof.
  rewrite get_all_games_from_schedule_unfold.
  destruct (files w !! path) as [f|]; [|discriminate].
  intros [= <- _]. apply scan_schedule_invariant.
  intros d el Hlen.
  destruct (game_data_teams d el Hlen) as (a & b & rest & _ & -> & ->).
  split; discriminate.
Qed.

Lemma returned_games_have_both_teams_witness :
  exists games,
    @get_all_games_from_schedule sample_library schedule_path august4_world
      = (Ok games, august4_world) /\
    length games = 1 /\
    Forall (fun g => team1 g <> None /\ team2 g <> None) games.
Proof.
  eexists. split; [vm_compute; reflexivity|]. split; [reflexivity|].
  apply (@returned_games_have_both_teams sample_library schedule_path
           august4_world august4_world).
  vm_compute. reflexivity.
Defined.

(** C10: every record returned by [get_all_games_from_schedule] has
    [game_type = None]. *)
Theorem returned_games_have_no_game_type `{Library} (path : string) (w w' : world)
    (games : list game) :
  get_all_games_from_schedule path w = (Ok games, w') ->
  Forall (fun g => game_type g = None) games.
Proof.
  rewrite get_all_games_from_schedule_unfold.
  destruct (files w !! path) as [f|]; [|discriminate].
  intros [= <- _]. apply scan_schedule_invariant.
  intros d el _. apply game_data_game_type.
Qed.

Lemma returned_games_have_no_game_type_witness :
  exists games,
    @get_all_games_from_schedule sample_library schedule_path august4_world
      = (Ok games, august4_world) /\
    length games = 1 /\
    Forall (fun g => game_type g = None) games.
Proof.
  eexists. split; [vm_compute; reflexivity|]. split; [reflexivity|].
  apply (@returned_games_have_no_game_type sample_library schedule_path
           august4_world august4_world).
  vm_compute. reflexivity.
Defined.



(** C3 as worded fails: the heading "March 15, 2024" has a comma and a
    four-digit year token, and the loop does not adopt it. *)
Lemma heading_2024_not_adopted :
  Py.contains "," (get_text_strip (heading "March 15, 2024")) = true /\
  has_year_token (get_text_strip (heading "March 15, 2024")) = true /\
  get_text_strip (heading "March 15, 2024") <> "Today's Games" /\
  fst (@schedule_step sample_library "Monday, August 4, 2025" (None, [])
         (heading "March 15, 2024"))
  <> heading_rule_as_worded (get_text_strip (heading "March 15, 2024")) None.
Proof. vm_compute. repeat split; discriminate. Qed.

(** C3, amended: a heading other than "Today's Games" becomes the active
    date, verbatim, exactly when its text contains a comma and the
    characters "2025"; otherwise the active date stays as it was.  The
    list of games is untouched. *)
Theorem heading_sets_date_context `{Library} (today_str : string)
    (current_date : option string) (games : list game) (el : node) :
  name el = "h3" ->
  get_text_strip el <> "Today's Games" ->
  schedule_step today_str (current_date, games) el =
  (if Py.contains "," (get_text_strip el) && Py.contains "2025" (get_text_strip el)
   then Some (get_text_strip el) else current_date,
   games).
Proof.
  intros Hname Hnot. unfold schedule_step. rewrite Hname. simpl.
  apply String.eqb_neq in Hnot. rewrite Hnot, nonempty_contains_comma.
  destruct (Py.contains "," (get_text_strip el) && Py.contains "2025" (get_text_strip el));
    reflexivity.
Qed.

Lemma heading_sets_date_context_witness :
  @schedule_step sample_library "Monday, August 4, 2025" (Some "August 3, 2025", [])
    (heading "August 4, 2025") = (Some "August 4, 2025", []) /\
  @schedule_step sample_library "Monday, August 4, 2025" (Some "August 3, 2025", [])
    (heading "March 15, 2024") = (Some "August 3, 2025", []).
Proof.
  split.
  - apply (@heading_sets_date_context sample_library "Monday, August 4, 2025"
             (Some "August 3, 2025") [] (heading "August 4, 2025"));
      [reflexivity | vm_compute; discriminate].
  - apply (@heading_sets_date_context sample_library "Monday, August 4, 2025"
             (Some "August 3, 2025") [] (heading "March 15, 2024"));
      [reflexivity | vm_compute; discriminate].
Defined.

(** C4: a document none of whose headings sets the active date yields
    the empty sequence, whatever game paragraphs it contains. *)
Theorem no_date_heading_no_games `{Library} (path : string) (w : world) (f : file) :
  files w !! path = Some f ->
  (forall h, In h (find_all ["h3"] (BeautifulSoup (text f))) -> sets_date_context h = false) ->
  get_all_games_from_schedule path w = (Ok [], w).
Proof.
  intros Hfile Hnone. rewrite get_all_games_from_schedule_unfold, Hfile.
  unfold scan_schedule. rewrite scan_no_context; [reflexivity|].
  apply Forall_forall. intros el Hel.
  destruct (String.eqb (name el) "h3") eqn:Hname.
  - apply Hnone. unfold find_all in *. apply list_elem_of_In in Hel.
    apply filter_In in Hel as [Hin _].
    apply filter_In. split; [exact Hin|]. apply name_in_h3. exact Hname.
  - apply sets_date_context_not_h3. exact Hname.
Qed.

Lemma no_date_heading_no_games_witness :
  length (find_game_paragraphs undated_soup) = 1 /\
  @get_all_games_from_schedule sample_library schedule_path undated_world
    = (Ok [], undated_world).
Proof.
  split; [reflexivity|].
  apply (@no_date_heading_no_games sample_library schedule_path undated_world
           {| mtime := 1000; text := undated_html |}).
  - vm_compute. reflexivity.
  - intros h Hin. vm_compute in Hin.
    destruct Hin as [<-|[]]. vm_compute. reflexivity.
Defined.

(** Only the placeholder heading looks at the date: without it the
    extraction is the same on every day. *)
Lemma scan_schedule_without_placeholder `{Library} (t1 t2 : string) (soup : node) :
  (forall h, In h (find_all ["h3"; "p"] soup) ->
             get_text_strip h <> "Today's Games") ->
  scan_schedule t1 soup = scan_schedule t2 soup.
Proof.
  unfold scan_schedule. generalize (find_all ["h3"; "p"] soup) as els.
  generalize (@None string, @nil game) as st.
  intros st els. revert st. induction els as [|el els IH]; intros st Hno; [reflexivity|].
  cbn [fold_left].
  assert (Hstep : schedule_step t1 st el = schedule_step t2 st el).
  { unfold schedule_step. destruct st as [cur games].
    assert (Hel : String.eqb (get_text_strip el) "Today's Games" = false).
    { apply String.eqb_neq. apply Hno. left. reflexivity. }
    rewrite Hel. reflexivity. }
  rewrite Hstep. apply IH. intros h Hin. apply Hno. right. exact Hin.
Qed.

(** C7 as worded fails: the same file, read on a Monday and on the
    Tuesday after, gives two different sequences when a heading is the
    "Today's Games" placeholder. *)
Lemma todays_games_depend_on_the_date :
  files todays_world_monday = files todays_world_tuesday /\
  fst (@get_all_games_from_schedule sample_library schedule_path todays_world_monday)
  <> fst (@get_all_games_from_schedule sample_library schedule_path todays_world_tuesday).
Proof. split; [reflexivity|]. vm_compute. discriminate. Qed.

(** C7, amended: two runs on the same unmodified document give the
    same result when the current date reads the same at both; nothing
    else of the world matters, and a run leaves the world as it found it. *)
Theorem same_document_same_date_same_games `{Library} (path : string) (w1 w2 : world) :
  text <$> files w1 !! path = text <$> files w2 !! path ->
  today_string (today w1) = today_string (today w2) ->
  fst (get_all_games_from_schedule path w1) = fst (get_all_games_from_schedule path w2)
  /\ snd (get_all_games_from_schedule path w1) = w1
  /\ snd (get_all_games_from_schedule path w2) = w2.
Proof.
  intros Hdoc Hdate. rewrite !get_all_games_from_schedule_unfold.
  destruct (files w1 !! path) as [f1|], (files w2 !! path) as [f2|];
    simpl in Hdoc; simplify_eq; simpl; [|auto].
  rewrite Hdate, Hdoc. auto.
Qed.

Lemma same_document_same_date_same_games_witness :
  august4_world <> updated_world /\
  fst (@get_all_games_from_schedule sample_library schedule_path august4_world)
  = fst (@get_all_games_from_schedule sample_library schedule_path updated_world).
Proof.
  split.
  - intros Heq. apply (f_equal (fun w => files w !! csv_path)) in Heq.
    vm_compute in Heq. discriminate.
  - apply (@same_document_same_date_same_games sample_library schedule_path
             august4_world updated_world); vm_compute; reflexivity.
Defined.

(* ================================================================== *)
(** ** Properties of the sink writers *)
(* ================================================================== *)

(** A sequence with a record in it is written, when the path can be opened. *)
Lemma save_to_csv_writes `{Library} (g : game) (games : list game) (path : string)
    (w : world) :
  path ∉ locked w ->
  files (snd (save_to_csv (g :: games) path w)) !! path
  = Some {| mtime := clock w;
            text := csv_dump fieldnames (List.map clean_game (g :: games)) |}.
Proof.
  intros Hfree. unfold save_to_csv, mbind, M_bind, bind, write_file, print.
  rewrite bool_decide_eq_false_2 by exact Hfree. simpl.
  apply lookup_insert_eq.
Qed.

(** C6: on the empty sequence each of the two writers prints "No games
    found to save", returns without raising and leaves every file as it
    was: no file is created or changed. *)
Theorem empty_sequence_writes_nothing `{Library} (path : string) (w : world) :
  (fst (save_to_csv [] path w) = Ok tt /\
   printed (save_to_csv [] path) w = [NoGamesToSave] /\
   files (snd (save_to_csv [] path w)) = files w) /\
  (fst (save_to_json [] path w) = Ok tt /\
   printed (save_to_json [] path) w = [NoGamesToSave] /\
   files (snd (save_to_json [] path w)) = files w).
Proof.
  unfold printed, save_to_csv, save_to_json, print. simpl.
  rewrite drop_app_length. repeat split.
Qed.

(* ================================================================== *)
(** ** Properties of the update *)
(* ================================================================== *)

Section UpdateFacts.
Context `{Library}.

(** Whatever the extraction and the writers do, they only add lines to
    what was printed before. *)
Lemma extract_and_write_stdout (html csv json : string) (t : Z) (w : world) :
  exists l, stdout (snd (extract_and_write html csv json t w)) = stdout w ++ l.
Proof.
  unfold extract_and_write, mbind, M_bind, bind.
  rewrite get_all_games_from_schedule_unfold.
  destruct (files w !! html) as [fh|];
    [|exists []; simpl; rewrite app_nil_r; reflexivity].
  destruct (scan_schedule _ _) as [|g gs].
  { eexists. reflexivity. }
  unfold save_to_csv, save_to_json, utime, write_file, print, mbind, M_bind, bind,
    mret, M_ret, ret.
  simpl.
  repeat (case_match; simpl in *; simplify_eq);
    simpl; rewrite <- ?app_assoc; eexists; reflexivity.
Qed.

(** The body of the [try] answers [True] only after [os.utime] has set
    the time stamp of the CSV. *)
Lemma extract_and_write_true (html csv json : string) (t : Z) (w : world) :
  fst (extract_and_write html csv json t w) = Ok true ->
  exists fc,
    files (snd (extract_and_write html csv json t w)) !! csv = Some fc /\ mtime fc = t.
Proof.
  unfold extract_and_write, mbind, M_bind, bind.
  rewrite get_all_games_from_schedule_unfold.
  destruct (files w !! html) as [fh|]; [|discriminate].
  destruct (scan_schedule _ _) as [|g gs]; [discriminate|].
  unfold save_to_csv, save_to_json, utime, write_file, print, mbind, M_bind, bind,
    mret, M_ret, ret.
  simpl.
  repeat (case_match; simpl in *; simplify_eq); try discriminate.
  all: intros _; simpl; eexists; rewrite lookup_insert_eq; split; reflexivity.
Qed.

Lemma guarded_stdout (html csv json : string) (t : Z) (w : world) :
  exists l,
    stdout (snd (try_except (extract_and_write html csv json t) on_error w))
    = stdout w ++ l.
Proof.
  unfold try_except.
  destruct (extract_and_write_stdout html csv json t w) as [l Hl].
  destruct (extract_and_write html csv json t w) as [[b|e] w']; simpl in *.
  - exists l. exact Hl.
  - exists (l ++ [ErrorUpdating e]). rewrite Hl, app_assoc. reflexivity.
Qed.

Lemma guarded_true (html csv json : string) (t : Z) (w : world) :
  fst (try_except (extract_and_write html csv json t) on_error w) = Ok true ->
  exists fc,
    files (snd (try_except (extract_and_write html csv json t) on_error w)) !! csv
      = Some fc /\ mtime fc = t.
Proof.
  unfold try_except.
  pose proof (extract_and_write_true html csv json t w) as Htrue.
  destruct (extract_and_write html csv json t w) as [[b|e] w']; simpl in *.
  - exact Htrue.
  - discriminate.
Qed.

Lemma update_csv_from_html_unfold (html csv json : string) (force : bool)
    (w : world) (fh : file) :
  files w !! html = Some fh ->
  update_csv_from_html html csv json force w =
  if up_to_date csv force fh w
  then (Ok true, with_stdout (stdout w ++ before_gate html csv fh w ++ [CsvUpToDate]) w)
  else try_except (extract_and_write html csv json (mtime fh)) on_error
         (with_stdout (stdout w ++ before_gate html csv fh w ++ [ExtractingGames]) w).
Proof.
  intros Hh.
  unfold update_csv_from_html, up_to_date, before_gate, on_error.
  unfold mbind, M_bind, bind, print, path_exists, getmtime, mret, M_ret, ret.
  simpl. rewrite Hh. simpl.
  destruct (files w !! csv) as [fc|] eqn:Hc; destruct force;
    do 3 (simpl; rewrite ?Hh, ?Hc);
    try destruct (mtime fh <=? mtime fc)%Z; simpl;
    unfold with_stdout; simpl; rewrite <- ?app_assoc; reflexivity.
Qed.

Lemma up_to_date_false (csv : string) (force : bool) (fh : file) (w : world) :
  up_to_date csv force fh w = false <->
  (files w !! csv = None \/ force = true \/
   exists fc, files w !! csv = Some fc /\ (mtime fc < mtime fh)%Z).
Proof.
  unfold up_to_date.
  destruct (files w !! csv) as [fc|]; destruct force; simpl.
  - split; auto.
  - destruct (Z.leb_spec (mtime fh) (mtime fc)); split; try discriminate; try reflexivity.
    + intros [?|[?|(fc' & Hfc & Hlt)]]; try discriminate. simplify_eq. lia.
    + intros _. right. right. exists fc. split; [reflexivity|lia].
  - split; auto.
  - split; auto.
Qed.

End UpdateFacts.




(* ================================================================== *)
(** ** The score tokens *)
(* ================================================================== *)

Lemma span_all (p : ascii -> bool) (a : string) (c : ascii) (rest : string) :
  Py.all_chars p a = true -> p c = false ->
  Py.span p (a +:+ String c rest) = (a, String c rest).
Proof.
  intros Ha Hc. induction a as [|x a IH]; simpl in *.
  - rewrite Hc. reflexivity.
  - apply andb_true_iff in Ha as [Hx Ha]. rewrite Hx, (IH Ha). reflexivity.
Qed.

Lemma string_app_snoc (a : string) (c : ascii) (s : string) :
  (a +:+ String c EmptyString) +:+ s = a +:+ String c s.
Proof.
  induction a as [|x a IH]; [reflexivity|].
  change (String x ((a +:+ String c EmptyString) +:+ s) = String x (a +:+ String c s)).
  f_equal. exact IH.
Qed.

Lemma string_length_snoc (a : string) (c : ascii) :
  String.length (a +:+ String c EmptyString) = S (String.length a).
Proof.
  induction a as [|x a IH]; [reflexivity|].
  change (S (String.length (a +:+ String c EmptyString)) = S (S (String.length a))).
  f_equal. exact IH.
Qed.

Lemma findall_scores_from_skip (a s : string) :
  Re.findall_scores_from (String.length a) (a +:+ s) = Re.findall_scores_from 0 s.
Proof.
  induction a as [|x a IH]; simpl; [reflexivity|].
  destruct a as [|y a]; simpl in *; [destruct s; reflexivity|exact IH].
Qed.

(** Text without an opening parenthesis holds no token. *)
Lemma findall_scores_plain (pre s : string) :
  Py.all_chars (fun c => negb (Ascii.eqb c Re.lparen)) pre = true ->
  Re.findall_scores_from 0 (pre +:+ s) = Re.findall_scores_from 0 s.
Proof.
  intros Hpre. induction pre as [|c pre IH]; simpl in *; [reflexivity|].
  apply andb_true_iff in Hpre as [Hc Hpre].
  apply negb_true_iff in Hc. rewrite Hc. apply IH. exact Hpre.
Qed.

(** The first token of a text: after a stretch without opening
    parenthesis, digits between parentheses; the search goes on after the
    closing one. *)
Lemma findall_scores_token (pre digits post : string) :
  Py.all_chars (fun c => negb (Ascii.eqb c Re.lparen)) pre = true ->
  Py.all_chars Py.isdigit digits = true ->
  digits <> EmptyString ->
  Re.findall_scores (pre +:+ String Re.lparen (digits +:+ String Re.rparen post))
  = digits :: Re.findall_scores post.
Proof.
  intros Hpre Hdigits Hne. unfold Re.findall_scores.
  rewrite findall_scores_plain by exact Hpre.
  cbn [Re.findall_scores_from Re.score_here].
  rewrite Ascii.eqb_refl, (span_all Py.isdigit digits Re.rparen post Hdigits eq_refl).
  destruct digits as [|d ds]; [contradiction|].
  rewrite Ascii.eqb_refl. f_equal.
  change (String d ds +:+ String Re.rparen post)
    with (String d (ds +:+ String Re.rparen post)).
  cbn [Re.findall_scores_from String.length].
  rewrite <- (string_app_snoc ds Re.rparen post), <- (string_length_snoc ds Re.rparen).
  apply findall_scores_from_skip.
Qed.

(* ================================================================== *)
(** ** Properties of the date matching of day_sample.py *)
(* ================================================================== *)




(* ================================================================== *)
(** ** Properties of the team table of odds_scrape.py *)
(* ================================================================== *)

Lemma TEAM_CODE_ITEMS_nodup : NoDup (Odds.TEAM_CODE_ITEMS.*1).
Proof. apply (bool_decide_unpack _). vm_compute. reflexivity. Qed.

(** C8: a display name that is a key of the table maps to the table's
    code, "Arizona Diamondbacks" to "ARI"; a name that is not a key maps
    to itself. *)
Theorem team_code_lookup (full : string) :
  (forall code, (full, code) ∈ Odds.TEAM_CODE_ITEMS -> Odds.team_code full = code) /\
  (full ∉ Odds.TEAM_CODE_ITEMS.*1 -> Odds.team_code full = full) /\
  Odds.team_code "Arizona Diamondbacks" = "ARI".
Proof.
  unfold Odds.team_code, Odds.TEAM_CODE_MAP. split; [|split].
  - intros code Hin.
    rewrite (elem_of_list_to_map_1 _ _ _ TEAM_CODE_ITEMS_nodup Hin). reflexivity.
  - intros Hnot. rewrite (not_elem_of_list_to_map_1 _ _ Hnot). reflexivity.
  - vm_compute. reflexivity.
Qed.

Lemma team_code_lookup_witness :
  Odds.team_code "Mets" = "NYM" /\ Odds.team_code "Yomiuri Giants" = "Yomiuri Giants".
Proof.
  split.
  - apply (proj1 (team_code_lookup "Mets")).
    apply (bool_decide_unpack _). vm_compute. reflexivity.
  - apply (proj1 (proj2 (team_code_lookup "Yomiuri Giants"))).
    apply (bool_decide_unpack _). vm_compute. reflexivity.
Defined.

(* ================================================================== *)
(** ** Further properties of the schedule extractor *)
(* ================================================================== *)

Section ScheduleRecords.
Context `{Library}.

Lemma game_data_text_content (d : string) (el : node) :
  text_content (game_data d el) = get_text el.
Proof.
  unfold game_data.
  destruct (find_span_tz el); destruct (find_team_links el) as [|? [|? ?]];
    try reflexivity;
    destruct (Re.findall_scores (get_text el)) as [|? [|? ?]]; reflexivity.
Qed.

Lemma game_paragraph_name_in (el : node) :
  String.eqb (name el) "p" && has_class "game" el
  = name_in ["p"] el && has_class "game" el.
Proof.
  destruct el as [s|nm attrs cs]; [reflexivity|]. simpl. f_equal.
  destruct (String.eqb_spec nm "p") as [->|Hne].
  - symmetry. apply bool_decide_eq_true. apply list_elem_of_here.
  - symmetry. apply bool_decide_eq_false. intros Hin.
    apply list_elem_of_singleton in Hin. contradiction.
Qed.

(** What the loop knows when it appends a record: the active date is not
    empty and satisfies whatever holds of the day's date and of the dated
    headings seen so far; the element is a game paragraph without the
    "(Spring)" mark and with two team links. *)
Lemma scan_records (today_str : string) (Q : string -> Prop) (P : game -> Prop)
    (els : list node) :
  Q today_str ->
  (forall h, In h els -> name h = "h3" ->
             Py.contains "," (get_text_strip h) = true ->
             Py.contains "2025" (get_text_strip h) = true ->
             Q (get_text_strip h)) ->
  (forall d el, In el els -> Q d -> d <> "" ->
                name_in ["p"] el && has_class "game" el = true ->
                Py.contains "(Spring)" (get_text el) = false ->
                2 <= length (find_team_links el) ->
                P (game_data d el)) ->
  forall st,
    (forall d, fst st = Some d -> Q d) ->
    Forall P (snd st) ->
    Forall P (snd (fold_left (schedule_step today_str) els st)).
Proof.
  intros Htoday. induction els as [|el els IH]; intros Hhead Hgame st Hcur Hst;
    [exact Hst|].
  cbn [fold_left].
  assert (Hstep : (forall d, fst (schedule_step today_str st el) = Some d -> Q d) /\
                  Forall P (snd (schedule_step today_str st el))).
  { destruct st as [cur games]. simpl in Hcur, Hst. unfold schedule_step.
    destruct (String.eqb (name el) "h3") eqn:Hh3.
    { apply String.eqb_eq in Hh3.
      destruct (String.eqb (get_text_strip el) "Today's Games").
      { simpl. split; [intros d Hd; simplify_eq; exact Htoday | exact Hst]. }
      rewrite nonempty_contains_comma.
      destruct (Py.contains "," (get_text_strip el)) eqn:Hc;
        destruct (Py.contains "2025" (get_text_strip el)) eqn:Hy; simpl;
        (split; [|exact Hst]); try exact Hcur.
      intros d Hd. simplify_eq. apply Hhead; auto. left. reflexivity. }
    rewrite game_paragraph_name_in.
    destruct (name_in ["p"] el && has_class "game" el) eqn:Hgp;
      [|split; [exact Hcur | exact Hst]].
    destruct cur as [[|c d]|]; try (split; [exact Hcur | exact Hst]).
    destruct (Py.contains "(Spring)" (get_text el)) eqn:Hspring;
      [split; [exact Hcur | exact Hst]|].
    destruct (2 <=? length (find_team_links el))%nat eqn:Hlinks;
      [|split; [exact Hcur | exact Hst]].
    simpl. split; [exact Hcur|].
    apply Forall_app. split; [exact Hst|]. constructor; [|constructor].
    apply Hgame;
      [left; reflexivity | exact (Hcur _ eq_refl) | done | exact Hgp
      | exact Hspring | apply Nat.leb_le; exact Hlinks]. }
  destruct Hstep as [Hcur' Hst'].
  apply IH; auto.
  - intros h Hin. apply Hhead. right. exact Hin.
  - intros d e Hin. apply Hgame. right. exact Hin.
Qed.

End ScheduleRecords.

(* ================================================================== *)
(** ** Further properties of the score tokens *)
(* ================================================================== *)

Lemma prefix_app (a b : string) : String.prefix a (a +:+ b) = true.
Proof.
  induction a as [|c a IH]; [destruct b; reflexivity|].
  change (String c a +:+ b) with (String c (a +:+ b)).
  simpl. destruct (ascii_dec c c) as [_|Hne]; [exact IH|contradiction].
Qed.

Lemma contains_prefix (sub s : string) :
  String.prefix sub s = true -> Py.contains sub s = true.
Proof. intros Hp. destruct s; cbn [Py.contains]; rewrite Hp; reflexivity. Qed.

Lemma contains_cons (sub : string) (c : ascii) (s : string) :
  Py.contains sub s = true -> Py.contains sub (String c s) = true.
Proof.
  intros Hs. change (Py.contains sub (String c s))
    with (String.prefix sub (String c s) || Py.contains sub s).
  rewrite Hs. apply orb_true_r.
Qed.

Lemma span_spec (p : ascii -> bool) (s a r : string) :
  Py.span p s = (a, r) ->
  s = a +:+ r /\ Py.all_chars p a = true.
Proof.
  revert a r. induction s as [|c s IH]; intros a r Hspan; simpl in Hspan.
  - injection Hspan as <- <-. split; reflexivity.
  - destruct (p c) eqn:Hc.
    + destruct (Py.span p s) as [a' r'] eqn:Hs. injection Hspan as <- <-.
      destruct (IH a' r' eq_refl) as [-> Ha]. split; [reflexivity|].
      simpl. rewrite Hc, Ha. reflexivity.
    + injection Hspan as <- <-. split; reflexivity.
Qed.

(** A match at the start of [s]: [s] begins with an opening parenthesis,
    the digits of the group and a closing parenthesis. *)
Lemma score_here_spec (s d : string) :
  Re.score_here s = Some d ->
  d <> EmptyString /\ Py.all_chars Py.isdigit d = true /\
  exists rest, s = String Re.lparen (d +:+ String Re.rparen rest).
Proof.
  unfold Re.score_here. destruct s as [|c s]; [discriminate|].
  destruct (Ascii.eqb_spec c Re.lparen) as [->|]; [|discriminate].
  destruct (Py.span Py.isdigit s) as [a r] eqn:Hspan.
  destruct (span_spec _ _ _ _ Hspan) as [-> Ha].
  destruct a as [|x a]; [discriminate|]. destruct r as [|e r]; [discriminate|].
  destruct (Ascii.eqb_spec e Re.rparen) as [->|]; [|discriminate].
  intros [= <-]. split; [discriminate|]. split; [exact Ha|].
  exists r. reflexivity.
Qed.

Lemma findall_scores_from_sound (s : string) :
  forall skip,
    Forall (fun d => d <> EmptyString /\ Py.all_chars Py.isdigit d = true /\
                     Py.contains (parenthesised d) s = true)
           (Re.findall_scores_from skip s).
Proof.
  induction s as [|c s IH]; intros skip; [constructor|].
  assert (Hweak : forall k,
            Forall (fun d => d <> EmptyString /\ Py.all_chars Py.isdigit d = true /\
                             Py.contains (parenthesised d) (String c s) = true)
                   (Re.findall_scores_from k s)).
  { intros k. eapply Forall_impl; [apply IH|].
    intros d (Hne & Hd & Hin). repeat split; auto. apply contains_cons. exact Hin. }
  cbn [Re.findall_scores_from]. destruct skip as [|k]; [|apply Hweak].
  destruct (Re.score_here (String c s)) as [d|] eqn:Hhere; [|apply Hweak].
  constructor; [|apply Hweak].
  destruct (score_here_spec _ _ Hhere) as (Hne & Hd & rest & Hs).
  repeat split; auto. apply contains_prefix. rewrite Hs.
  unfold parenthesised.
  rewrite <- (string_app_snoc d Re.rparen rest).
  apply (prefix_app (String Re.lparen (d +:+ String Re.rparen EmptyString)) rest).
Qed.

(** X5: whatever the text, every token found is a non-empty string of
    digits that stands in the text between parentheses. *)
Theorem tokens_are_parenthesised_digits (s : string) :
  Forall (fun d => d <> EmptyString /\ Py.all_chars Py.isdigit d = true /\
                   Py.contains (parenthesised d) s = true)
         (Re.findall_scores s).
Proof. apply findall_scores_from_sound. Qed.

Lemma isdigit_value (c : ascii) :
  Py.isdigit c = true -> (0 <= Z.of_N (Py.ord c) - 48 <= 9)%Z.
Proof.
  unfold Py.isdigit, Py.between. intros Hc.
  apply andb_true_iff in Hc as [Hlo Hhi].
  apply N.leb_le in Hlo, Hhi. lia.
Qed.

Lemma int_from_nonneg (s : string) :
  forall acc, (0 <= acc)%Z -> Py.all_chars Py.isdigit s = true ->
              (0 <= Py.int_from acc s)%Z.
Proof.
  induction s as [|c s IH]; intros acc Hacc Hs; simpl in *; [exact Hacc|].
  apply andb_true_iff in Hs as [Hc Hs]. apply isdigit_value in Hc.
  apply IH; [lia|exact Hs].
Qed.

Lemma token_value_nonneg (s : string) :
  Forall (fun d => (0 <= Py.int d)%Z) (Re.findall_scores s).
Proof.
  eapply Forall_impl; [apply (findall_scores_from_sound s 0)|].
  intros d (_ & Hd & _). apply int_from_nonneg; [lia|exact Hd].
Qed.

Lemma replace_keeps_head (c : ascii) (s : string) :
  c <> " "%char ->
  Py.replace " 0" " " (String c s) = String c (Py.replace_from 0 " 0" " " s).
Proof.
  intros Hc. unfold Py.replace. cbn [Py.replace_from String.prefix].
  destruct (ascii_dec " " c) as [Heq|_]; [congruence|reflexivity].
Qed.

Lemma today_string_nonempty (dt : datetime) : today_string dt <> "".
Proof.
  unfold today_string, strftime_long.
  destruct (dt_weekday dt); cbn [weekday_name];
    match goal with
    | |- Py.replace _ _ (String ?c ?s +:+ ?t) <> _ =>
        change (String c s +:+ t) with (String c (s +:+ t));
        rewrite replace_keeps_head by discriminate; discriminate
    end.
Qed.

Section ScheduleExact.
Context `{Library}.

Lemma contains_nonempty (sub s : string) :
  sub <> "" -> Py.contains sub s = true -> s <> "".
Proof. intros Hsub Hc ->. destruct sub; [contradiction|discriminate]. Qed.

(** The first heading that sets the date leaves a non-empty date. *)
Lemma schedule_step_first_date (today_str : string) (games : list game) (h : node) :
  today_str <> "" ->
  sets_date_context h = true ->
  exists d, d <> "" /\ schedule_step today_str (None, games) h = (Some d, games).
Proof.
  intros Htoday Hh. unfold sets_date_context in Hh. unfold schedule_step.
  apply andb_true_iff in Hh as [Hname Hh]. rewrite Hname.
  destruct (String.eqb (get_text_strip h) "Today's Games"); simpl in Hh.
  - exists today_str. split; [exact Htoday|reflexivity].
  - rewrite nonempty_contains_comma, Hh.
    exists (get_text_strip h). split; [|reflexivity].
    apply andb_true_iff in Hh as [Hc _].
    apply (contains_nonempty "," _); [discriminate|exact Hc].
Qed.

(** Once a date is active it stays so, and the paragraphs that give a
    record are those of [yields_record], each once, in their order. *)
Lemma scan_with_date (today_str : string) (els : list node) :
  today_str <> "" ->
  forall d games,
    d <> "" ->
    List.map text_content (snd (fold_left (schedule_step today_str) els (Some d, games)))
    = List.map text_content games ++ List.map get_text (List.filter yields_record els).
Proof.
  intros Htoday. induction els as [|el els IH]; intros d games Hd.
  { simpl. rewrite app_nil_r. reflexivity. }
  cbn [fold_left List.filter].
  unfold schedule_step at 2. unfold yields_record at 1.
  destruct (String.eqb (name el) "h3") eqn:Hh3.
  { assert (Hp : name_in ["p"] el = false).
    { destruct el as [s|nm attrs cs]; [reflexivity|]. simpl in *.
      apply String.eqb_eq in Hh3. subst nm. reflexivity. }
    rewrite Hp. cbn [andb].
    destruct (String.eqb (get_text_strip el) "Today's Games"); [apply IH; exact Htoday|].
    destruct (nonempty (get_text_strip el) && Py.contains "," (get_text_strip el)
              && Py.contains "2025" (get_text_strip el)) eqn:Hc; [|apply IH; exact Hd].
    apply IH. apply andb_true_iff in Hc as [Hc _]. apply andb_true_iff in Hc as [Hc _].
    destruct (get_text_strip el); [discriminate|discriminate]. }
  rewrite game_paragraph_name_in.
  destruct (name_in ["p"] el && has_class "game" el); cbn [andb]; [|apply IH; exact Hd].
  destruct d as [|c d]; [contradiction|].
  destruct (Py.contains "(Spring)" (get_text el)); cbn [negb andb]; [apply IH; exact Hd|].
  destruct (2 <=? length (find_team_links el))%nat; [|apply IH; exact Hd].
  rewrite IH by exact Hd.
  rewrite map_app. cbn [List.map]. rewrite game_data_text_content, <- app_assoc.
  reflexivity.
Qed.

Lemma scan_until_date (today_str : string) (els : list node) :
  today_str <> "" ->
  List.map text_content (snd (fold_left (schedule_step today_str) els (None, [])))
  = List.map get_text (List.filter yields_record (after_first_date els)).
Proof.
  intros Htoday. induction els as [|el els IH]; [reflexivity|].
  cbn [fold_left after_first_date].
  destruct (sets_date_context el) eqn:Hset.
  - destruct (schedule_step_first_date today_str [] el Htoday Hset) as (d & Hd & ->).
    rewrite (scan_with_date today_str els Htoday d [] Hd).
    cbn [List.filter]. unfold yields_record at 2.
    assert (Hp : name_in ["p"] el = false).
    { unfold sets_date_context in Hset. apply andb_true_iff in Hset as [Hname _].
      destruct el as [s|nm attrs cs]; [reflexivity|]. simpl in *.
      apply String.eqb_eq in Hname. subst nm. reflexivity. }
    rewrite Hp. reflexivity.
  - rewrite schedule_step_no_context by exact Hset. exact IH.
Qed.

End ScheduleExact.

Lemma find_all_h3_of_elements `{Library} (soup h : node) :
  In h (find_all ["h3"; "p"] soup) -> name h = "h3" -> In h (find_all ["h3"] soup).
Proof.
  unfold find_all. intros Hin Hname. apply filter_In in Hin as [Hin _].
  apply filter_In. split; [exact Hin|]. apply name_in_h3.
  rewrite Hname. reflexivity.
Qed.



(** X2: no returned record comes from a paragraph marked "(Spring)": the
    text of a record never contains the mark. *)
Theorem returned_games_are_not_spring `{Library} (path : string) (w w' : world)
    (games : list game) :
  get_all_games_from_schedule path w = (Ok games, w') ->
  Forall (fun g => Py.contains "(Spring)" (text_content g) = false) games.
Proof.
  rewrite get_all_games_from_schedule_unfold.
  destruct (files w !! path) as [f|]; [|discriminate]. intros [= <- _].
  unfold scan_schedule.
  apply (scan_records (today_string (today w)) (fun _ => True)); auto.
  - intros d el _ _ _ _ Hspring _. rewrite game_data_text_content. exact Hspring.
Qed.

Lemma returned_games_are_not_spring_witness :
  exists g,
    @get_all_games_from_schedule sample_library schedule_path august4_world
      = (Ok [g], august4_world) /\
    Py.contains "(Spring)" (text_content g) = false.
Proof.
  eexists. split; [vm_compute; reflexivity|].
  pose proof (@returned_games_are_not_spring sample_library schedule_path august4_world
                august4_world _ eq_refl) as Hall.
  inversion Hall as [|g gs Hg _]. exact Hg.
Defined.

(** X3: which paragraphs give a record.  The paragraphs before the first
    heading that sets the date give none; from that heading on, the
    records are those of the game paragraphs without the "(Spring)" mark
    and with at least two team links, one record each, in document order. *)
Theorem returned_games_follow_the_paragraphs `{Library} (path : string) (w w' : world)
    (games : list game) (f : file) :
  files w !! path = Some f ->
  get_all_games_from_schedule path w = (Ok games, w') ->
  List.map text_content games
  = List.map get_text
      (List.filter yields_record
         (after_first_date (find_all ["h3"; "p"] (BeautifulSoup (text f))))).
Proof.
  intros Hf. rewrite get_all_games_from_schedule_unfold, Hf. intros [= <- _].
  unfold scan_schedule. apply scan_until_date. apply today_string_nonempty.
Qed.

Lemma returned_games_follow_the_paragraphs_witness :
  exists games,
    @get_all_games_from_schedule sample_library schedule_path august4_world
      = (Ok games, august4_world) /\
    List.map text_content games = ["Guardians (3) @ Mets (5)"].
Proof.
  eexists. split; [vm_compute; reflexivity|].
  exact (@returned_games_follow_the_paragraphs sample_library schedule_path
           august4_world august4_world _ _ eq_refl eq_refl).
Defined.

Lemma game_data_scores `{Library} (d : string) (el : node) :
  2 <= length (find_team_links el) ->
  score1 (game_data d el) = Py.int <$> (Re.findall_scores (get_text el) !! 0%nat) /\
  score2 (game_data d el) = Py.int <$> (Re.findall_scores (get_text el) !! 1%nat).
Proof.
  intros Hlen. unfold game_data.
  destruct (find_team_links el) as [|l0 [|l1 ls]]; simpl in Hlen; try lia.
  destruct (Re.findall_scores (get_text el)) as [|s0 [|s1 ss]];
    destruct (find_span_tz el); split; reflexivity.
Qed.

(** X4: in every returned record a score is a non-negative integer, and
    [score2] is never set without [score1]. *)
Theorem returned_scores_are_sound `{Library} (path : string) (w w' : world)
    (games : list game) :
  get_all_games_from_schedule path w = (Ok games, w') ->
  Forall (fun g =>
            (forall v, score1 g = Some v -> (0 <= v)%Z) /\
            (forall v, score2 g = Some v -> (0 <= v)%Z) /\
            (score2 g <> None -> score1 g <> None))
         games.
Proof.
  rewrite get_all_games_from_schedule_unfold.
  destruct (files w !! path) as [f|]; [|discriminate]. intros [= <- _].
  apply scan_schedule_invariant. intros d el Hlen.
  destruct (game_data_scores d el Hlen) as [-> ->].
  pose proof (token_value_nonneg (get_text el)) as Htok.
  destruct (Re.findall_scores (get_text el)) as [|s0 [|s1 ss]]; simpl.
  - split; [|split]; [discriminate | discriminate | auto].
  - inversion Htok as [|? ? Hv0 _]. split; [|split].
    + intros v Hv. simplify_eq. exact Hv0.
    + discriminate.
    + intros Hne. contradiction.
  - inversion Htok as [|? ? Hv0 Hrest]. inversion Hrest as [|? ? Hv1 _].
    split; [|split].
    + intros v Hv. simplify_eq. exact Hv0.
    + intros v Hv. simplify_eq. exact Hv1.
    + discriminate.
Qed.

Lemma returned_scores_are_sound_witness :
  exists g,
    @get_all_games_from_schedule sample_library schedule_path august4_world
      = (Ok [g], august4_world) /\
    score2 g = Some 5%Z /\ score1 g <> None.
Proof.
  eexists. split; [vm_compute; reflexivity|]. split; [reflexivity|].
  pose proof (@returned_scores_are_sound sample_library schedule_path august4_world
                august4_world _ eq_refl) as Hall.
  inversion Hall as [|g gs (_ & _ & Himp) _]. apply Himp. discriminate.
Defined.



(* ================================================================== *)
(** ** Further properties of the update *)
(* ================================================================== *)

Section UpdateOutcome.
Context `{Library}.

(** The files in which the body of the [try] ends, and its result. *)
Lemma extract_and_write_outcome (html csv json : string) (t : Z) (w : world) (fh : file) :
  files w !! html = Some fh ->
  let games := scan_schedule (today_string (today w)) (BeautifulSoup (text fh)) in
  let csv_file := {| mtime := clock w; text := csv_dump fieldnames (List.map clean_game games) |} in
  let json_file := {| mtime := (clock w + 1)%Z; text := json_dump games |} in
  (fst (extract_and_write html csv json t w), files (snd (extract_and_write html csv json t w)))
  = match games with
    | [] => (Ok false, files w)
    | _ :: _ =>
        if bool_decide (csv ∈ locked w) then (Raise PermissionError, files w)
        else if bool_decide (json ∈ locked w)
             then (Raise PermissionError, <[csv := csv_file]> (files w))
             else (Ok true,
                   <[csv := {| mtime := t;
                               text := if bool_decide (csv = json)
                                       then text json_file else text csv_file |}]>
                     (<[json := json_file]> (<[csv := csv_file]> (files w))))
    end.
Proof.
  intros Hh games csv_file json_file. subst csv_file json_file.
  unfold extract_and_write, mbind, M_bind, bind.
  rewrite get_all_games_from_schedule_unfold, Hh. fold games.
  destruct games as [|g gs]; [reflexivity|].
  unfold save_to_csv, save_to_json, utime, write_file, print, mbind, M_bind, bind,
    mret, M_ret, ret.
  cbn [stdout files locked clock with_stdout with_files with_clock fst snd].
  destruct (bool_decide (csv ∈ locked w)); [reflexivity|].
  cbn [stdout files locked clock with_stdout with_files with_clock fst snd].
  destruct (bool_decide (json ∈ locked w)); [reflexivity|].
  cbn [stdout files locked clock with_stdout with_files with_clock fst snd].
  destruct (bool_decide_reflect (csv = json)) as [->|Hne].
  - rewrite lookup_insert_eq. reflexivity.
  - rewrite lookup_insert_ne by congruence. rewrite lookup_insert_eq. reflexivity.
Qed.

Lemma guarded_outcome (html csv json : string) (t : Z) (w : world) :
  fst (try_except (extract_and_write html csv json t) on_error w)
  = match fst (extract_and_write html csv json t w) with
    | Ok b => Ok b
    | Raise _ => Ok false
    end /\
  files (snd (try_except (extract_and_write html csv json t) on_error w))
  = files (snd (extract_and_write html csv json t w)).
Proof.
  unfold try_except.
  destruct (extract_and_write html csv json t w) as [[b|e] w']; split; reflexivity.
Qed.

Lemma update_missing_source (html csv json : string) (force : bool) (w : world) :
  files w !! html = None ->
  update_csv_from_html html csv json force w
  = (Ok false, with_stdout (stdout w ++ [CheckingForUpdates; HtmlNotFound html]) w).
Proof.
  intros Hh.
  unfold update_csv_from_html, mbind, M_bind, bind, print, path_exists, mret, M_ret, ret.
  simpl. rewrite Hh. simpl. unfold with_stdout. simpl. rewrite <- app_assoc. reflexivity.
Qed.

(** The result of the update and the files it leaves, case by case. *)
Lemma update_outcome (html csv json : string) (force : bool) (w : world) :
  (fst (update_csv_from_html html csv json force w),
   files (snd (update_csv_from_html html csv json force w)))
  = match files w !! html with
    | None => (Ok false, files w)
    | Some fh =>
        if up_to_date csv force fh w then (Ok true, files w)
        else
          let games := scan_schedule (today_string (today w)) (BeautifulSoup (text fh)) in
          let csv_file :=
            {| mtime := clock w; text := csv_dump fieldnames (List.map clean_game games) |} in
          let json_file := {| mtime := (clock w + 1)%Z; text := json_dump games |} in
          match games with
          | [] => (Ok false, files w)
          | _ :: _ =>
              if bool_decide (csv ∈ locked w) then (Ok false, files w)
              else if bool_decide (json ∈ locked w)
                   then (Ok false, <[csv := csv_file]> (files w))
                   else (Ok true,
                         <[csv := {| mtime := mtime fh;
                                     text := if bool_decide (csv = json)
                                             then text json_file else text csv_file |}]>
                           (<[json := json_file]> (<[csv := csv_file]> (files w))))
          end
    end.
Proof.
  destruct (files w !! html) as [fh|] eqn:Hh.
  2:{ rewrite update_missing_source by exact Hh. reflexivity. }
  rewrite (update_csv_from_html_unfold html csv json force w fh Hh).
  destruct (up_to_date csv force fh w); [reflexivity|].
  set (w1 := with_stdout (stdout w ++ before_gate html csv fh w ++ [ExtractingGames]) w).
  destruct (guarded_outcome html csv json (mtime fh) w1) as [-> ->].
  pose proof (extract_and_write_outcome html csv json (mtime fh) w1 fh Hh) as Hout.
  cbn zeta in Hout. change (today w1) with (today w) in Hout.
  change (clock w1) with (clock w) in Hout. change (files w1) with (files w) in Hout.
  change (locked w1) with (locked w) in Hout.
  destruct (extract_and_write html csv json (mtime fh) w1) as [r w2]. simpl in *.
  cbn zeta.
  destruct (scan_schedule (today_string (today w)) (BeautifulSoup (text fh))) as [|g gs].
  { injection Hout as -> ->. reflexivity. }
  destruct (bool_decide (csv ∈ locked w)); [injection Hout as -> ->; reflexivity|].
  destruct (bool_decide (json ∈ locked w)); injection Hout as -> ->; reflexivity.
Qed.

End UpdateOutcome.

Lemma up_to_date_true (csv : string) (force : bool) (fh : file) (w : world) :
  up_to_date csv force fh w = true <->
  force = false /\ exists fc, files w !! csv = Some fc /\ (mtime fh <= mtime fc)%Z.
Proof.
  unfold up_to_date. destruct (files w !! csv) as [fc|]; destruct force; simpl.
  - split; [discriminate|]. intros [? _]. discriminate.
  - rewrite Z.leb_le. split.
    + intros Hle. split; [reflexivity|]. exists fc. auto.
    + intros [_ (fc' & Hfc & Hle)]. simplify_eq. exact Hle.
  - split; [discriminate|]. intros [? _]. discriminate.
  - split; [discriminate|]. intros [_ (fc' & Hfc & _)]. discriminate.
Qed.

Lemma extracted_games `{Library} (html : string) (w : world) (fh : file) :
  files w !! html = Some fh ->
  fst (get_all_games_from_schedule html w)
  = Ok (scan_schedule (today_string (today w)) (BeautifulSoup (text fh))).
Proof. intros Hh. rewrite get_all_games_from_schedule_unfold, Hh. reflexivity. Qed.



(** X10: the update touches no file but the two outputs: whatever
    happens, every other path holds after it what it held before. *)
Theorem update_touches_only_outputs `{Library} (html csv json : string) (force : bool)
    (w : world) (q : string) :
  q <> csv -> q <> json ->
  files (snd (update_csv_from_html html csv json force w)) !! q = files w !! q.
Proof.
  intros Hc Hj.
  pose proof (update_outcome html csv json force w) as Hout.
  apply (f_equal snd) in Hout. cbn [snd] in Hout. rewrite Hout. clear Hout.
  destruct (files w !! html) as [fh|]; [|reflexivity].
  destruct (up_to_date csv force fh w); [reflexivity|]. cbn zeta.
  destruct (scan_schedule _ _) as [|g gs]; [reflexivity|].
  destruct (bool_decide (csv ∈ locked w)); [reflexivity|].
  destruct (bool_decide (json ∈ locked w)); cbn [snd].
  - rewrite lookup_insert_ne by congruence. reflexivity.
  - rewrite !lookup_insert_ne by congruence. reflexivity.
Qed.

Lemma update_touches_only_outputs_witness :
  files (snd (@update_csv_from_html sample_library schedule_path csv_path json_path
                false august4_world)) !! schedule_path
  = Some {| mtime := 1000; text := august4_html |}.
Proof.
  rewrite (@update_touches_only_outputs sample_library schedule_path csv_path json_path
             false august4_world schedule_path); [reflexivity| |]; vm_compute; discriminate.
Defined.

(** X11: in four situations the update creates and changes no file: the
    source is missing; the CSV is up to date and [force] is not requested;
    the extraction finds no game; the CSV path cannot be written. *)
Theorem update_writes_nothing `{Library} (html csv json : string) (force : bool)
    (w : world) :
  files w !! html = None \/
  (force = false /\
   exists fh fc, files w !! html = Some fh /\ files w !! csv = Some fc /\
                 (mtime fh <= mtime fc)%Z) \/
  fst (get_all_games_from_schedule html w) = Ok [] \/
  csv ∈ locked w ->
  files (snd (update_csv_from_html html csv json force w)) = files w.
Proof.
  intros Hcase.
  pose proof (update_outcome html csv json force w) as Hout.
  apply (f_equal snd) in Hout. cbn [snd] in Hout. rewrite Hout. clear Hout.
  destruct (files w !! html) as [fh|] eqn:Hh; [|reflexivity].
  rewrite (extracted_games html w fh Hh) in Hcase.
  destruct (up_to_date csv force fh w) eqn:Hup; [reflexivity|]. cbn zeta.
  destruct (scan_schedule _ _) as [|g gs]; [reflexivity|].
  destruct (bool_decide_reflect (csv ∈ locked w)) as [Hc|Hc]; [reflexivity|].
  destruct Hcase as [Hnone|[(Hf & fh' & fc & Hfh & Hfc & Hle)|[Hempty|Hlocked]]].
  - discriminate.
  - assert (Htrue : up_to_date csv force fh w = true).
    { apply up_to_date_true. split; [exact Hf|]. exists fc. simplify_eq. auto. }
    congruence.
  - discriminate.
  - contradiction.
Qed.

Lemma update_writes_nothing_witness :
  files (snd (@update_csv_from_html sample_library schedule_path csv_path json_path
                true undated_world)) = files undated_world /\
  files (snd (@update_csv_from_html sample_library schedule_path csv_path json_path
                true empty_world)) = files empty_world.
Proof.
  split.
  - apply (@update_writes_nothing sample_library). right. right. left.
    vm_compute. reflexivity.
  - apply (@update_writes_nothing sample_library). left. reflexivity.
Defined.







(* ================================================================== *)
(** ** Properties of the cleaning of text for the CSV *)
(* ================================================================== *)

Lemma rev_app_app (s acc : string) :
  String.rev_app s acc = String.rev_app s EmptyString +:+ acc.
Proof.
  revert acc. induction s as [|c s IH]; intros acc; [reflexivity|].
  cbn [String.rev_app]. rewrite (IH (String c acc)), (IH (String c EmptyString)).
  symmetry. apply string_app_snoc.
Qed.

Lemma rev_cons (c : ascii) (s : string) : String.rev (String c s) = snoc (String.rev s) c.
Proof. unfold String.rev, snoc. cbn [String.rev_app]. apply rev_app_app. Qed.

Lemma rev_app_snoc (s : string) (c : ascii) (acc : string) :
  String.rev_app (snoc s c) acc = String c (String.rev_app s acc).
Proof.
  unfold snoc. revert acc. induction s as [|x s IH]; intros acc; [reflexivity|].
  change (String x s +:+ String c EmptyString) with (String x (s +:+ String c EmptyString)).
  cbn [String.rev_app]. apply IH.
Qed.

Lemma rev_snoc (s : string) (c : ascii) : String.rev (snoc s c) = String c (String.rev s).
Proof. apply rev_app_snoc. Qed.

Lemma rev_rev (s : string) : String.rev (String.rev s) = s.
Proof.
  induction s as [|c s IH]; [reflexivity|].
  rewrite rev_cons, rev_snoc, IH. reflexivity.
Qed.

(** Induction from the end of the string. *)
Lemma snoc_ind (P : string -> Prop) :
  P EmptyString -> (forall s c, P s -> P (snoc s c)) -> forall s, P s.
Proof.
  intros Hnil Hsnoc s. rewrite <- (rev_rev s).
  induction (String.rev s) as [|c r IH]; [exact Hnil|].
  rewrite rev_cons. apply Hsnoc. exact IH.
Qed.

Lemma rstrip_snoc (s : string) (c : ascii) :
  Py.rstrip (snoc s c) = if Py.isspace c then Py.rstrip s else snoc s c.
Proof.
  unfold Py.rstrip. rewrite rev_snoc. cbn [Py.lstrip].
  destruct (Py.isspace c); [reflexivity|].
  rewrite <- rev_snoc. apply rev_rev.
Qed.

Lemma rstrip_idempotent (s : string) : Py.rstrip (Py.rstrip s) = Py.rstrip s.
Proof.
  induction s as [|s c IH] using snoc_ind; [reflexivity|].
  rewrite rstrip_snoc. destruct (Py.isspace c) eqn:Hc; [exact IH|].
  rewrite rstrip_snoc, Hc. reflexivity.
Qed.

Lemma snoc_cons (x : ascii) (s : string) (c : ascii) :
  snoc (String x s) c = String x (snoc s c).
Proof. reflexivity. Qed.

(** [rstrip] keeps the first character when it is not white space. *)
Lemma rstrip_head (x : ascii) (s : string) :
  Py.isspace x = false -> exists r, Py.rstrip (String x s) = String x r.
Proof.
  intros Hx. induction s as [|s c IH] using snoc_ind.
  - exists EmptyString. change (String x EmptyString) with (snoc EmptyString x).
    rewrite rstrip_snoc, Hx. reflexivity.
  - rewrite <- snoc_cons, rstrip_snoc.
    destruct (Py.isspace c); [exact IH|]. exists (snoc s c). reflexivity.
Qed.

Lemma lstrip_fixed (s : string) : Py.lstrip (Py.lstrip s) = Py.lstrip s.
Proof.
  induction s as [|c s IH]; [reflexivity|].
  cbn [Py.lstrip]. destruct (Py.isspace c) eqn:Hc; [exact IH|].
  cbn [Py.lstrip]. rewrite Hc. reflexivity.
Qed.

Lemma lstrip_head (s : string) :
  Py.lstrip s = EmptyString \/ exists x r, Py.lstrip s = String x r /\ Py.isspace x = false.
Proof.
  induction s as [|c s IH]; [left; reflexivity|].
  cbn [Py.lstrip]. destruct (Py.isspace c) eqn:Hc; [exact IH|].
  right. exists c, s. auto.
Qed.

(** Stripping leaves nothing to strip. *)
Lemma strip_idempotent (s : string) : Py.strip (Py.strip s) = Py.strip s.
Proof.
  unfold Py.strip.
  destruct (lstrip_head s) as [->|(x & r & -> & Hx)]; [reflexivity|].
  destruct (rstrip_head x r Hx) as [r' Hr]. rewrite Hr.
  cbn [Py.lstrip]. rewrite Hx, <- Hr. apply rstrip_idempotent.
Qed.

Lemma tidy_sub_spaces (in_run : bool) (s : string) :
  tidy in_run (Re.sub_spaces_from in_run s) = true.
Proof.
  revert in_run. induction s as [|c s IH]; intros in_run; [reflexivity|].
  cbn [Re.sub_spaces_from]. destruct (Py.isspace c) eqn:Hc.
  - destruct in_run; [apply IH|].
    cbn [tidy]. change (Py.isspace " ") with true. cbn. apply IH.
  - cbn [tidy]. rewrite Hc. apply IH.
Qed.

Lemma tidy_weaken (b : bool) (s : string) : tidy b s = true -> tidy false s = true.
Proof.
  destruct s as [|c s]; [reflexivity|]. cbn [tidy].
  destruct (Py.isspace c); [|auto]. destruct b; [|auto].
  rewrite andb_false_r. discriminate.
Qed.

Lemma tidy_lstrip (b b' : bool) (s : string) :
  tidy b s = true -> tidy b' (Py.lstrip s) = true.
Proof.
  revert b. induction s as [|c s IH]; intros b Hs; [reflexivity|].
  cbn [Py.lstrip]. cbn [tidy] in Hs. destruct (Py.isspace c) eqn:Hc.
  - apply andb_true_iff in Hs as [_ Hs]. apply (IH true). exact Hs.
  - cbn [tidy]. rewrite Hc. exact Hs.
Qed.

Lemma tidy_snoc (b : bool) (s : string) (c : ascii) :
  tidy b (snoc s c) = true -> tidy b s = true.
Proof.
  revert b. induction s as [|x s IH]; intros b Hs; [reflexivity|].
  rewrite snoc_cons in Hs. cbn [tidy] in *.
  destruct (Py.isspace x).
  - apply andb_true_iff in Hs as [Hx Hs]. rewrite Hx. apply (IH true). exact Hs.
  - apply (IH false). exact Hs.
Qed.

Lemma tidy_rstrip (b : bool) (s : string) :
  tidy b s = true -> tidy b (Py.rstrip s) = true.
Proof.
  induction s as [|s c IH] using snoc_ind; intros Hs; [exact Hs|].
  rewrite rstrip_snoc. destruct (Py.isspace c); [|exact Hs].
  apply IH. apply (tidy_snoc b s c). exact Hs.
Qed.

Lemma tidy_only_spaces (b : bool) (s : string) :
  tidy b s = true ->
  Py.all_chars (fun c => negb (Py.isspace c) || Ascii.eqb c " ") s = true.
Proof.
  revert b. induction s as [|c s IH]; intros b Hs; [reflexivity|].
  cbn [tidy Py.all_chars] in *. destruct (Py.isspace c).
  - apply andb_true_iff in Hs as [Hc Hs]. apply andb_true_iff in Hc as [Hc _].
    rewrite Hc. cbn. apply (IH true). exact Hs.
  - cbn. apply (IH false). exact Hs.
Qed.

Lemma tidy_no_double_space (b : bool) (s : string) :
  tidy b s = true -> Py.contains "  " s = false.
Proof.
  revert b. induction s as [|c s IH]; intros b Hs; [reflexivity|].
  cbn [Py.contains]. cbn [tidy] in Hs.
  assert (Hrest : Py.contains "  " s = false).
  { destruct (Py.isspace c).
    - apply andb_true_iff in Hs as [_ Hs]. apply (IH true). exact Hs.
    - apply (IH false). exact Hs. }
  rewrite Hrest, orb_false_r. cbn [String.prefix].
  destruct (ascii_dec " " c) as [<-|_]; [|reflexivity].
  change (Py.isspace " ") with true in Hs. cbn in Hs.
  apply andb_true_iff in Hs as [_ Hs].
  destruct s as [|y s]; [reflexivity|]. cbn [String.prefix].
  destruct (ascii_dec " " y) as [<-|_]; [|reflexivity].
  exfalso. cbn [tidy] in Hs. change (Py.isspace " ") with true in Hs.
  cbn in Hs. discriminate.
Qed.

(** X7: the text written to the CSV is tidy: its only white space is the
    single space (no tab, no line break), no two spaces stand side by
    side, and it neither starts nor ends with white space. *)
Theorem cleaned_text_is_tidy (g : game) :
  let t := row_text_content (clean_game g) in
  Py.all_chars (fun c => negb (Py.isspace c) || Ascii.eqb c " ") t = true /\
  Py.contains "  " t = false /\
  Py.strip t = t.
Proof.
  intros t. subst t. cbn [row_text_content clean_game].
  set (u := Re.sub_spaces (Re.sub_tags (text_content g))).
  assert (Hu : tidy false u = true) by apply tidy_sub_spaces.
  assert (Ht : tidy false (Py.strip u) = true).
  { unfold Py.strip. apply tidy_rstrip. apply (tidy_lstrip false). exact Hu. }
  split; [apply (tidy_only_spaces false); exact Ht|].
  split; [apply (tidy_no_double_space false); exact Ht|].
  apply strip_idempotent.
Qed.

Lemma sub_tags_from_sublist (s : string) :
  forall skip,
    sublist (list_ascii_of_string (Re.sub_tags_from skip s)) (list_ascii_of_string s).
Proof.
  induction s as [|c s IH]; intros skip; [constructor|].
  cbn [Re.sub_tags_from]. destruct skip as [|k].
  - destruct (Re.tag_here (String c s)).
    + cbn [list_ascii_of_string]. apply sublist_cons. apply IH.
    + cbn [list_ascii_of_string]. apply sublist_skip. apply IH.
  - cbn [list_ascii_of_string]. apply sublist_cons. apply IH.
Qed.

Lemma sub_tags_from_plain (s : string) :
  Py.all_chars (fun c => negb (Ascii.eqb c "<")) s = true ->
  Re.sub_tags_from 0 s = s.
Proof.
  induction s as [|c s IH]; intros Hs; [reflexivity|].
  cbn [Py.all_chars] in Hs. apply andb_true_iff in Hs as [Hc Hs].
  apply negb_true_iff in Hc.
  cbn [Re.sub_tags_from Re.tag_here]. rewrite Hc, (IH Hs). reflexivity.
Qed.

(** X8: the removal of tags only deletes: the characters it keeps are
    characters of the text, in their order; and a text without "<" is
    kept as it is. *)
Theorem sub_tags_only_deletes (s : string) :
  sublist (list_ascii_of_string (Re.sub_tags s)) (list_ascii_of_string s) /\
  (Py.all_chars (fun c => negb (Ascii.eqb c "<")) s = true -> Re.sub_tags s = s).
Proof.
  split; [apply sub_tags_from_sublist | apply sub_tags_from_plain].
Qed.

Lemma sub_tags_only_deletes_witness :
  Re.sub_tags "Guardians (3) @ Mets (5)" = "Guardians (3) @ Mets (5)".
Proof.
  apply (proj2 (sub_tags_only_deletes "Guardians (3) @ Mets (5)")). reflexivity.
Defined.

(* ================================================================== *)
(** ** Further properties of day_sample.py *)
(* ================================================================== *)

Lemma remove_prefix_spec (p s r : string) :
  Py.remove_prefix p s = Some r -> s = p +:+ r.
Proof.
  revert s. induction p as [|a p IH]; intros s Hs; simpl in Hs.
  - injection Hs as ->. reflexivity.
  - destruct s as [|b s]; [discriminate|].
    destruct (Ascii.eqb_spec a b) as [->|]; [|discriminate].
    rewrite (IH s Hs). reflexivity.
Qed.

Lemma match_boundary (items : list Re.item) (prev : option ascii) (s : string) :
  Re.match_items (Re.Boundary :: items) prev s
  = xorb (Re.word_opt prev) (Re.word_opt (Re.head_char s)) && Re.match_items items prev s.
Proof. reflexivity. Qed.

Lemma match_literal (l : string) (items : list Re.item) (prev : option ascii) (s : string) :
  Re.match_items (Re.Literal l :: items) prev s
  = match Py.remove_prefix l s with
    | Some s' => Re.match_items items (Re.last_char prev l) s'
    | None => false
    end.
Proof. reflexivity. Qed.

Lemma match_any_star_nil (items : list Re.item) (prev : option ascii) :
  Re.match_items (Re.AnyStar :: items) prev EmptyString
  = Re.match_items items prev EmptyString || false.
Proof. reflexivity. Qed.

Lemma match_any_star_cons (items : list Re.item) (prev : option ascii) (c : ascii)
    (s : string) :
  Re.match_items (Re.AnyStar :: items) prev (String c s)
  = Re.match_items items prev (String c s)
    || negb (Ascii.eqb c newline) && Re.match_items (Re.AnyStar :: items) (Some c) s.
Proof. reflexivity. Qed.

(** What a match of [.*] followed by [items] tells: some stretch without
    newline, then a match of [items]. *)
Lemma match_any_star (items : list Re.item) (s : string) :
  forall prev,
    Re.match_items (Re.AnyStar :: items) prev s = true ->
    exists b rest prev',
      s = b +:+ rest /\
      Py.all_chars (fun c => negb (Ascii.eqb c newline)) b = true /\
      Re.match_items items prev' rest = true.
Proof.
  induction s as [|c s IH]; intros prev Hm.
  - rewrite match_any_star_nil, orb_false_r in Hm.
    exists EmptyString, EmptyString, prev. auto.
  - rewrite match_any_star_cons in Hm. apply orb_true_iff in Hm as [Hm|Hm].
    + exists EmptyString, (String c s), prev. auto.
    + apply andb_true_iff in Hm as [Hc Hm].
      destruct (IH (Some c) Hm) as (b & rest & prev' & -> & Hb & Hrest).
      exists (String c b), rest, prev'. split; [reflexivity|]. split; [|exact Hrest].
      cbn [Py.all_chars]. rewrite Hc. exact Hb.
Qed.

Lemma search_items_spec (items : list Re.item) (s : string) :
  forall prev,
    Re.search_items items prev s = true ->
    exists a rest prev', s = a +:+ rest /\ Re.match_items items prev' rest = true.
Proof.
  induction s as [|c s IH]; intros prev Hs; cbn [Re.search_items] in Hs.
  - rewrite orb_false_r in Hs. exists EmptyString, EmptyString, prev. auto.
  - apply orb_true_iff in Hs as [Hs|Hs].
    + exists EmptyString, (String c s), prev. auto.
    + destruct (IH (Some c) Hs) as (a & rest & prev' & -> & Hrest).
      exists (String c a), rest, prev'. auto.
Qed.

(** A heading found by the token-bounded search holds the three tokens
    in their order, month and day and day and year on one line. *)
Lemma regex_match_sound (month day year s : string) :
  DaySample.regex_match month day year s = Some true ->
  exists a b c e,
    s = a +:+ month +:+ b +:+ day +:+ c +:+ year +:+ e /\
    Py.all_chars (fun x => negb (Ascii.eqb x newline)) b = true /\
    Py.all_chars (fun x => negb (Ascii.eqb x newline)) c = true.
Proof.
  unfold DaySample.regex_match, Re.date_pattern.
  destruct (Re.plain month && Re.plain day && Re.plain year); [|discriminate].
  intros [= Hs].
  apply search_items_spec in Hs as (a & r0 & p0 & -> & Hm).
  rewrite match_boundary in Hm. apply andb_true_iff in Hm as [_ Hm].
  rewrite match_literal in Hm.
  destruct (Py.remove_prefix month r0) as [r1|] eqn:H1; [|discriminate].
  apply remove_prefix_spec in H1 as ->.
  rewrite match_boundary in Hm. apply andb_true_iff in Hm as [_ Hm].
  apply match_any_star in Hm as (b & r2 & p2 & -> & Hb & Hm).
  rewrite match_boundary in Hm. apply andb_true_iff in Hm as [_ Hm].
  rewrite match_literal in Hm.
  destruct (Py.remove_prefix day r2) as [r3|] eqn:H3; [|discriminate].
  apply remove_prefix_spec in H3 as ->.
  rewrite match_boundary in Hm. apply andb_true_iff in Hm as [_ Hm].
  apply match_any_star in Hm as (c & r4 & p4 & -> & Hc & Hm).
  rewrite match_boundary in Hm. apply andb_true_iff in Hm as [_ Hm].
  rewrite match_literal in Hm.
  destruct (Py.remove_prefix year r4) as [e|] eqn:H5; [|discriminate].
  apply remove_prefix_spec in H5 as ->.
  exists a, b, c, e. auto.
Qed.



Lemma lower_char_idempotent (c : ascii) : Py.lower_char (Py.lower_char c) = Py.lower_char c.
Proof. destruct c as [[] [] [] [] [] [] [] []]; reflexivity. Qed.

Lemma lower_idempotent (s : string) : Py.lower (Py.lower s) = Py.lower s.
Proof.
  induction s as [|c s IH]; [reflexivity|].
  cbn [Py.lower]. rewrite lower_char_idempotent, IH. reflexivity.
Qed.

(** X17: the matching does not look at the case of letters, neither in
    the target date nor in the headings. *)
Theorem matching_ignores_case (target_date : string) (sections : list DaySample.section) :
  DaySample.matching_sections (Py.lower target_date) sections
  = DaySample.matching_sections target_date sections /\
  Forall (fun s =>
            DaySample.section_matches target_date
              {| DaySample.sec_date := Py.lower (DaySample.sec_date s);
                 DaySample.sec_games := DaySample.sec_games s |}
            = DaySample.section_matches target_date s)
         sections.
Proof.
  split.
  - induction sections as [|s rest IH]; [reflexivity|].
    cbn [DaySample.matching_sections]. rewrite IH.
    unfold DaySample.section_matches. rewrite lower_idempotent. reflexivity.
  - apply Forall_forall. intros s _.
    unfold DaySample.section_matches. cbn [DaySample.sec_date].
    rewrite lower_idempotent. reflexivity.
Qed.

Lemma contains_empty (s : string) : Py.contains "" s = true.
Proof. destruct s; reflexivity. Qed.

Lemma matching_sections_empty_target (sections : list DaySample.section) :
  DaySample.matching_sections "" sections = Some sections.
Proof.
  induction sections as [|s rest IH]; [reflexivity|].
  cbn [DaySample.matching_sections]. rewrite IH.
  unfold DaySample.section_matches, DaySample.substring_match.
  cbn [Py.lower Py.split Py.split_from]. rewrite contains_empty. reflexivity.
Qed.

Lemma matching_sections_sublist (target_date : string) (sections kept : list DaySample.section) :
  DaySample.matching_sections target_date sections = Some kept ->
  sublist kept sections.
Proof.
  revert kept. induction sections as [|s rest IH]; intros kept Hk.
  - injection Hk as <-. constructor.
  - cbn [DaySample.matching_sections] in Hk.
    destruct (DaySample.section_matches target_date s) as [b|]; [|discriminate].
    destruct (DaySample.matching_sections target_date rest) as [r|]; [|discriminate].
    simpl in Hk. injection Hk as <-.
    destruct b; [apply sublist_skip | apply sublist_cons]; apply IH; reflexivity.
Qed.

Section DaySampleFacts.
Context `{Library}.

Lemma print_all_files (ms : list message) (w : world) :
  fst (DaySample.print_all ms w) = Ok tt /\
  files (snd (DaySample.print_all ms w)) = files w.
Proof.
  revert w. induction ms as [|m ms IH]; intros w; [split; reflexivity|].
  cbn [DaySample.print_all]. unfold mbind, M_bind, bind, print.
  apply (IH (with_stdout (stdout w ++ [m]) w)).
Qed.

(** The value of [get_games_for_date] and the files after it. *)
Lemma get_games_for_date_outcome (path target_date : string) (w : world) :
  fst (DaySample.get_games_for_date path target_date w)
  = match files w !! path with
    | None => Raise FileNotFoundError
    | Some f =>
        Ok (List.map DaySample.day_of_section
              <$> DaySample.matching_sections target_date
                    (DaySample.game_sections (BeautifulSoup (text f))))
    end /\
  files (snd (DaySample.get_games_for_date path target_date w)) = files w.
Proof.
  unfold DaySample.get_games_for_date, mbind, M_bind, bind, read_file.
  destruct (files w !! path) as [f|]; [|split; reflexivity].
  destruct (DaySample.matching_sections target_date _) as [[|s sel]|];
    try (split; reflexivity).
  unfold print, mret, M_ret, ret.
  match goal with
  | |- context [DaySample.print_all ?ms ?w0] =>
      destruct (print_all_files ms w0) as [Hr Hf];
      destruct (DaySample.print_all ms w0) as [r w1]
  end.
  simpl in *. subst r. simpl. split; [reflexivity|exact Hf].
Qed.

Lemma game_of_paragraph_sound (p : node) (g : DaySample.game_data) :
  DaySample.game_of_paragraph p = Some g ->
  DaySample.team1 g <> None /\ DaySample.team2 g <> None /\
  (DaySample.game_type g = None \/ DaySample.game_type g = Some "Spring") /\
  (DaySample.score2 g <> None -> DaySample.score1 g <> None).
Proof.
  unfold DaySample.game_of_paragraph.
  destruct (find_team_links p) as [|l0 [|l1 ls]]; try discriminate.
  intros [= <-]. cbn.
  split; [discriminate|]. split; [discriminate|]. split.
  - destruct (find "span" p) as [sp|]; [|left; reflexivity].
    destruct (Py.contains "Spring" (get_text sp)); [right|left]; reflexivity.
  - destruct (Re.findall_scores (get_text p)) as [|s0 [|s1 ss]];
      [intros Hne; exact Hne | discriminate | discriminate].
Qed.

End DaySampleFacts.


(** X18: what [get_games_for_date] returns.  Every returned day is a
    section of the document that has a game paragraph, the days come in
    document order, every game of a day has both teams, a game type that
    is "Spring" or unset, and no second score without a first; and no file
    is changed. *)
Theorem days_for_date_are_sound `{Library} (path target_date : string) (w : world)
    (f : file) (days : list DaySample.day) :
  files w !! path = Some f ->
  fst (DaySample.get_games_for_date path target_date w) = Ok (Some days) ->
  sublist (List.map DaySample.day_date days)
          (List.map DaySample.sec_date
             (DaySample.game_sections (BeautifulSoup (text f)))) /\
  Forall (fun d =>
            Forall (fun g =>
                      DaySample.team1 g <> None /\ DaySample.team2 g <> None /\
                      (DaySample.game_type g = None \/
                       DaySample.game_type g = Some "Spring") /\
                      (DaySample.score2 g <> None -> DaySample.score1 g <> None))
                   (DaySample.day_games d))
         days /\
  files (snd (DaySample.get_games_for_date path target_date w)) = files w.
Proof.
  intros Hf. destruct (get_games_for_date_outcome path target_date w) as [-> Hfiles].
  rewrite Hf.
  destruct (DaySample.matching_sections target_date _) as [kept|] eqn:Hk; [|discriminate].
  intros [= <-]. split; [|split; [|exact Hfiles]].
  - rewrite map_map. cbn [DaySample.day_of_section DaySample.day_date].
    apply (fmap_sublist DaySample.sec_date). eapply matching_sections_sublist. exact Hk.
  - apply Forall_forall. intros d Hd. apply list_elem_of_In in Hd.
    apply in_map_iff in Hd as (s & <- & _).
    apply Forall_forall. intros g Hg. cbn [DaySample.day_of_section DaySample.day_games] in Hg.
    apply list_elem_of_omap in Hg as (p & _ & Hp).
    apply (game_of_paragraph_sound p g Hp).
Qed.


Lemma days_for_date_are_sound_witness :
  exists days,
    fst (@DaySample.get_games_for_date days_library schedule_path "August 04, 2025"
           days_world) = Ok (Some days) /\
    List.map DaySample.day_date days = ["Monday, August 4, 2025"] /\
    files (snd (@DaySample.get_games_for_date days_library schedule_path
                  "August 04, 2025" days_world)) = files days_world.
Proof.
  eexists. split; [vm_compute; reflexivity|]. split; [reflexivity|].
  eapply (@days_for_date_are_sound days_library schedule_path "August 04, 2025"
            days_world {| mtime := 1000; text := days_html |});
    [reflexivity | vm_compute; reflexivity].
Defined.

(* ================================================================== *)
(** ** Further properties of the team table *)
(* ================================================================== *)

Lemma codes_are_not_names :
  Forall (fun entry => Odds.TEAM_CODE_MAP !! entry.2 = None) Odds.TEAM_CODE_ITEMS.
Proof. apply (bool_decide_unpack _). vm_compute. reflexivity. Qed.

Lemma codes_are_capitals :
  Forall (fun entry =>
            Py.all_chars Py.isupper_az entry.2 = true /\
            2 <= String.length entry.2 <= 3)
         Odds.TEAM_CODE_ITEMS.
Proof.
  unfold Odds.TEAM_CODE_ITEMS.
  repeat (constructor; [split; [reflexivity | cbn; lia]|]). constructor.
Qed.

(** X19: the mapping of names to codes does nothing to its own results:
    mapping a name twice gives what mapping it once gives (no code is a
    name of the table), and the code of a name of the table is two or
    three capital letters. *)
Theorem team_code_is_final (full : string) :
  Odds.team_code (Odds.team_code full) = Odds.team_code full /\
  (forall code, Odds.TEAM_CODE_MAP !! full = Some code ->
                Py.all_chars Py.isupper_az code = true /\
                2 <= String.length code <= 3).
Proof.
  unfold Odds.team_code.
  destruct (Odds.TEAM_CODE_MAP !! full) as [c|] eqn:Hfull.
  - change (default full (Some c)) with c.
    assert (Hin : (full, c) ∈ Odds.TEAM_CODE_ITEMS).
    { apply elem_of_list_to_map_2. exact Hfull. }
    split.
    + pose proof codes_are_not_names as Hcodes.
      rewrite Forall_forall in Hcodes. specialize (Hcodes _ Hin).
      change ((full, c).2) with c in Hcodes. rewrite Hcodes. reflexivity.
    + intros code Hc. injection Hc as <-.
      pose proof codes_are_capitals as Hcaps.
      rewrite Forall_forall in Hcaps. exact (Hcaps _ Hin).
  - change (default full None) with full.
    split; [rewrite Hfull; reflexivity|]. intros code Hc. discriminate Hc.
Qed.

Lemma team_code_is_final_witness :
  Py.all_chars Py.isupper_az "NYM" = true /\ 2 <= String.length "NYM" <= 3.
Proof.
  apply (proj2 (team_code_is_final "Mets") "NYM"). vm_compute. reflexivity.
Defined.

(* ================================================================== *)
(** ** Properties of the odds extraction of odds_scrape.py *)
(* ================================================================== *)

Lemma digit_char_value (k : nat) :
  k < 10 ->
  OddsScript.digit_value (OddsScript.digit_char k) = k /\
  Py.isdigit (OddsScript.digit_char k) = true.
Proof.
  intros Hk. do 10 (destruct k as [|k]; [split; reflexivity|]). lia.
Qed.

Lemma digit_between_char (lo hi k : nat) :
  k < 10 ->
  OddsScript.digit_between lo hi (OddsScript.digit_char k)
  = ((lo <=? k) && (k <=? hi))%nat.
Proof.
  intros Hk. unfold OddsScript.digit_between.
  destruct (digit_char_value k Hk) as [-> ->]. reflexivity.
Qed.

Lemma two_digits_app (n : nat) (r : string) :
  OddsScript.two_digits n +:+ r
  = String (OddsScript.digit_char (n / 10)) (String (OddsScript.digit_char (n mod 10)) r).
Proof. reflexivity. Qed.

Lemma parse_year_four_digits (y : nat) (r : string) :
  y < 10 * 1000 ->
  OddsScript.parse_year (OddsScript.four_digits y +:+ r) = Some (y, r).
Proof.
  intros Hy. unfold OddsScript.four_digits.
  change (OddsScript.parse_year
            (String (OddsScript.digit_char (y / 100 / 10))
               (String (OddsScript.digit_char ((y / 100) mod 10))
                  (String (OddsScript.digit_char (y mod 100 / 10))
                     (String (OddsScript.digit_char ((y mod 100) mod 10)) r))))
          = Some (y, r)).
  pose proof (Nat.div_mod_eq y 100) as H1.
  pose proof (Nat.div_mod_eq (y / 100) 10) as H2.
  pose proof (Nat.div_mod_eq (y mod 100) 10) as H3.
  pose proof (Nat.mod_upper_bound y 100 ltac:(lia)) as B1.
  pose proof (Nat.mod_upper_bound (y / 100) 10 ltac:(lia)) as B2.
  pose proof (Nat.mod_upper_bound (y mod 100) 10 ltac:(lia)) as B3.
  assert (B4 : y / 100 / 10 < 10).
  { apply Nat.Div0.div_lt_upper_bound. apply Nat.Div0.div_lt_upper_bound. lia. }
  assert (B5 : y mod 100 / 10 < 10).
  { apply Nat.Div0.div_lt_upper_bound. lia. }
  unfold OddsScript.parse_year.
  destruct (digit_char_value _ B4) as [-> ->].
  destruct (digit_char_value _ B2) as [-> ->].
  destruct (digit_char_value _ B5) as [-> ->].
  destruct (digit_char_value _ B3) as [-> ->].
  cbn [andb]. f_equal. f_equal. lia.
Qed.

Lemma parse_month_two_digits (m : nat) (r : string) :
  1 <= m <= 12 ->
  OddsScript.parse_month (OddsScript.two_digits m +:+ r) = Some (m, r).
Proof.
  intros Hm. rewrite two_digits_app.
  do 13 (destruct m as [|m]; [try lia; reflexivity|]). lia.
Qed.

Lemma parse_day_two_digits (d : nat) (r : string) :
  1 <= d <= 31 ->
  OddsScript.parse_day (OddsScript.two_digits d +:+ r) = Some (d, r).
Proof.
  intros Hd. rewrite two_digits_app.
  do 32 (destruct d as [|d]; [try lia; reflexivity|]). lia.
Qed.

Lemma days_in_month_le (y m : nat) : OddsScript.days_in_month y m <= 31.
Proof.
  unfold OddsScript.days_in_month.
  do 12 (destruct m as [|m]; [try destruct (OddsScript.is_leap y); lia|]). lia.
Qed.

(** X20: the date of a row.  A [startDate] that begins with the ISO text
    YYYY-MM-DD of a day of the calendar (year 1000 to 9999), whatever
    follows it, gives the date DD-MM-YYYY: the same digits, day first. *)
Theorem iso_date_is_reordered `{OddsScript.Library} (y m d : nat) (rest : string) :
  1000 <= y < 10 * 1000 ->
  1 <= m <= 12 ->
  1 <= d <= OddsScript.days_in_month y m ->
  OddsScript.convert_date (OddsScript.JStr (iso_date y m d +:+ rest))
  = Done (OddsScript.two_digits d +:+ "-" +:+ OddsScript.two_digits m +:+ "-"
          +:+ OddsScript.four_digits y).
Proof.
  intros Hy Hm Hd. pose proof (days_in_month_le y m) as Hle.
  unfold OddsScript.convert_date.
  assert (Htake : OddsScript.take_chars 10 (iso_date y m d +:+ rest) = iso_date y m d).
  { reflexivity. }
  rewrite Htake. unfold iso_date, OddsScript.strptime.
  rewrite parse_year_four_digits by lia. cbn [mbind option_bind].
  change (OddsScript.dash ("-" +:+ ?s)) with (Some s).
  cbn [mbind option_bind].
  rewrite parse_month_two_digits by lia. cbn [mbind option_bind].
  change (OddsScript.dash ("-" +:+ ?s)) with (Some s).
  cbn [mbind option_bind].
  change (OddsScript.two_digits d) with (OddsScript.two_digits d +:+ EmptyString).
  rewrite parse_day_two_digits by lia. cbn [mbind option_bind].
  assert (Hvalid : ((1 <=? y) && (1 <=? d) && (d <=? OddsScript.days_in_month y m))%nat = true).
  { rewrite !andb_true_iff, !Nat.leb_le. lia. }
  rewrite Hvalid. unfold OddsScript.strftime, OddsScript.year_text.
  assert (Hbig : (1000 <=? y)%nat = true) by (apply Nat.leb_le; lia).
  rewrite Hbig. reflexivity.
Qed.

Lemma iso_date_is_reordered_witness :
  @OddsScript.convert_date games_library
    (OddsScript.JStr (iso_date 2025 3 18 +:+ "T17:05:00+00:00"))
  = Done "18-03-2025".
Proof.
  apply (@iso_date_is_reordered games_library 2025 3 18 "T17:05:00+00:00").
  - lia.
  - lia.
  - cbn [OddsScript.days_in_month]. lia.
Defined.

Lemma outcome_bind_done {A B} (m : outcome A) (k : A -> outcome B) (b : B) :
  m ≫= k = Done b -> exists a, m = Done a /\ k a = Done b.
Proof. destruct m as [a|e]; [|discriminate]. intros Hk. exists a. auto. Qed.

Section OddsFacts.
Context `{OddsScript.Library}.

Lemma rows_are_all_or_nothing_aux (games : list OddsScript.json)
    (rows : list OddsScript.row) :
  OddsScript.rows_of_games games = Done rows ->
  Forall2 (fun game r => OddsScript.row_of_game game = Done r) games rows.
Proof.
  revert rows. induction games as [|game rest IH]; intros rows Hrows;
    cbn [OddsScript.rows_of_games] in Hrows.
  - injection Hrows as <-. constructor.
  - apply outcome_bind_done in Hrows as (r & Hr & Hrows).
    apply outcome_bind_done in Hrows as (rs & Hrs & Hrows).
    injection Hrows as <-. constructor; [exact Hr|]. apply IH. exact Hrs.
Qed.

(** The rows are all or nothing.  The loop returns rows exactly
    when every game gives its row, and then there is one row per game, in
    order; a single game that raises leaves no row at all. *)
Lemma rows_are_all_or_nothing (games : list OddsScript.json)
    (rows : list OddsScript.row) :
  (OddsScript.rows_of_games games = Done rows <->
   Forall2 (fun game r => OddsScript.row_of_game game = Done r) games rows) /\
  (OddsScript.rows_of_games games = Done rows -> length rows = length games).
Proof.
  assert (Hback : forall gs rs,
            Forall2 (fun game r => OddsScript.row_of_game game = Done r) gs rs ->
            OddsScript.rows_of_games gs = Done rs).
  { intros gs rs Hall. induction Hall as [|game r gs' rs' Hr _ IH]; [reflexivity|].
    cbn [OddsScript.rows_of_games]. rewrite Hr, IH. reflexivity. }
  split; [split; [apply rows_are_all_or_nothing_aux | apply Hback]|].
  intros Hrows. apply rows_are_all_or_nothing_aux in Hrows.
  symmetry. eapply Forall2_length. exact Hrows.
Qed.

Lemma code_of_not_a_name (v c : OddsScript.json) :
  OddsScript.code_of v = Done c -> not_a_team_name c.
Proof.
  unfold OddsScript.code_of, not_a_team_name.
  destruct v as [| b | nz shown | s | items | items]; intros Hc; try discriminate;
    injection Hc as <-; intros s' Hs; try discriminate.
  injection Hs as <-. unfold Odds.team_code.
  destruct (Odds.TEAM_CODE_MAP !! s) as [code|] eqn:Hlook.
  - change (default s (Some code)) with code.
    assert (Hin : (s, code) ∈ Odds.TEAM_CODE_ITEMS).
    { apply elem_of_list_to_map_2. exact Hlook. }
    pose proof codes_are_not_names as Hcodes.
    rewrite Forall_forall in Hcodes. exact (Hcodes _ Hin).
  - exact Hlook.
Qed.

Lemma row_of_game_teams (game : OddsScript.json) (r : OddsScript.row) :
  OddsScript.row_of_game game = Done r ->
  not_a_team_name (OddsScript.team1 r) /\ not_a_team_name (OddsScript.team2 r).
Proof.
  unfold OddsScript.row_of_game. intros Hr.
  apply outcome_bind_done in Hr as (gv & _ & Hr).
  apply outcome_bind_done in Hr as (start & _ & Hr).
  apply outcome_bind_done in Hr as (date & _ & Hr).
  apply outcome_bind_done in Hr as (away & _ & Hr).
  apply outcome_bind_done in Hr as (t1 & _ & Hr).
  apply outcome_bind_done in Hr as (home & _ & Hr).
  apply outcome_bind_done in Hr as (t2 & _ & Hr).
  apply outcome_bind_done in Hr as (c1 & Hc1 & Hr).
  apply outcome_bind_done in Hr as (c2 & Hc2 & Hr).
  apply outcome_bind_done in Hr as (p1 & _ & Hr).
  apply outcome_bind_done in Hr as (p2 & _ & Hr).
  apply outcome_bind_done in Hr as (views & _ & Hr).
  apply outcome_bind_done in Hr as (vs & _ & Hr).
  apply outcome_bind_done in Hr as (found & _ & Hr).
  apply outcome_bind_done in Hr as ([a h] & _ & Hr).
  injection Hr as <-. cbn [OddsScript.team1 OddsScript.team2].
  split; eapply code_of_not_a_name; eassumption.
Qed.

(** X21: a row never shows a name of the team table: whatever the page
    holds, the teams of every returned row are codes or names that the
    table does not know. *)
Theorem rows_show_codes (data : OddsScript.json) (rows : list OddsScript.row) :
  OddsScript.rows_of_data data = Done rows ->
  Forall (fun r => not_a_team_name (OddsScript.team1 r) /\
                   not_a_team_name (OddsScript.team2 r))
         rows.
Proof.
  unfold OddsScript.rows_of_data. intros Hr.
  apply outcome_bind_done in Hr as (props & _ & Hr).
  apply outcome_bind_done in Hr as (page & _ & Hr).
  apply outcome_bind_done in Hr as (tables & _ & Hr).
  apply outcome_bind_done in Hr as (table & _ & Hr).
  apply outcome_bind_done in Hr as (model & _ & Hr).
  apply outcome_bind_done in Hr as (games & _ & Hr).
  apply outcome_bind_done in Hr as (gs & _ & Hr).
  apply rows_are_all_or_nothing_aux in Hr.
  induction Hr as [|game r gs' rs Hrow _ IH]; constructor; [|exact IH].
  apply (row_of_game_teams game r Hrow).
Qed.

End OddsFacts.

Lemma rows_show_codes_witness :
  let r := {| OddsScript.date := "18-03-2025";
              OddsScript.team1 := OddsScript.JStr "CLE";
              OddsScript.team2 := OddsScript.JStr "NYM";
              OddsScript.pitcher1 := "Tanner Bibee";
              OddsScript.pitcher2 := "Kodai Senga";
              OddsScript.away_odds := OddsScript.JNumber true "115";
              OddsScript.home_odds := OddsScript.JNumber true "-135" |} in
  @OddsScript.rows_of_data games_library (data_of_games [one_game]) = Done [r] /\
  not_a_team_name (OddsScript.team1 r) /\ not_a_team_name (OddsScript.team2 r).
Proof.
  intros r.
  assert (Hrows : @OddsScript.rows_of_data games_library (data_of_games [one_game])
                  = Done [r]) by (vm_compute; reflexivity).
  split; [exact Hrows|].
  exact (Forall_inv (@rows_show_codes games_library (data_of_games [one_game]) [r] Hrows)).
Defined.

Lemma bet365_view_truthy (o : OddsScript.json) :
  bet365_view o = true -> OddsScript.truthy o = true.
Proof.
  destruct o as [| b | nz shown | s | items | items]; try discriminate.
  destruct items as [|kv items]; [discriminate | reflexivity].
Qed.

(** X22: the odds come from the first bet365 view.  The search of line
    100 returns a view exactly when the views start with views it passes
    over (false values, dictionaries of other sportsbooks) followed by a
    dictionary of bet365; whatever comes after that view is never looked
    at. *)
Theorem bet365_is_the_first_such_view (views : list OddsScript.json)
    (o : OddsScript.json) :
  OddsScript.find_bet365 views = Done (Some o) <->
  exists before after,
    views = before ++ o :: after /\
    bet365_view o = true /\
    forallb passed_over before = true.
Proof.
  split.
  - induction views as [|v rest IH]; cbn [OddsScript.find_bet365]; [discriminate|].
    destruct (OddsScript.truthy v) eqn:Htrue.
    + destruct v as [| b | nz shown | s | items | items]; try discriminate.
      destruct (OddsScript.is_bet365 (OddsScript.lookup "sportsbook" items)) eqn:Hbook.
      * intros [= <-]. exists [], rest. split; [reflexivity|]. split; [exact Hbook | reflexivity].
      * intros Hrest. destruct (IH Hrest) as (before & after & -> & Hview & Hbefore).
        exists (OddsScript.JDict items :: before), after.
        split; [reflexivity|]. split; [exact Hview|].
        cbn [forallb]. rewrite Hbefore. unfold passed_over, bet365_view.
        rewrite Hbook, Htrue. reflexivity.
    + intros Hrest. destruct (IH Hrest) as (before & after & -> & Hview & Hbefore).
      exists (v :: before), after.
      split; [reflexivity|]. split; [exact Hview|].
      cbn [forallb]. rewrite Hbefore. unfold passed_over. rewrite Htrue. reflexivity.
  - intros (before & after & -> & Hview & Hbefore).
    induction before as [|v before IH].
    + change ([] ++ o :: after) with (o :: after). cbn [OddsScript.find_bet365].
      rewrite (bet365_view_truthy o Hview).
      destruct o as [| b | nz shown | s | items | items]; try discriminate.
      unfold bet365_view in Hview. rewrite Hview. reflexivity.
    + cbn [forallb] in Hbefore. apply andb_true_iff in Hbefore as [Hv Hbefore].
      change ((v :: before) ++ o :: after) with (v :: (before ++ o :: after)).
      cbn [OddsScript.find_bet365].
      destruct (OddsScript.truthy v) eqn:Htrue; [|exact (IH Hbefore)].
      unfold passed_over in Hv. rewrite Htrue in Hv.
      destruct v as [| b | nz shown | s | items | items]; try discriminate.
      unfold bet365_view in Hv.
      destruct (OddsScript.is_bet365 (OddsScript.lookup "sportsbook" items));
        [discriminate | exact (IH Hbefore)].
Qed.

Lemma printed_read_file (path : string) (w : world) :
  printed (read_file path) w = [].
Proof.
  unfold printed, read_file. destruct (files w !! path); cbn [snd]; apply drop_all.
Qed.

Lemma call_read_file (path : string) (t : terminal) :
  call (read_file path) t
  = (match files (disk t) !! path with
     | Some f => Done (text f)
     | None => Failed (OSError FileNotFoundError)
     end, t).
Proof.
  unfold call. rewrite printed_read_file. destruct t as [w out]. cbn [disk screen].
  rewrite app_nil_r. unfold read_file. destruct (files w !! path); reflexivity.
Qed.

Lemma printed_write_file (path content : string) (w : world) :
  printed (write_file path content) w = [].
Proof.
  unfold printed, write_file. destruct (bool_decide (path ∈ locked w)); cbn [snd];
    apply drop_all.
Qed.

Lemma call_write_file (path content : string) (t : terminal) :
  call (write_file path content) t
  = if bool_decide (path ∈ locked (disk t)) then (Failed (OSError PermissionError), t)
    else (Done tt,
          {| disk := with_clock (clock (disk t) + 1)
                       (with_files (<[path := {| mtime := clock (disk t); text := content |}]>
                                      (files (disk t))) (disk t));
             screen := screen t |}).
Proof.
  unfold call. rewrite printed_write_file. destruct t as [w out]. cbn [disk screen].
  rewrite app_nil_r. unfold write_file. destruct (bool_decide (path ∈ locked w)); reflexivity.
Qed.

Section OddsRuns.
Context `{OddsScript.Library}.

Lemma extract_keeps_terminal (path : string) (t : terminal) :
  snd (OddsScript.extract_odds_from_html path t) = t.
Proof.
  unfold OddsScript.extract_odds_from_html, mbind, T_bind, t_bind.
  rewrite call_read_file. destruct (files (disk t) !! path) as [f|]; [|reflexivity].
  destruct (OddsScript.embedded_json (text f)) as [payload|]; [|reflexivity].
  destruct (OddsScript.loads payload) as [data|]; reflexivity.
Qed.

Lemma main_unfold (t : terminal) :
  OddsScript.main t
  = match fst (OddsScript.extract_odds_from_html "odds/march18odds" t) with
    | Done rows =>
        match OddsScript.save_to_csv rows "odds/march18odds.csv" t with
        | (Done _, t1) => say (OddsSaved (length rows)) t1
        | (Failed e, t1) => (Failed e, t1)
        end
    | Failed e => (Failed e, t)
    end.
Proof.
  unfold OddsScript.main, mbind, T_bind, t_bind.
  pose proof (extract_keeps_terminal "odds/march18odds" t) as Hkeep.
  destruct (OddsScript.extract_odds_from_html "odds/march18odds" t) as [[rows|e] t0];
    cbn [fst snd] in *; subst t0; reflexivity.
Qed.

(** A run of the odds script that raises leaves no trace: whatever
    the exception (the page is missing, holds no embedded JSON, is of
    another shape, has a date that is none, or the CSV cannot be written),
    no file has changed and nothing has been printed. *)
Lemma odds_failure_leaves_no_trace (t t' : terminal) (e : error) :
  OddsScript.main t = (Failed e, t') -> t' = t.
Proof.
  rewrite main_unfold.
  destruct (fst (OddsScript.extract_odds_from_html "odds/march18odds" t)) as [rows|e0].
  - destruct rows as [|r rows]; cbn [OddsScript.save_to_csv].
    + unfold say. discriminate.
    + rewrite call_write_file.
      destruct (bool_decide ("odds/march18odds.csv" ∈ locked (disk t))).
      * intros [= _ <-]. reflexivity.
      * unfold say. discriminate.
  - intros [= _ <-]. reflexivity.
Qed.

(** X23: what a run of the odds script that ends reports.  The rows are
    those of the extraction; the count of the last line is their number,
    also when it is zero: then "No data to save." comes first and no file
    is written; otherwise the CSV holds exactly these rows and is the only
    file that has changed. *)
Theorem odds_report_counts_rows (t t' : terminal) :
  OddsScript.main t = (Done tt, t') ->
  exists rows,
    OddsScript.extract_odds_from_html "odds/march18odds" t = (Done rows, t) /\
    screen t' = screen t ++ (match rows with [] => [OddsNoData] | _ :: _ => [] end)
                         ++ [OddsSaved (length rows)] /\
    files (disk t') =
      match rows with
      | [] => files (disk t)
      | _ :: _ =>
          <["odds/march18odds.csv" :=
              {| mtime := clock (disk t); text := OddsScript.dump_rows rows |}]>
            (files (disk t))
      end.
Proof.
  rewrite main_unfold.
  pose proof (extract_keeps_terminal "odds/march18odds" t) as Hkeep.
  destruct (OddsScript.extract_odds_from_html "odds/march18odds" t) as [[rows|e0] t0];
    cbn [fst snd] in *; subst t0; [|discriminate].
  intros Hrun. exists rows. split; [reflexivity|].
  destruct rows as [|r rows]; cbn [OddsScript.save_to_csv] in Hrun.
  - unfold say in Hrun. cbn [disk screen] in Hrun. injection Hrun as <-.
    cbn [disk screen]. rewrite <- app_assoc. split; reflexivity.
  - rewrite call_write_file in Hrun.
    destruct (bool_decide ("odds/march18odds.csv" ∈ locked (disk t))); [discriminate|].
    unfold say in Hrun. cbn [disk screen] in Hrun. injection Hrun as <-.
    cbn [disk screen]. split; reflexivity.
Qed.

End OddsRuns.

Lemma odds_failure_leaves_no_trace_witness :
  let t := boot (odds_world "<html><body>Odds</body></html>") in
  fst (@OddsScript.main games_library t) = Failed (ValueError NoEmbeddedJson) /\
  snd (@OddsScript.main games_library t) = t.
Proof.
  intros t. split; [vm_compute; reflexivity|].
  apply (@odds_failure_leaves_no_trace games_library t
           (snd (@OddsScript.main games_library t)) (ValueError NoEmbeddedJson)).
  vm_compute. reflexivity.
Defined.

Lemma odds_report_counts_rows_witness :
  let t := boot (odds_world (odds_page no_games_payload)) in
  fst (@OddsScript.main games_library t) = Done tt /\
  screen (snd (@OddsScript.main games_library t)) = [OddsNoData; OddsSaved 0] /\
  files (disk (snd (@OddsScript.main games_library t))) = files (disk t).
Proof.
  intros t.
  destruct (@odds_report_counts_rows games_library t (snd (@OddsScript.main games_library t)))
    as (rows & Hrows & Hscreen & Hfiles).
  - vm_compute. reflexivity.
  - assert (rows = []) as ->.
    { assert (Hrun : @OddsScript.extract_odds_from_html games_library "odds/march18odds" t
                     = (Done [], t)) by (vm_compute; reflexivity).
      rewrite Hrun in Hrows. injection Hrows as <-. reflexivity. }
    split; [vm_compute; reflexivity|]. split; [exact Hscreen | exact Hfiles].
Defined.

Lemma remove_prefix_prefix (p s : string) :
  String.prefix p s = false -> Py.remove_prefix p s = None.
Proof.
  revert s. induction p as [|a p IH]; intros [|b s]; cbn [String.prefix Py.remove_prefix];
    try discriminate; try reflexivity.
  destruct (Ascii.ascii_dec a b) as [->|Hne].
  - rewrite Ascii.eqb_refl. apply IH.
  - intros _. apply Ascii.eqb_neq in Hne. rewrite Hne. reflexivity.
Qed.

Lemma remove_prefix_app (p s : string) : Py.remove_prefix p (p +:+ s) = Some s.
Proof.
  induction p as [|a p IH]; [destruct s; reflexivity|].
  change (String a p +:+ s) with (String a (p +:+ s)).
  cbn [Py.remove_prefix]. rewrite Ascii.eqb_refl. exact IH.
Qed.

(** A prefix of [u +:+ v] lies in [u] or reaches [v], whose first
    character is then one of its own. *)
Lemma prefix_reaches (p u v : string) :
  String.prefix p (u +:+ v) = true ->
  String.prefix p u = true \/
  exists d v', v = String d v' /\ occurs d p = true.
Proof.
  revert p. induction u as [|b u IH]; intros p Hp.
  - change (EmptyString +:+ v) with v in Hp. destruct p as [|d p]; [left; reflexivity|].
    right. destruct v as [|e v]; [discriminate|]. cbn [String.prefix] in Hp.
    destruct (Ascii.ascii_dec d e) as [->|]; [|discriminate].
    exists e, v. split; [reflexivity|]. cbn [occurs]. rewrite Ascii.eqb_refl. reflexivity.
  - change (String b u +:+ v) with (String b (u +:+ v)) in Hp.
    destruct p as [|a p]; [left; reflexivity|]. cbn [String.prefix] in Hp |- *.
    destruct (Ascii.ascii_dec a b) as [->|]; [|discriminate].
    destruct (IH p Hp) as [Hin | (d & v' & -> & Hd)]; [left; exact Hin|].
    right. exists d, v'. split; [reflexivity|]. cbn [occurs]. rewrite Hd. apply orb_true_r.
Qed.

(** A tag that holds its first character only once is not found across
    the end of a text without it. *)
Lemma no_early_tag (c : ascii) (tag' u rest : string) :
  occurs c tag' = false ->
  u <> EmptyString ->
  String.prefix (String c tag') u = false ->
  String.prefix (String c tag') (u +:+ String c tag' +:+ rest) = false.
Proof.
  intros Honce Hu Hnot. destruct u as [|b u]; [congruence|].
  destruct (String.prefix (String c tag') (String b u +:+ String c tag' +:+ rest)) eqn:Hp;
    [|reflexivity].
  change (String b u +:+ String c tag' +:+ rest)
    with (String b (u +:+ String c (tag' +:+ rest))) in Hp.
  cbn [String.prefix] in Hp, Hnot.
  destruct (Ascii.ascii_dec c b) as [->|]; [|discriminate].
  destruct (prefix_reaches tag' u _ Hp) as [Hin | (d & v' & Hv & Hd)]; [congruence|].
  injection Hv as <- _. congruence.
Qed.

Lemma until_finds (c : ascii) (tag' text rest : string) :
  occurs c tag' = false ->
  Py.contains (String c tag') text = false ->
  OddsScript.until (String c tag') (text +:+ String c tag' +:+ rest) = Some text.
Proof.
  intros Honce. induction text as [|b text IH]; intros Hfree.
  - change (EmptyString +:+ String c tag' +:+ rest) with (String c tag' +:+ rest).
    change (String c tag' +:+ rest) with (String c (tag' +:+ rest)).
    cbn [OddsScript.until].
    change (String c (tag' +:+ rest)) with (String c tag' +:+ rest).
    rewrite prefix_app. reflexivity.
  - cbn [Py.contains] in Hfree. apply orb_false_iff in Hfree as [Hhere Hlater].
    pose proof (no_early_tag c tag' (String b text) rest Honce ltac:(discriminate) Hhere)
      as Hnot.
    change (String b text +:+ String c tag' +:+ rest)
      with (String b (text +:+ String c tag' +:+ rest)) in Hnot |- *.
    cbn [OddsScript.until]. rewrite Hnot, (IH Hlater). reflexivity.
Qed.

Lemma embedded_json_eq (html : string) :
  OddsScript.embedded_json html
  = match Py.remove_prefix OddsScript.script_open html
          ≫= OddsScript.until OddsScript.script_close with
    | Some payload => Some payload
    | None =>
        match html with
        | EmptyString => None
        | String _ html' => OddsScript.embedded_json html'
        end
    end.
Proof. destruct html; reflexivity. Qed.

Lemma script_open_tag :
  exists tag', OddsScript.script_open = String "<" tag' /\ occurs "<" tag' = false.
Proof. eexists. split; vm_compute; reflexivity. Qed.

Lemma script_close_tag :
  exists tag', OddsScript.script_close = String "<" tag' /\ occurs "<" tag' = false.
Proof. eexists. split; vm_compute; reflexivity. Qed.

(** X24: the payload is what stands between the tags.  For a page whose
    first [__NEXT_DATA__] opening tag is followed by a text without
    [</script>] and then by [</script>], the search of line 80 gives that
    text, whatever stands before the opening tag and after the closing
    one. *)
Theorem payload_is_between_the_tags (before payload after : string) :
  Py.contains OddsScript.script_open before = false ->
  Py.contains OddsScript.script_close payload = false ->
  OddsScript.embedded_json
    (before +:+ OddsScript.script_open +:+ payload +:+ OddsScript.script_close +:+ after)
  = Some payload.
Proof.
  destruct script_open_tag as (open' & Ho & Hopen).
  destruct script_close_tag as (close' & Hc & Hclose).
  intros Hbefore Hpayload. induction before as [|b before IH].
  - change (EmptyString +:+ OddsScript.script_open +:+ payload
            +:+ OddsScript.script_close +:+ after)
      with (OddsScript.script_open +:+ payload +:+ OddsScript.script_close +:+ after).
    rewrite embedded_json_eq, remove_prefix_app. cbn [mbind option_bind].
    rewrite Hc in Hpayload |- *.
    rewrite (until_finds "<" close' payload after Hclose Hpayload). reflexivity.
  - cbn [Py.contains] in Hbefore. apply orb_false_iff in Hbefore as [Hhere Hlater].
    rewrite embedded_json_eq.
    assert (Hnot : String.prefix OddsScript.script_open
                     (String b before +:+ OddsScript.script_open +:+ payload
                      +:+ OddsScript.script_close +:+ after) = false).
    { rewrite Ho in Hhere |- *.
      exact (no_early_tag "<" open' (String b before) _ Hopen ltac:(discriminate) Hhere). }
    rewrite (remove_prefix_prefix _ _ Hnot). cbn [mbind option_bind].
    change (String b before +:+ OddsScript.script_open +:+ payload
            +:+ OddsScript.script_close +:+ after)
      with (String b (before +:+ OddsScript.script_open +:+ payload
                      +:+ OddsScript.script_close +:+ after)).
    exact (IH Hlater).
Qed.

Lemma payload_is_between_the_tags_witness :
  OddsScript.embedded_json
    ("<html><script>var a;</script>" +:+ OddsScript.script_open +:+ one_game_payload
     +:+ OddsScript.script_close +:+ "<script></script></html>")
  = Some one_game_payload.
Proof.
  apply (payload_is_between_the_tags "<html><script>var a;</script>" one_game_payload
           "<script></script></html>"); vm_compute; reflexivity.
Defined.

(* ================================================================== *)
(** ** Properties of the win probability of espn_scrape.py *)
(* ================================================================== *)

Lemma append_assoc (a b c : string) : (a +:+ b) +:+ c = a +:+ b +:+ c.
Proof.
  induction a as [|x a IH]; [reflexivity|].
  change ((String x a +:+ b) +:+ c) with (String x ((a +:+ b) +:+ c)).
  rewrite IH. reflexivity.
Qed.

Lemma append_empty_r (a : string) : a +:+ EmptyString = a.
Proof.
  induction a as [|x a IH]; [reflexivity|].
  change (String x a +:+ EmptyString) with (String x (a +:+ EmptyString)).
  rewrite IH. reflexivity.
Qed.

Lemma within_refl (s : string) : within s s.
Proof. exists EmptyString, EmptyString. rewrite append_empty_r. reflexivity. Qed.

Lemma within_trans (x y z : string) : within x y -> within y z -> within x z.
Proof.
  intros (a & b & ->) (c & d & ->). exists (c +:+ a), (b +:+ d).
  rewrite !append_assoc. reflexivity.
Qed.

Lemma within_suffix (x pre s : string) : within x s -> within x (pre +:+ s).
Proof.
  intros (a & b & ->). exists (pre +:+ a), b. rewrite !append_assoc. reflexivity.
Qed.

Lemma within_prefix (x s post : string) : within x s -> within x (s +:+ post).
Proof.
  intros (a & b & ->). exists a, (b +:+ post). rewrite !append_assoc. reflexivity.
Qed.

Lemma within_contains (x s : string) : within x s -> Py.contains x s = true.
Proof.
  intros (a & b & ->). induction a as [|c a IH].
  - change (EmptyString +:+ x +:+ b) with (x +:+ b).
    destruct (x +:+ b) eqn:Hxb; cbn [Py.contains]; rewrite <- Hxb, prefix_app;
      reflexivity.
  - change (String c a +:+ x +:+ b) with (String c (a +:+ x +:+ b)).
    cbn [Py.contains]. rewrite IH. apply orb_true_r.
Qed.

Lemma lstrip_suffix (s : string) : exists sp, s = sp +:+ Py.lstrip s.
Proof.
  induction s as [|c s (sp & IH)]; [exists EmptyString; reflexivity|].
  cbn [Py.lstrip]. destruct (Py.isspace c).
  - exists (String c sp). change (String c sp +:+ Py.lstrip s) with (String c (sp +:+ Py.lstrip s)).
    rewrite <- IH. reflexivity.
  - exists EmptyString. reflexivity.
Qed.

Lemma span_parts (p : ascii -> bool) (s : string) :
  s = fst (Py.span p s) +:+ snd (Py.span p s) /\
  Py.all_chars p (fst (Py.span p s)) = true.
Proof.
  induction s as [|c s [IHs IHp]]; [split; reflexivity|].
  cbn [Py.span]. destruct (p c) eqn:Hc; [|split; reflexivity].
  destruct (Py.span p s) as [a r]. cbn [fst snd] in *. split.
  - change (String c a +:+ r) with (String c (a +:+ r)). rewrite <- IHs. reflexivity.
  - cbn [Py.all_chars]. rewrite Hc, IHp. reflexivity.
Qed.

Lemma search_sound {A} (at_position : string -> option A) (s : string) (a : A) :
  Espn.search at_position s = Some a ->
  exists pre s', s = pre +:+ s' /\ at_position s' = Some a.
Proof.
  induction s as [|c s IH]; cbn [Espn.search].
  - destruct (at_position EmptyString) eqn:Hat; [|discriminate].
    intros [= <-]. exists EmptyString, EmptyString. split; [reflexivity | exact Hat].
  - destruct (at_position (String c s)) eqn:Hat.
    + intros [= <-]. exists EmptyString, (String c s). split; [reflexivity | exact Hat].
    + intros Hs. destruct (IH Hs) as (pre & s' & -> & Hs').
      exists (String c pre), s'. split; [reflexivity | exact Hs'].
Qed.

Lemma then_literal_some (lit s r : string) :
  Espn.then_literal lit s = Some r -> exists pre, s = pre +:+ r.
Proof.
  unfold Espn.then_literal. intros Hr. apply remove_prefix_spec in Hr.
  destruct (lstrip_suffix s) as (sp & Hs). exists (sp +:+ lit).
  rewrite append_assoc, <- Hr. exact Hs.
Qed.

Lemma number_after_spaces_some (s num : string) :
  Espn.number_after_spaces s = Some num ->
  within num s /\ Py.all_chars Espn.numeric num = true.
Proof.
  unfold Espn.number_after_spaces.
  destruct (span_parts Espn.numeric (Py.lstrip s)) as [Hparts Hall].
  destruct (nonempty (fst (Py.span Espn.numeric (Py.lstrip s)))); [|discriminate].
  intros [= <-]. split; [|exact Hall].
  destruct (lstrip_suffix s) as (sp & Hs).
  exists sp, (snd (Py.span Espn.numeric (Py.lstrip s))). rewrite <- Hparts. exact Hs.
Qed.

Lemma number_at_some (s num : string) :
  Espn.number_at s = Some num ->
  within num s /\ Py.all_chars Espn.numeric num = true.
Proof.
  unfold Espn.number_at. destruct (Py.remove_prefix ":" s) as [r|] eqn:Hr; [|discriminate].
  cbn [mbind option_bind]. intros Hnum.
  apply number_after_spaces_some in Hnum as [Hin Hall]. split; [|exact Hall].
  apply remove_prefix_spec in Hr as ->. apply within_suffix. exact Hin.
Qed.

Lemma value_at_some (s num : string) :
  Espn.value_at s = Some num ->
  within num s /\ Py.all_chars Espn.numeric num = true.
Proof.
  unfold Espn.value_at.
  destruct (Py.remove_prefix (Espn.key "value") s) as [r|] eqn:Hr; [|discriminate].
  cbn [mbind option_bind]. intros Hnum.
  apply number_after_spaces_some in Hnum as [Hin Hall]. split; [|exact Hall].
  apply remove_prefix_spec in Hr as ->. apply within_suffix. exact Hin.
Qed.

Lemma last_value_some (s num : string) :
  Espn.last_value s = Some num ->
  within num s /\ Py.all_chars Espn.numeric num = true.
Proof.
  induction s as [|c s IH]; cbn [Espn.last_value]; [discriminate|].
  destruct (Espn.not_closing c); [|discriminate].
  destruct (Espn.last_value s) as [v|].
  - intros [= ->]. destruct (IH eq_refl) as [Hin Hall]. split; [|exact Hall].
    apply (within_suffix num (String c EmptyString) s Hin).
  - apply value_at_some.
Qed.

Lemma wnprb_at_some (s group : string) :
  Espn.wnprb_at s = Some group -> within group s.
Proof.
  unfold Espn.wnprb_at.
  destruct (Py.remove_prefix (Espn.key "wnPrb") s) as [s1|] eqn:H1; [|discriminate].
  cbn [mbind option_bind].
  destruct (Espn.then_literal "{" s1) as [s2|] eqn:H2; [|discriminate].
  cbn [mbind option_bind].
  destruct (Espn.then_literal (Espn.key "pts") s2) as [s3|] eqn:H3; [|discriminate].
  cbn [mbind option_bind].
  destruct (Espn.then_literal "{" s3) as [s4|] eqn:H4; [|discriminate].
  cbn [mbind option_bind].
  destruct (span_parts Espn.not_closing s4) as [Hparts _].
  destruct (Py.span Espn.not_closing s4) as [g rest]. cbn [fst snd] in Hparts.
  destruct (Py.remove_prefix "}" rest); [|discriminate].
  cbn [mbind option_bind]. intros [= <-].
  apply remove_prefix_spec in H1 as ->.
  apply then_literal_some in H2 as (p2 & ->).
  apply then_literal_some in H3 as (p3 & ->).
  apply then_literal_some in H4 as (p4 & ->).
  do 4 apply within_suffix. rewrite Hparts. apply within_prefix, within_refl.
Qed.

Lemma predictor_at_some (s num : string) :
  Espn.predictor_at s = Some num ->
  within num s /\ Py.all_chars Espn.numeric num = true.
Proof.
  unfold Espn.predictor_at.
  destruct (Py.remove_prefix (Espn.key "mtchpPrdctr") s) as [s1|] eqn:H1; [|discriminate].
  cbn [mbind option_bind].
  destruct (Espn.then_literal "{" s1) as [s2|] eqn:H2; [|discriminate].
  cbn [mbind option_bind].
  destruct (Espn.then_literal (Espn.key "teams") s2) as [s3|] eqn:H3; [|discriminate].
  cbn [mbind option_bind].
  destruct (Espn.then_literal "[" s3) as [s4|] eqn:H4; [|discriminate].
  cbn [mbind option_bind].
  destruct (Espn.then_literal "{" s4) as [s5|] eqn:H5; [|discriminate].
  cbn [mbind option_bind]. intros Hv. apply last_value_some in Hv as [Hin Hall].
  split; [|exact Hall].
  apply remove_prefix_spec in H1 as ->.
  apply then_literal_some in H2 as (p2 & ->).
  apply then_literal_some in H3 as (p3 & ->).
  apply then_literal_some in H4 as (p4 & ->).
  apply then_literal_some in H5 as (p5 & ->).
  do 5 apply within_suffix. exact Hin.
Qed.

Lemma searched_number (at_position : string -> option string) (s num : string) :
  (forall s' n, at_position s' = Some n ->
                within n s' /\ Py.all_chars Espn.numeric n = true) ->
  Espn.search at_position s = Some num ->
  within num s /\ Py.all_chars Espn.numeric num = true.
Proof.
  intros Hat Hs. apply search_sound in Hs as (pre & s' & -> & Hs').
  destruct (Hat _ _ Hs') as [Hin Hall]. split; [|exact Hall].
  apply within_suffix. exact Hin.
Qed.

Lemma report_done (announce : string -> line) (token number : string) (t t' : terminal) :
  Espn.report announce token t = (Done (Some number), t') ->
  token = number /\ Espn.float_ok number = true /\
  disk t' = disk t /\ screen t' = screen t ++ [announce number].
Proof.
  unfold Espn.report. destruct (Espn.float_ok token) eqn:Hok; [|discriminate].
  unfold say, mbind, T_bind, t_bind, mret, T_ret, t_ret. intros [= <- <-].
  cbn [disk screen]. rewrite Hok. auto.
Qed.

(** X25: a win probability that is returned stands in the file.  When
    the function returns a number, the text it was converted from is a
    piece of the file read, made of digits with at most one dot; the line
    printed shows this number, and no file has changed. *)
Theorem win_probability_is_in_the_file (filepath number : string) (t t' : terminal) :
  Espn.extract_initial_win_prob filepath t = (Done (Some number), t') ->
  exists f,
    files (disk t) !! filepath = Some f /\
    Py.contains number (text f) = true /\
    Py.all_chars Espn.numeric number = true /\
    Espn.float_ok number = true /\
    disk t' = disk t /\
    (screen t' = screen t ++ [WinProbability number] \/
     screen t' = screen t ++ [PredictedWinProbability number]).
Proof.
  unfold Espn.extract_initial_win_prob. unfold mbind at 1. unfold T_bind, t_bind.
  rewrite call_read_file. destruct (files (disk t) !! filepath) as [f|]; [|discriminate].
  intros Hrun. exists f. split; [reflexivity|].
  destruct (Espn.search Espn.wnprb_at (text f)) as [group|] eqn:Hgroup.
  - cbn [mbind option_bind] in Hrun.
    destruct (Espn.search Espn.number_at group) as [token|] eqn:Htoken.
    + apply report_done in Hrun as (-> & Hok & Hdisk & Hscreen).
      apply (searched_number _ _ _ number_at_some) in Htoken as [Hin Hall].
      apply search_sound in Hgroup as (pre & s' & Hf & Hs').
      apply wnprb_at_some in Hs'.
      assert (Hfile : within number (text f)).
      { rewrite Hf. apply within_suffix. eapply within_trans; eassumption. }
      split; [exact (within_contains _ _ Hfile)|]. auto.
    + destruct (Espn.search Espn.predictor_at (text f)) as [token|] eqn:Htoken'.
      * apply report_done in Hrun as (-> & Hok & Hdisk & Hscreen).
        apply (searched_number _ _ _ predictor_at_some) in Htoken' as [Hin Hall].
        split; [exact (within_contains _ _ Hin)|]. auto.
      * discriminate.
  - cbn [mbind option_bind] in Hrun.
    destruct (Espn.search Espn.predictor_at (text f)) as [token|] eqn:Htoken'.
    + apply report_done in Hrun as (-> & Hok & Hdisk & Hscreen).
      apply (searched_number _ _ _ predictor_at_some) in Htoken' as [Hin Hall].
      split; [exact (within_contains _ _ Hin)|]. auto.
    + discriminate.
Qed.

Lemma win_probability_is_in_the_file_witness :
  let t := boot (espn_world espn_page) in
  Espn.extract_initial_win_prob "espn/guardians-mets.html" t
  = (Done (Some "0.55"), {| disk := disk t; screen := [WinProbability "0.55"] |}) /\
  Py.contains "0.55" espn_page = true.
Proof.
  intros t.
  assert (Hrun : Espn.extract_initial_win_prob "espn/guardians-mets.html" t
                 = (Done (Some "0.55"),
                    {| disk := disk t; screen := [WinProbability "0.55"] |}))
    by (vm_compute; reflexivity).
  split; [exact Hrun|].
  destruct (win_probability_is_in_the_file _ _ _ _ Hrun) as (f & Hf & Hin & _).
  vm_compute in Hf. injection Hf as <-. exact Hin.
Defined.

Lemma search_none {A} (at_position : string -> option A) (p s : string) :
  (forall s', String.prefix p s' = false -> at_position s' = None) ->
  Py.contains p s = false ->
  Espn.search at_position s = None.
Proof.
  intros Hat. induction s as [|c s IH]; cbn [Py.contains Espn.search]; intros Hfree.
  - apply orb_false_iff in Hfree as [Hhere _]. rewrite (Hat _ Hhere). reflexivity.
  - apply orb_false_iff in Hfree as [Hhere Hlater]. rewrite (Hat _ Hhere). exact (IH Hlater).
Qed.

(** X26: without the two keys nothing is found.  For a file that holds
    neither ["wnPrb":] nor ["mtchpPrdctr":] the function returns [None]
    and prints that the win probability was not found. *)
Theorem no_key_no_win_probability (filepath : string) (f : file) (t : terminal) :
  files (disk t) !! filepath = Some f ->
  Py.contains (Espn.key "wnPrb") (text f) = false ->
  Py.contains (Espn.key "mtchpPrdctr") (text f) = false ->
  Espn.extract_initial_win_prob filepath t
  = (Done None, {| disk := disk t; screen := screen t ++ [WinProbabilityNotFound] |}).
Proof.
  intros Hf Hwn Hmt.
  unfold Espn.extract_initial_win_prob. unfold mbind at 1. unfold T_bind, t_bind.
  rewrite call_read_file, Hf.
  rewrite (search_none Espn.wnprb_at (Espn.key "wnPrb") (text f)); [|
    intros s' Hs'; unfold Espn.wnprb_at; rewrite (remove_prefix_prefix _ _ Hs'); reflexivity
    | exact Hwn].
  cbn [mbind option_bind].
  rewrite (search_none Espn.predictor_at (Espn.key "mtchpPrdctr") (text f)); [|
    intros s' Hs'; unfold Espn.predictor_at; rewrite (remove_prefix_prefix _ _ Hs');
    reflexivity
    | exact Hmt].
  reflexivity.
Qed.

Lemma no_key_no_win_probability_witness :
  let t := boot (espn_world "<html>Guardians at Mets</html>") in
  Espn.extract_initial_win_prob "espn/guardians-mets.html" t
  = (Done None, {| disk := disk t; screen := [WinProbabilityNotFound] |}).
Proof.
  intros t.
  apply (no_key_no_win_probability "espn/guardians-mets.html"
           {| mtime := 1000; text := "<html>Guardians at Mets</html>" |} t);
    vm_compute; reflexivity.
Defined.

(* ================================================================== *)
(** ** Properties of [main] of mlb_schedule_scraper.py *)
(* ================================================================== *)

Section MainFacts.
Context `{Library}.

Lemma call_get_all_games (path : string) (t : terminal) :
  call (get_all_games_from_schedule path) t
  = (match files (disk t) !! path with
     | Some f =>
         Done (scan_schedule (today_string (today (disk t))) (BeautifulSoup (text f)))
     | None => Failed (OSError FileNotFoundError)
     end, t).
Proof.
  unfold call, printed. rewrite get_all_games_from_schedule_unfold.
  destruct t as [w out]. cbn [disk screen].
  destruct (files w !! path); cbn [snd]; rewrite drop_all, app_nil_r; reflexivity.
Qed.

(** The writers of the plain run and the line after them. *)
Lemma plain_writes (g : game) (gs : list game) (csv json : string) (t : terminal) :
  let games := g :: gs in
  let w := disk t in
  let csv_file :=
    {| mtime := clock w; text := csv_dump fieldnames (List.map clean_game games) |} in
  let json_file := {| mtime := (clock w + 1)%Z; text := json_dump games |} in
  let r := (call (save_to_csv games csv);; call (save_to_json games json);;
            say (MainDataSaved csv json)) t in
  if bool_decide (csv ∈ locked w) then r = (Failed (OSError PermissionError), t)
  else if bool_decide (json ∈ locked w)
       then fst r = Failed (OSError PermissionError) /\
            files (disk (snd r)) = <[csv := csv_file]> (files w) /\
            screen (snd r) = screen t ++ [Earlier (SavedGames (length games) csv)]
       else fst r = Done tt /\
            files (disk (snd r)) = <[json := json_file]> (<[csv := csv_file]> (files w)) /\
            screen (snd r) = screen t ++ [Earlier (SavedGames (length games) csv);
                                          Earlier (SavedGames (length games) json);
                                          MainDataSaved csv json].
Proof.
  intros games w csv_file json_file r. subst r csv_file json_file games w.
  destruct t as [w out].
  unfold mbind, T_bind, t_bind, call, say, printed, save_to_csv, save_to_json, write_file,
    print, mbind, M_bind, bind.
  cbn [disk screen].
  destruct (bool_decide (csv ∈ locked w)).
  { cbn [snd fst]. rewrite drop_all, app_nil_r. reflexivity. }
  cbn [stdout files locked clock with_stdout with_files with_clock fst snd disk screen].
  destruct (bool_decide (json ∈ locked w)).
  - cbn [stdout files locked clock with_stdout with_files with_clock fst snd disk screen].
    rewrite drop_app_length, drop_all, app_nil_r. split; [reflexivity|]. split; reflexivity.
  - cbn [stdout files locked clock with_stdout with_files with_clock fst snd disk screen].
    rewrite !drop_app_length. rewrite <- !app_assoc. split; [reflexivity|]. split; reflexivity.
Qed.

Lemma main_plain (args : Scraper.arguments) (t : terminal) :
  Scraper.update args = false ->
  Scraper.force args = false ->
  Scraper.main args t
  = t_try (Scraper.extract_all args) (Scraper.on_error args)
      {| disk := disk t; screen := screen t ++ [MainExtractingAll] |}.
Proof. intros Hupdate Hforce. unfold Scraper.main. rewrite Hupdate, Hforce. reflexivity. Qed.

Lemma extract_all_unfold (args : Scraper.arguments) (t : terminal) :
  Scraper.extract_all args t
  = match files (disk t) !! Scraper.html_file args with
    | None => (Failed (OSError FileNotFoundError), t)
    | Some fh =>
        match scan_schedule (today_string (today (disk t))) (BeautifulSoup (text fh)) with
        | [] => say MainNoGames t
        | g :: gs =>
            (call (save_to_csv (g :: gs) (Scraper.csv_file args));;
             call (save_to_json (g :: gs) (Scraper.json_file args));;
             say (MainDataSaved (Scraper.csv_file args) (Scraper.json_file args)))
              {| disk := disk t; screen := screen t ++ [MainExtracted (length (g :: gs))] |}
        end
    end.
Proof.
  unfold Scraper.extract_all. unfold mbind at 1. unfold T_bind, t_bind.
  rewrite call_get_all_games.
  destruct (files (disk t) !! Scraper.html_file args) as [fh|]; [|reflexivity].
  destruct (scan_schedule (today_string (today (disk t))) (BeautifulSoup (text fh)));
    reflexivity.
Qed.


Lemma update_returns (html csv json : string) (force : bool) (w : world) :
  exists b, fst (update_csv_from_html html csv json force w) = Ok b.
Proof.
  pose proof (update_outcome html csv json force w) as Hout.
  destruct (fst (update_csv_from_html html csv json force w)) as [b|e]; [exists b; reflexivity|].
  exfalso. cbv zeta in Hout.
  destruct (files w !! html) as [fh|]; [|discriminate].
  destruct (up_to_date csv force fh w); [discriminate|].
  destruct (scan_schedule (today_string (today w)) (BeautifulSoup (text fh)));
    [discriminate|].
  destruct (bool_decide (csv ∈ locked w)); [discriminate|].
  destruct (bool_decide (json ∈ locked w)); discriminate.
Qed.

(** [main] of the schedule script never raises.  With [--update] or
    [--force] the update answers and its answer is printed; in a plain
    run every exception of the extraction and of the writers is caught
    and printed.  So the script always ends normally, also when nothing
    was written. *)
Lemma schedule_main_never_raises (args : Scraper.arguments) (t : terminal) :
  fst (Scraper.main args t) = Done tt.
Proof.
  unfold Scraper.main. destruct (Scraper.update args || Scraper.force args).
  - unfold mbind, T_bind, t_bind, call.
    destruct (update_returns (Scraper.html_file args) (Scraper.csv_file args)
                (Scraper.json_file args) (Scraper.force args) (disk t)) as [b Hb].
    destruct (update_csv_from_html (Scraper.html_file args) (Scraper.csv_file args)
                (Scraper.json_file args) (Scraper.force args) (disk t)) as [res w'].
    cbn [fst] in Hb. subst res. destruct b; reflexivity.
  - unfold mbind, T_bind, t_bind, say at 1, t_try.
    destruct (Scraper.extract_all args _) as [[[]|e] t'] eqn:Hbody; [reflexivity|].
    unfold Scraper.on_error. destruct e as [[]| |]; reflexivity.
Qed.

End MainFacts.


(* ================================================================== *)
(** ** Properties of the update of today's games of day_sample.py *)
(* ================================================================== *)

Lemma append_cons (c : ascii) (a b : string) : String c a +:+ b = String c (a +:+ b).
Proof. reflexivity. Qed.

Lemma append_nil (b : string) : EmptyString +:+ b = b.
Proof. reflexivity. Qed.

Lemma length_append (a b : string) :
  String.length (a +:+ b) = String.length a + String.length b.
Proof.
  induction a as [|c a IH]; [reflexivity|].
  rewrite append_cons. cbn [String.length]. rewrite IH. reflexivity.
Qed.

Lemma occurs_append (c : ascii) (a b : string) :
  occurs c (a +:+ b) = occurs c a || occurs c b.
Proof.
  induction a as [|x a IH]; [reflexivity|].
  rewrite append_cons. cbn [occurs]. rewrite IH. apply orb_assoc.
Qed.

Lemma all_chars_occurs (p : ascii -> bool) (c : ascii) (s : string) :
  Py.all_chars p s = true -> p c = false -> occurs c s = false.
Proof.
  intros Hall Hc. induction s as [|x s IH]; [reflexivity|].
  cbn [Py.all_chars] in Hall. apply andb_true_iff in Hall as [Hx Hall].
  cbn [occurs]. rewrite (IH Hall), orb_false_r.
  apply Ascii.eqb_neq. intros ->. congruence.
Qed.

Lemma prefix_other_head (c x : ascii) (p s : string) :
  Ascii.eqb c x = false -> String.prefix (String c p) (String x s) = false.
Proof.
  intros Hcx. cbn [String.prefix]. destruct (ascii_dec c x) as [->|]; [|reflexivity].
  rewrite Ascii.eqb_refl in Hcx. discriminate.
Qed.

(** A text without the first character of [old] holds no [old]. *)
Lemma contains_after (c : ascii) (p a b : string) :
  occurs c a = false ->
  Py.contains (String c p) (a +:+ b) = Py.contains (String c p) b.
Proof.
  intros Ha. induction a as [|x a IH]; [reflexivity|].
  cbn [occurs] in Ha. apply orb_false_iff in Ha as [Hx Ha].
  rewrite append_cons. cbn [Py.contains].
  rewrite (prefix_other_head c x p _ Hx), (IH Ha). reflexivity.
Qed.

Lemma contains_absent (c : ascii) (p s : string) :
  occurs c s = false -> Py.contains (String c p) s = false.
Proof.
  intros Hs. rewrite <- (append_empty_r s), (contains_after c p s EmptyString Hs).
  reflexivity.
Qed.

Lemma replace_from_absent (old new s : string) :
  Py.contains old s = false -> Py.replace_from 0 old new s = s.
Proof.
  induction s as [|c s IH]; [reflexivity|].
  cbn [Py.contains Py.replace_from]. intros Hfree.
  apply orb_false_iff in Hfree as [Hhere Hlater]. rewrite Hhere, (IH Hlater). reflexivity.
Qed.

Lemma replace_from_skip (old new a s : string) :
  Py.replace_from (String.length a) old new (a +:+ s) = Py.replace_from 0 old new s.
Proof.
  induction a as [|x a IH]; [reflexivity|].
  rewrite append_cons. cbn [String.length Py.replace_from]. exact IH.
Qed.

Lemma sub_team_year_skip (a s : string) :
  DayScript.sub_team_year_from (String.length a) (a +:+ s)
  = DayScript.sub_team_year_from 0 s.
Proof.
  induction a as [|x a IH]; [reflexivity|].
  rewrite append_cons. cbn [String.length DayScript.sub_team_year_from]. exact IH.
Qed.

Lemma team_year_at_other (x : ascii) (s : string) :
  Ascii.eqb "/" x = false -> DayScript.team_year_at (String x s) = None.
Proof.
  intros Hx. unfold DayScript.team_year_at. cbn [Py.remove_prefix]. rewrite Hx. reflexivity.
Qed.

(** A stretch without a slash is copied. *)
Lemma sub_team_year_plain (a b : string) :
  occurs "/" a = false ->
  DayScript.sub_team_year_from 0 (a +:+ b) = a +:+ DayScript.sub_team_year_from 0 b.
Proof.
  intros Ha. induction a as [|x a IH]; [reflexivity|].
  cbn [occurs] in Ha. apply orb_false_iff in Ha as [Hx Ha].
  rewrite !append_cons. cbn [DayScript.sub_team_year_from].
  rewrite (team_year_at_other x _ Hx), (IH Ha). reflexivity.
Qed.

Lemma sub_team_year_none (s : string) :
  occurs "/" s = false -> DayScript.sub_team_year_from 0 s = s.
Proof.
  intros Hs. rewrite <- (append_empty_r s) at 1.
  rewrite (sub_team_year_plain s EmptyString Hs). apply append_empty_r.
Qed.

(** A slash that no capital letter follows is copied. *)
Lemma sub_team_year_slash (s : string) :
  fst (Py.span Py.isupper_az s) = EmptyString ->
  DayScript.sub_team_year_from 0 (String "/" s)
  = String "/" (DayScript.sub_team_year_from 0 s).
Proof.
  intros Hs. cbn [DayScript.sub_team_year_from].
  unfold DayScript.team_year_at, DayScript.some_chars.
  cbn [Py.remove_prefix Ascii.eqb Bool.eqb]. cbn [mbind option_bind].
  destruct (Py.span Py.isupper_az s) as [a r]. cbn [fst] in Hs. subst a. reflexivity.
Qed.

(** At a slash, capital letters and [2025]: the replacement, and the
    search goes on after the match. *)
Lemma sub_team_year_match (code rest : string) :
  Py.all_chars Py.isupper_az code = true ->
  code <> EmptyString ->
  DayScript.sub_team_year_from 0 (String "/" (code +:+ "2025" +:+ rest))
  = "/" +:+ code +:+ "/P25" +:+ DayScript.sub_team_year_from 0 rest.
Proof.
  intros Hcode Hne. cbn [DayScript.sub_team_year_from].
  assert (Hat : DayScript.team_year_at (String "/" (code +:+ "2025" +:+ rest))
                = Some (code, rest)).
  { unfold DayScript.team_year_at, DayScript.some_chars.
    change (String "/" (code +:+ "2025" +:+ rest)) with ("/" +:+ code +:+ "2025" +:+ rest).
    rewrite remove_prefix_app. cbn [mbind option_bind].
    change ("2025" +:+ rest) with (String "2" ("025" +:+ rest)).
    rewrite (span_all Py.isupper_az code "2" ("025" +:+ rest) Hcode eq_refl).
    destruct code as [|k code]; [contradiction|]. cbn [nonempty].
    cbn [mbind option_bind].
    change (String "2" ("025" +:+ rest)) with ("2025" +:+ rest).
    rewrite remove_prefix_app. reflexivity. }
  rewrite Hat. unfold DayScript.team_year_replacement.
  rewrite !append_assoc. do 3 f_equal.
  replace (String.length (String "/" (code +:+ "2025" +:+ rest)) - String.length rest - 1)
    with (String.length (code +:+ "2025")).
  - rewrite <- (append_assoc code "2025" rest). apply sub_team_year_skip.
  - cbn [String.length]. rewrite !length_append. lia.
Qed.

Lemma span_empty_head (p : ascii -> bool) (a b : string) (c : ascii) :
  Py.all_chars (fun x => negb (p x)) a = true -> p c = false ->
  fst (Py.span p (a +:+ String c b)) = EmptyString.
Proof.
  intros Ha Hc. destruct a as [|x a].
  - rewrite append_nil. cbn [Py.span]. rewrite Hc. reflexivity.
  - cbn [Py.all_chars] in Ha. apply andb_true_iff in Ha as [Hx _].
    apply negb_true_iff in Hx. rewrite append_cons. cbn [Py.span]. rewrite Hx. reflexivity.
Qed.

Lemma all_chars_impl (p q : ascii -> bool) (s : string) :
  (forall c, p c = true -> q c = true) ->
  Py.all_chars p s = true -> Py.all_chars q s = true.
Proof.
  intros Hpq. induction s as [|c s IH]; [reflexivity|].
  cbn [Py.all_chars]. intros Hs. apply andb_true_iff in Hs as [Hc Hs].
  rewrite (Hpq c Hc), (IH Hs). reflexivity.
Qed.

Lemma digit_not_upper (c : ascii) : Py.isdigit c = true -> negb (Py.isupper_az c) = true.
Proof.
  unfold Py.isdigit, Py.isupper_az, Py.between. intros Hc.
  apply andb_true_iff in Hc as [_ Hhi]. apply N.leb_le in Hhi.
  apply negb_true_iff, andb_false_iff. left. apply N.leb_gt. lia.
Qed.

(** X28: the boxscore link of a preview link loses the team code before
    the year.  For a preview link of the form
    [/previews/<digits>/<CODE>2025<rest>] the link written into the page is
    [/boxes/<digits>/<CODE>/P25<rest>]: the template of line 74 does not
    repeat the code before [2025], it puts the letter [P] and [25] after
    the slash. *)
Theorem boxscore_link_of_a_preview (dir code rest : string) :
  Py.all_chars Py.isdigit dir = true ->
  Py.all_chars Py.isupper_az code = true ->
  code <> EmptyString ->
  occurs "/" rest = false ->
  DayScript.boxscore_url ("/previews/" +:+ dir +:+ "/" +:+ code +:+ "2025" +:+ rest)
  = "/boxes/" +:+ dir +:+ "/" +:+ code +:+ "/P25" +:+ rest.
Proof.
  intros Hdir Hcode Hne Hrest.
  assert (Hdir_slash : occurs "/" dir = false)
    by exact (all_chars_occurs Py.isdigit "/" dir Hdir eq_refl).
  assert (Hcode_slash : occurs "/" code = false)
    by exact (all_chars_occurs Py.isupper_az "/" code Hcode eq_refl).
  assert (Htail : occurs "/" (code +:+ "2025" +:+ rest) = false).
  { rewrite !occurs_append, Hcode_slash, Hrest. reflexivity. }
  unfold DayScript.boxscore_url.
  (* line 73 *)
  assert (Hreplace :
            Py.replace "/previews/" "/boxes/"
              ("/previews/" +:+ dir +:+ "/" +:+ code +:+ "2025" +:+ rest)
            = "/boxes/" +:+ dir +:+ "/" +:+ code +:+ "2025" +:+ rest).
  { unfold Py.replace.
    change ("/previews/" +:+ dir +:+ "/" +:+ code +:+ "2025" +:+ rest)
      with (String "/" ("previews/" +:+ dir +:+ "/" +:+ code +:+ "2025" +:+ rest)).
    cbn [Py.replace_from].
    change (String "/" ("previews/" +:+ dir +:+ "/" +:+ code +:+ "2025" +:+ rest))
      with ("/previews/" +:+ dir +:+ "/" +:+ code +:+ "2025" +:+ rest).
    rewrite prefix_app.
    change (String.length "/previews/" - 1) with (String.length "previews/").
    rewrite replace_from_skip, replace_from_absent; [reflexivity|].
    rewrite (contains_after "/" "previews/" dir _ Hdir_slash).
    change ("/" +:+ code +:+ "2025" +:+ rest) with (String "/" (code +:+ "2025" +:+ rest)).
    cbn [Py.contains]. rewrite (contains_absent "/" "previews/" _ Htail), orb_false_r.
    destruct code as [|k code]; [contradiction|].
    rewrite append_cons. cbn [String.prefix].
    destruct (ascii_dec "/" "/"); [|congruence].
    cbn [Py.all_chars] in Hcode. apply andb_true_iff in Hcode as [Hk _].
    destruct (ascii_dec "p" k) as [<-|]; [discriminate | reflexivity]. }
  rewrite Hreplace.
  (* line 74 *)
  change ("/boxes/" +:+ dir +:+ "/" +:+ code +:+ "2025" +:+ rest)
    with (String "/" ("boxes" +:+ String "/" (dir +:+ String "/" (code +:+ "2025" +:+ rest)))).
  rewrite sub_team_year_slash by reflexivity.
  rewrite (sub_team_year_plain "boxes" _ eq_refl).
  rewrite sub_team_year_slash.
  2:{ apply span_empty_head; [|reflexivity].
      exact (all_chars_impl _ _ dir digit_not_upper Hdir). }
  rewrite (sub_team_year_plain dir _ Hdir_slash).
  rewrite (sub_team_year_match code rest Hcode Hne), (sub_team_year_none rest Hrest).
  reflexivity.
Qed.

Lemma boxscore_link_of_a_preview_witness :
  DayScript.boxscore_url ("/previews/" +:+ "2025" +:+ "/" +:+ "NYN" +:+ "2025" +:+ "08040.shtml")
  = "/boxes/2025/NYN/P2508040.shtml".
Proof.
  apply (boxscore_link_of_a_preview "2025" "NYN" "08040.shtml");
    [reflexivity | reflexivity | discriminate | reflexivity].
Defined.

Lemma printed_now (w : world) : printed now w = [].
Proof. unfold printed, now. cbn [snd]. apply drop_all. Qed.

Lemma call_now (t : terminal) : call now t = (Done (today (disk t)), t).
Proof.
  unfold call. rewrite printed_now. destruct t as [w out]. cbn [disk screen].
  rewrite app_nil_r. reflexivity.
Qed.

(** The run of the update of today's games, case by case. *)
Lemma update_todays_games_run (path : string) (t : terminal) :
  DayScript.update_todays_games path t
  = match files (disk t) !! path with
    | None => (Failed (OSError FileNotFoundError), t)
    | Some f =>
        let d := strftime_long (today (disk t)) in
        if bool_decide (path ∈ locked (disk t))
        then (Failed (OSError PermissionError),
              {| disk := disk t; screen := screen t ++ [TodayCurrentDate d] |})
        else (Done tt,
              {| disk := with_clock (clock (disk t) + 1)
                           (with_files
                              (<[path := {| mtime := clock (disk t);
                                            text := DayScript.new_content d (text f) |}]>
                                 (files (disk t))) (disk t));
                 screen := screen t ++ [TodayCurrentDate d; TodayReplaced d] |})
    end.
Proof.
  unfold DayScript.update_todays_games. unfold mbind at 1. unfold T_bind, t_bind.
  rewrite call_read_file. destruct (files (disk t) !! path) as [f|]; [|reflexivity].
  unfold mbind at 1. unfold T_bind, t_bind. rewrite call_now.
  unfold mbind at 1. unfold T_bind, t_bind. unfold say at 1.
  unfold mbind at 1. unfold T_bind, t_bind. rewrite call_write_file. cbn [disk screen].
  cbv zeta. destruct (bool_decide (path ∈ locked (disk t))); [reflexivity|].
  unfold say. cbn [disk screen]. rewrite <- app_assoc. reflexivity.
Qed.

Lemma sub_games_absent (s : string) :
  Py.contains game_open s = false -> DayScript.sub_games_from 0 s = s.
Proof.
  induction s as [|c s IH]; [reflexivity|].
  cbn [Py.contains DayScript.sub_games_from]. intros Hfree.
  apply orb_false_iff in Hfree as [Hhere Hlater].
  unfold DayScript.game_at. fold game_open.
  rewrite (remove_prefix_prefix _ _ Hhere). cbn [mbind option_bind].
  rewrite (IH Hlater). reflexivity.
Qed.

(** The update proceeds to the extraction when the gate is open. *)
Lemma open_gate_proceeds `{Library} (html csv json : string) (force : bool)
    (w : world) (fh : file) :
  files w !! html = Some fh ->
  up_to_date csv force fh w = false ->
  proceeds html csv json force w.
Proof.
  intros Hh Hgate. unfold proceeds, printed.
  rewrite (update_csv_from_html_unfold html csv json force w fh Hh), Hgate.
  destruct (guarded_stdout html csv json (mtime fh)
              (with_stdout (stdout w ++ before_gate html csv fh w ++ [ExtractingGames]) w))
    as [l Hl].
  rewrite Hl. cbn [stdout with_stdout]. rewrite <- app_assoc, drop_app_length.
  unfold before_gate. set_solver.
Qed.



(* ================================================================== *)
(** ** Properties of the display of day_sample.py *)
(* ================================================================== *)

Lemma say_run (l : line) (t : terminal) :
  say l t = (Done tt, {| disk := disk t; screen := screen t ++ [l] |}).
Proof. reflexivity. Qed.

Lemma t_bind_run {A B} (m : T A) (k : A -> T B) (t t1 : terminal) (a : A) :
  m t = (Done a, t1) -> (m ≫= k) t = k a t1.
Proof. intros Hm. unfold mbind, T_bind, t_bind. rewrite Hm. reflexivity. Qed.

Lemma show_game_run (j : nat) (g : DaySample.game_data) (t : terminal) :
  DayScript.show_game j g t
  = (Done tt, {| disk := disk t; screen := screen t ++ game_lines j g |}).
Proof.
  unfold DayScript.show_game, game_lines, DayScript.when, mbind, T_bind, t_bind, say,
    mret, T_ret, t_ret.
  destruct t as [w out]. cbn [disk screen].
  destruct (DaySample.score1 g) as [s1|], (DaySample.score2 g) as [s2|],
    (DaySample.time g) as [[|c tm]|], (DaySample.game_type g) as [[|c' ty]|];
    cbn [nonempty disk screen app]; rewrite <- ?app_assoc; reflexivity.
Qed.

Lemma show_games_run (j : nat) (games : list DaySample.game_data) (t : terminal) :
  DayScript.show_games j games t
  = (Done tt, {| disk := disk t; screen := screen t ++ games_lines j games |}).
Proof.
  revert j t. induction games as [|g rest IH]; intros j t.
  - cbn [DayScript.show_games games_lines]. destruct t as [w out]. cbn [disk screen].
    rewrite app_nil_r. reflexivity.
  - cbn [DayScript.show_games games_lines].
    rewrite (t_bind_run _ _ t _ tt (show_game_run j g t)), IH. cbn [disk screen].
    rewrite <- app_assoc. reflexivity.
Qed.

Lemma show_days_run (i : nat) (days : list DaySample.day) (t : terminal) :
  DayScript.show_days i days t
  = (Done tt, {| disk := disk t; screen := screen t ++ days_lines i days |}).
Proof.
  revert i t. induction days as [|d rest IH]; intros i t.
  - cbn [DayScript.show_days days_lines]. destruct t as [w out]. cbn [disk screen].
    rewrite app_nil_r. reflexivity.
  - cbn [DayScript.show_days days_lines].
    rewrite (t_bind_run _ _ t _ tt (say_run _ t)).
    rewrite (t_bind_run _ _ _ _ tt (show_games_run 1 (DaySample.day_games d) _)), IH.
    cbn [disk screen]. rewrite <- !app_assoc. reflexivity.
Qed.

Lemma count_app (p : line -> bool) (a b : list line) :
  count p (a ++ b) = count p a + count p b.
Proof. unfold count. rewrite List.filter_app, length_app. reflexivity. Qed.

Lemma count_earlier (p : line -> bool) (ms : list message) :
  (forall m, p (Earlier m) = false) -> count p (List.map Earlier ms) = 0.
Proof.
  intros Hp. unfold count. induction ms as [|m ms IH]; [reflexivity|].
  cbn [List.map List.filter]. rewrite Hp. exact IH.
Qed.

Lemma game_lines_counts (j : nat) (g : DaySample.game_data) :
  count is_day_line (game_lines j g) = 0 /\
  count is_game_line (game_lines j g) = 1 /\
  count is_score_line (game_lines j g) = (if DayScript.completed g then 1 else 0) /\
  count is_tbd_line (game_lines j g) = (if DayScript.completed g then 0 else 1).
Proof.
  unfold game_lines, DayScript.completed, count.
  destruct (DaySample.score1 g) as [s1|], (DaySample.score2 g) as [s2|],
    (DaySample.time g) as [[|c tm]|], (DaySample.game_type g) as [[|c' ty]|];
    repeat split; reflexivity.
Qed.

Lemma games_lines_counts (j : nat) (games : list DaySample.game_data) :
  count is_day_line (games_lines j games) = 0 /\
  count is_game_line (games_lines j games) = length games /\
  count is_score_line (games_lines j games)
  = length (List.filter DayScript.completed games) /\
  count is_score_line (games_lines j games) + count is_tbd_line (games_lines j games)
  = length games.
Proof.
  revert j. induction games as [|g rest IH]; intros j; [repeat split; reflexivity|].
  cbn [games_lines]. rewrite !count_app.
  destruct (game_lines_counts j g) as (Hd & Hg & Hs & Ht).
  destruct (IH (S j)) as (IHd & IHg & IHs & IHt).
  rewrite Hd, Hg, Hs, Ht, IHd, IHg, IHs. cbn [List.filter length].
  destruct (DayScript.completed g); cbn [length]; repeat split; lia.
Qed.

Lemma list_sum_cons (a : nat) (l : list nat) : list_sum (a :: l) = a + list_sum l.
Proof. reflexivity. Qed.

Lemma days_lines_counts (i : nat) (days : list DaySample.day) :
  count is_day_line (days_lines i days) = length days /\
  count is_game_line (days_lines i days) = DayScript.total_games days /\
  count is_score_line (days_lines i days) = DayScript.completed_games days /\
  count is_score_line (days_lines i days) + count is_tbd_line (days_lines i days)
  = DayScript.total_games days.
Proof.
  revert i. induction days as [|d rest IH]; intros i; [repeat split; reflexivity|].
  cbn [days_lines].
  change (DisplayDay i (DaySample.day_date d) (length (DaySample.day_games d))
          :: games_lines 1 (DaySample.day_games d) ++ days_lines (S i) rest)
    with ([DisplayDay i (DaySample.day_date d) (length (DaySample.day_games d))]
          ++ games_lines 1 (DaySample.day_games d) ++ days_lines (S i) rest).
  rewrite !count_app.
  destruct (games_lines_counts 1 (DaySample.day_games d)) as (Hd & Hg & Hs & Ht).
  destruct (IH (S i)) as (IHd & IHg & IHs & IHt).
  unfold DayScript.total_games, DayScript.completed_games in *.
  cbn [List.map length]. rewrite !list_sum_cons.
  change (count is_day_line [DisplayDay i (DaySample.day_date d)
                               (length (DaySample.day_games d))]) with 1.
  change (count is_game_line [DisplayDay i (DaySample.day_date d)
                                (length (DaySample.day_games d))]) with 0.
  change (count is_score_line [DisplayDay i (DaySample.day_date d)
                                 (length (DaySample.day_games d))]) with 0.
  change (count is_tbd_line [DisplayDay i (DaySample.day_date d)
                               (length (DaySample.day_games d))]) with 0.
  repeat split; lia.
Qed.


